(** * DenseNet block without normalisation, and the pervasive norms

    A shallow embedding of
    [examples/pervasive/modules/archive/densenet_nonorm.py]:
    [DenseNetNoNorm], [_DenseLayer], [Linear], [PervasiveLayerNorm] and
    [PervasiveBatchNorm].

    Tensors are 4-D arrays given by their four sizes and an indexing
    function; tensor elements range over an abstract scalar type (the
    Python code runs on floating point numbers, of which only the
    operations are used here).  Python exceptions are values of [exn];
    code that reads the random generator, the incremental state or that
    may raise lives in the monad [M]. *)

From Stdlib Require Import List ZArith Bool Arith Lia.
Import ListNotations.

Set Implicit Arguments.

(** ** Scalars *)

(** The operations of the element type that the module relies on. *)
Class Scalar (A : Type) : Type := {
  szero : A;
  sone : A;
  sadd : A -> A -> A;
  ssub : A -> A -> A;
  smul : A -> A -> A;
  sdiv : A -> A -> A;
  ssqrt : A -> A;
  smax : A -> A -> A;
  (* [float(n)] *)
  sfloat : Z -> A;
  (* truth value of a number in a Python [if] *)
  struthy : A -> bool
}.

(** ** Exceptions and the computation monad *)

Inductive exn : Type :=
| ZeroDivisionError
| AttributeError
| IndexError
| RuntimeError.

Inductive result (X : Type) : Type :=
| Ok (x : X)
| Raise (e : exn).

Arguments Raise {X} e.

Definition result_bind {X Y : Type} (r : result X) (f : X -> result Y)
  : result Y :=
  match r with
  | Ok x => f x
  | Raise e => Raise e
  end.

(** A computation over a world [W] (random generator, incremental decoding
    state): it returns a value or raises, and the world it leaves behind is
    kept in both cases. *)
Definition M (W X : Type) : Type := W -> result X * W.

Definition ret {W X : Type} (x : X) : M W X := fun w => (Ok x, w).

Definition raise {W X : Type} (e : exn) : M W X := fun w => (Raise e, w).

Definition bind {W X Y : Type} (m : M W X) (f : X -> M W Y) : M W Y :=
  fun w =>
    match m w with
    | (Ok x, w') => f x w'
    | (Raise e, w') => (Raise e, w')
    end.

Definition lift {W X : Type} (r : result X) : M W X := fun w => (r, w).

Declare Scope py_scope.
Delimit Scope py_scope with py.
Notation "x <- m ;; k" := (bind m (fun x => k))
  (at level 61, m at next level, right associativity) : py_scope.
Notation "x <-! r ;; k" := (result_bind r (fun x => k))
  (at level 61, r at next level, right associativity) : py_scope.
Open Scope py_scope.

(** Kleisli composition, for pipelines of stages. *)
Definition kcomp {W X Y Z : Type} (f : X -> M W Y) (g : Y -> M W Z)
  : X -> M W Z :=
  fun x => bind (f x) g.

Notation "f >=> g" := (kcomp f g) (at level 62, left associativity) : py_scope.

(** ** Tensors *)

(** A 4-D tensor: its sizes, its elements, and the [requires_grad]
    attribute.  Only indices below the sizes are meaningful. *)
Record Tensor (E : Type) : Type := mkTensor {
  size0 : nat;
  size1 : nat;
  size2 : nat;
  size3 : nat;
  item : nat -> nat -> nat -> nat -> E;
  requires_grad : bool
}.

(** A 2-D tensor (the padding masks are [B, T] byte tensors). *)
Record Tensor2 (E : Type) : Type := mkTensor2 {
  rows : nat;
  cols : nat;
  item2 : nat -> nat -> E
}.

Definition shape {E : Type} (t : Tensor E) : nat * nat * nat * nat :=
  (size0 t, size1 t, size2 t, size3 t).

(** The elements of a tensor as nested lists, for display. *)
Definition tolist {E : Type} (t : Tensor E) : list (list (list (list E))) :=
  map (fun i =>
    map (fun j =>
      map (fun k =>
        map (fun l => item t i j k l) (seq 0 (size3 t)))
        (seq 0 (size2 t)))
      (seq 0 (size1 t)))
    (seq 0 (size0 t)).

Definition size_at {E : Type} (t : Tensor E) (d : nat) : nat :=
  match d with
  | 0 => size0 t
  | 1 => size1 t
  | 2 => size2 t
  | _ => size3 t
  end.

(** [t.permute(p0, p1, p2, p3)]: dimension [k] of the result is dimension
    [pk] of [t]. *)
Definition permute {E : Type} (t : Tensor E) (p0 p1 p2 p3 : nat) : Tensor E :=
  {| size0 := size_at t p0;
     size1 := size_at t p1;
     size2 := size_at t p2;
     size3 := size_at t p3;
     item := fun i0 i1 i2 i3 =>
       let pick k :=
         if p0 =? k then i0 else
         if p1 =? k then i1 else
         if p2 =? k then i2 else i3 in
       item t (pick 0) (pick 1) (pick 2) (pick 3);
     requires_grad := requires_grad t |}.

(** Elementwise map. *)
Definition tmap {E F : Type} (f : E -> F) (t : Tensor E) : Tensor F :=
  {| size0 := size0 t; size1 := size1 t; size2 := size2 t; size3 := size3 t;
     item := fun i j k l => f (item t i j k l);
     requires_grad := requires_grad t |}.

(** Broadcasting of one dimension: equal sizes, or one of them is 1. *)
Definition bdim (a b : nat) : result nat :=
  if a =? b then Ok a
  else if a =? 1 then Ok b
  else if b =? 1 then Ok a
  else Raise RuntimeError.

(** Index into a dimension of size [d] that may have been broadcast. *)
Definition bidx (d i : nat) : nat := if d =? 1 then 0 else i.

(** Elementwise binary operation with broadcasting. *)
Definition tmap2 {E F G : Type} (f : E -> F -> G) (a : Tensor E) (b : Tensor F)
  : result (Tensor G) :=
  d0 <-! bdim (size0 a) (size0 b) ;;
  d1 <-! bdim (size1 a) (size1 b) ;;
  d2 <-! bdim (size2 a) (size2 b) ;;
  d3 <-! bdim (size3 a) (size3 b) ;;
  Ok {| size0 := d0; size1 := d1; size2 := d2; size3 := d3;
        item := fun i j k l =>
          f (item a (bidx (size0 a) i) (bidx (size1 a) j)
                    (bidx (size2 a) k) (bidx (size3 a) l))
            (item b (bidx (size0 b) i) (bidx (size1 b) j)
                    (bidx (size2 b) k) (bidx (size3 b) l));
        requires_grad := requires_grad a || requires_grad b |}.

(** [mask.unsqueeze(1).unsqueeze(1)]: [B, T] becomes [B, 1, 1, T]. *)
Definition unsqueeze_1_1 {E : Type} (m : Tensor2 E) : Tensor E :=
  {| size0 := rows m; size1 := 1; size2 := 1; size3 := cols m;
     item := fun i _ _ l => item2 m i l;
     requires_grad := false |}.

(** [mask.unsqueeze(1).unsqueeze(-1)]: [B, T] becomes [B, 1, T, 1]. *)
Definition unsqueeze_1_m1 {E : Type} (m : Tensor2 E) : Tensor E :=
  {| size0 := rows m; size1 := 1; size2 := cols m; size3 := 1;
     item := fun i _ k _ => item2 m i k;
     requires_grad := false |}.

(** [x.masked_fill(mask, value)]: [value] where the mask is set, [x]
    elsewhere. *)
Definition masked_fill {E : Type} (x : Tensor E) (mask : Tensor bool) (value : E)
  : result (Tensor E) :=
  tmap2 (fun e (b : bool) => if b then value else e) x mask.

(** [torch.cat((a, b), 1)]. *)
Definition cat2 {E : Type} (a b : Tensor E) : result (Tensor E) :=
  if (size0 a =? size0 b) && (size2 a =? size2 b) && (size3 a =? size3 b)
  then Ok {| size0 := size0 a;
             size1 := size1 a + size1 b;
             size2 := size2 a;
             size3 := size3 a;
             item := fun i j k l =>
               if j <? size1 a then item a i j k l
               else item b i (j - size1 a) k l;
             requires_grad := requires_grad a || requires_grad b |}
  else Raise RuntimeError.

Fixpoint cat_onto {E : Type} (acc : Tensor E) (ts : list (Tensor E))
  : result (Tensor E) :=
  match ts with
  | [] => Ok acc
  | t :: ts' => acc' <-! cat2 acc t ;; cat_onto acc' ts'
  end.

(** [torch.cat(tensors, 1)]: concatenation along the channel dimension; the
    other sizes must agree and the sequence must not be empty. *)
Definition torch_cat {E : Type} (tensors : list (Tensor E)) : result (Tensor E) :=
  match tensors with
  | [] => Raise RuntimeError
  | t :: ts => cat_onto t ts
  end.

(** The element at channel [j] of tensors laid side by side along the
    channels: channel [j] of the first one if it has that many channels,
    otherwise looked up in the rest, past the channels of the first. *)
Fixpoint item_along_channels {E : Type} (default : E) (ts : list (Tensor E))
  (i j k l : nat) : E :=
  match ts with
  | [] => default
  | t :: ts' =>
      if j <? size1 t then item t i j k l
      else item_along_channels default ts' i (j - size1 t) k l
  end.

(** Two tensors agree in all sizes but the number of channels. *)
Definition same_sizes_but_channels {E : Type} (a b : Tensor E) : bool :=
  (size0 a =? size0 b) && (size2 a =? size2 b) && (size3 a =? size3 b).

(** A list that can be concatenated along the channels: it is not empty and
    its tensors agree with the first in the other sizes. *)
Definition can_cat {E : Type} (ts : list (Tensor E)) : bool :=
  match ts with
  | [] => false
  | t :: ts' => forallb (same_sizes_but_channels t) ts'
  end.

(** The total number of channels of a list of tensors. *)
Definition total_channels {E : Type} (ts : list (Tensor E)) : nat :=
  list_sum (map (@size1 E) ts).

Section ScalarTensors.
Context {A : Type} `{Scalar A}.

(** Sum of [f 0], ..., [f (n-1)], from the left. *)
Definition sum_upto (n : nat) (f : nat -> A) : A :=
  fold_left (fun acc c => sadd acc (f c)) (seq 0 n) szero.

Definition sum_list (xs : list A) : A :=
  fold_left sadd xs szero.

(** [F.relu] *)
Definition F_relu (x : Tensor A) : Tensor A := tmap (smax szero) x.

(** The mean of a list of numbers. *)
Definition mean_list (xs : list A) : A :=
  sdiv (sum_list xs) (sfloat (Z.of_nat (length xs))).

(** The standard deviation of a list of numbers, unbiased estimator as in
    [Tensor.std]. *)
Definition std_list (xs : list A) : A :=
  let m := mean_list xs in
  ssqrt (sdiv (sum_list (map (fun x => smul (ssub x m) (ssub x m)) xs))
              (sfloat (Z.max 0 (Z.of_nat (length xs) - 1)))).

(** Dimension numbers may be negative in Python. *)
Definition norm_dim (d : Z) : nat :=
  Z.to_nat (if (d <? 0)%Z then d + 4 else d)%Z.

(** Reduction of one dimension with [keepdim=True]. *)
Definition reduce_dim (r : list A -> A) (d : Z) (t : Tensor A) : Tensor A :=
  match norm_dim d with
  | 0 => {| size0 := 1; size1 := size1 t; size2 := size2 t; size3 := size3 t;
            item := fun _ j k l =>
              r (map (fun i => item t i j k l) (seq 0 (size0 t)));
            requires_grad := requires_grad t |}
  | 1 => {| size0 := size0 t; size1 := 1; size2 := size2 t; size3 := size3 t;
            item := fun i _ k l =>
              r (map (fun j => item t i j k l) (seq 0 (size1 t)));
            requires_grad := requires_grad t |}
  | 2 => {| size0 := size0 t; size1 := size1 t; size2 := 1; size3 := size3 t;
            item := fun i j _ l =>
              r (map (fun k => item t i j k l) (seq 0 (size2 t)));
            requires_grad := requires_grad t |}
  | _ => {| size0 := size0 t; size1 := size1 t; size2 := size2 t; size3 := 1;
            item := fun i j k _ =>
              r (map (fun l => item t i j k l) (seq 0 (size3 t)));
            requires_grad := requires_grad t |}
  end.

(** [t.mean(d, keepdim=True)] and [t.std(d, keepdim=True)] *)
Definition tmean (t : Tensor A) (d : Z) : Tensor A := reduce_dim mean_list d t.
Definition tstd (t : Tensor A) (d : Z) : Tensor A := reduce_dim std_list d t.

(** A tensor filled with one value: [torch.ones], [torch.zeros]. *)
Definition full (n0 n1 n2 n3 : nat) (v : A) (rg : bool) : Tensor A :=
  {| size0 := n0; size1 := n1; size2 := n2; size3 := n3;
     item := fun _ _ _ _ => v;
     requires_grad := rg |}.

End ScalarTensors.

(** ** The command-line arguments *)

(** The attributes of [args] that the modules read. *)
Record Args (A : Type) : Type := mkArgs {
  divide_channels : Z;
  num_layers : Z;
  growth_rate : Z;
  args_memory_efficient : bool;
  convolution_dropout : A;
  bn_size : Z;
  kernel_size : Z;
  source_dilation : Z;
  target_dilation : Z
}.

(** ** What the modules take from outside this file

    [MaskedConvolution] comes from [fairseq.modules]; weight initialisation,
    dropout and the incremental decoding state come from the framework.  All of
    them act on the world. *)
Class Torch (A : Type) : Type := {
  World : Type;
  (* the value passed as [incremental_state]: [None] or a dictionary *)
  IncrementalState : Type;
  (* [MaskedConvolution] objects, their constructor and their [forward] *)
  MaskedConvolution : Type;
  MaskedConvolution_init :
    Z -> Z -> Z -> Args A -> Z * Z -> M World MaskedConvolution;
  MaskedConvolution_forward :
    MaskedConvolution -> Tensor A -> IncrementalState -> M World (Tensor A);
  (* a freshly drawn [out, in] weight matrix, and a freshly drawn bias *)
  random_weight : nat -> nat -> M World (nat -> nat -> A);
  random_bias : nat -> M World (nat -> A);
  (* [F.dropout(x, p=p, training=training)] *)
  F_dropout : Tensor A -> A -> bool -> M World (Tensor A)
}.

(** Python's [a // b] on integers. *)
Definition floordiv (a b : Z) : result Z :=
  if (b =? 0)%Z then Raise ZeroDivisionError else Ok (a / b)%Z.

(** ** Framework modules: [nn.Conv2d] with a 1x1 kernel, [nn.Linear] *)

Module nn_Conv2d.
Section Defs.
Context {A : Type} `{Scalar A} `{Torch A}.

(** A convolution with [kernel_size=1], [stride=1], [bias=False]: its weight
    is an [out_channels] by [in_channels] matrix. *)
Record t : Type := mk {
  in_channels : nat;
  out_channels : nat;
  weight : nat -> nat -> A;
  weight_requires_grad : bool
}.

Definition __init__ (in_ch out_ch : Z) : M World t :=
  if ((in_ch <? 0) || (out_ch <? 0))%Z then raise RuntimeError
  else
    w <- random_weight (Z.to_nat out_ch) (Z.to_nat in_ch) ;;
    ret {| in_channels := Z.to_nat in_ch;
           out_channels := Z.to_nat out_ch;
           weight := w;
           weight_requires_grad := true |}.

(** Input [B, in_channels, H, W], output [B, out_channels, H, W].  The
    framework raises [RuntimeError] when the input does not have
    [in_channels] channels, when the weight has no output channel, and when
    the height or the width of the input is empty: the kernel, of size 1,
    is then larger than the input. *)
Definition forward (self : t) (x : Tensor A) : result (Tensor A) :=
  if (size1 x =? in_channels self)
     && negb (out_channels self =? 0)
     && negb (size2 x =? 0) && negb (size3 x =? 0)
  then
    Ok {| size0 := size0 x;
          size1 := out_channels self;
          size2 := size2 x;
          size3 := size3 x;
          item := fun b o h w =>
            sum_upto (in_channels self)
                     (fun c => smul (weight self o c) (item x b c h w));
          requires_grad := requires_grad x || weight_requires_grad self |}
  else Raise RuntimeError.

End Defs.
Arguments t A : clear implicits.
End nn_Conv2d.

Module nn_Linear.
Section Defs.
Context {A : Type} `{Scalar A} `{Torch A}.

Record t : Type := mk {
  in_features : nat;
  out_features : nat;
  weight : nat -> nat -> A;
  bias : option (nat -> A);
  weight_requires_grad : bool
}.

Definition __init__ (in_f out_f : Z) (with_bias : bool) : M World t :=
  if ((in_f <? 0) || (out_f <? 0))%Z then raise RuntimeError
  else
    w <- random_weight (Z.to_nat out_f) (Z.to_nat in_f) ;;
    b <- (if with_bias
          then b <- random_bias (Z.to_nat out_f) ;; ret (Some b)
          else ret None) ;;
    ret {| in_features := Z.to_nat in_f;
           out_features := Z.to_nat out_f;
           weight := w;
           bias := b;
           weight_requires_grad := true |}.

(** The map acts on the last dimension: input [..., in_features], output
    [..., out_features]. *)
Definition forward (self : t) (x : Tensor A) : result (Tensor A) :=
  if size3 x =? in_features self then
    Ok {| size0 := size0 x;
          size1 := size1 x;
          size2 := size2 x;
          size3 := out_features self;
          item := fun i j k o =>
            let y := sum_upto (in_features self)
                              (fun c => smul (item x i j k c) (weight self o c)) in
            match bias self with
            | Some b => sadd y (b o)
            | None => y
            end;
          requires_grad := requires_grad x || weight_requires_grad self |}
  else Raise RuntimeError.

End Defs.
Arguments t A : clear implicits.
End nn_Linear.

Section Helpers.
Context {A : Type} `{Scalar A} `{Torch A}.

(** [nn.init.xavier_uniform_] on an [out, in] weight matrix: the bound of
    the draw divides by [fan_in + fan_out], the sum of the two sizes, so a
    matrix with neither rows nor columns raises [ZeroDivisionError]. *)
Definition nn_init_xavier_uniform_ (fan_out fan_in : nat)
  : M World (nat -> nat -> A) :=
  if fan_in + fan_out =? 0 then raise ZeroDivisionError
  else random_weight fan_out fan_in.

(** [Linear(in_features, out_features, bias=True)]: an [nn.Linear] whose weight
    is drawn again (Xavier) and whose bias is set to zero. *)
Definition Linear (in_features out_features : Z) (bias : bool)
  : M World (nn_Linear.t A) :=
  m <- nn_Linear.__init__ in_features out_features bias ;;
  w <- nn_init_xavier_uniform_ (nn_Linear.out_features m)
                               (nn_Linear.in_features m) ;;
  let m := {| nn_Linear.in_features := nn_Linear.in_features m;
              nn_Linear.out_features := nn_Linear.out_features m;
              nn_Linear.weight := w;
              nn_Linear.bias := nn_Linear.bias m;
              nn_Linear.weight_requires_grad :=
                nn_Linear.weight_requires_grad m |} in
  ret (if bias
       then {| nn_Linear.in_features := nn_Linear.in_features m;
               nn_Linear.out_features := nn_Linear.out_features m;
               nn_Linear.weight := nn_Linear.weight m;
               nn_Linear.bias := Some (fun _ => szero);
               nn_Linear.weight_requires_grad :=
                 nn_Linear.weight_requires_grad m |}
       else m).

(** [torch.utils.checkpoint.checkpoint], called with [run_function] and its
    arguments: the value is that of [run_function] on these arguments,
    computed without recording; the result is attached to the graph when some
    argument requires a gradient.  What is kept for the backward pass is
    outside this embedding. *)
Definition cp_checkpoint (run_function : list (Tensor A) -> M World (Tensor A))
  (args : list (Tensor A)) : M World (Tensor A) :=
  x <- run_function args ;;
  ret {| size0 := size0 x; size1 := size1 x; size2 := size2 x; size3 := size3 x;
         item := item x;
         requires_grad := existsb (@requires_grad A) args |}.

End Helpers.

(** ** [_DenseLayer] *)

Module _DenseLayer.
Section Defs.
Context {A : Type} `{Scalar A} `{Torch A}.

Record t : Type := mk {
  memory_efficient : bool;
  drop_rate : A;
  conv1 : nn_Conv2d.t A;
  mconv2 : MaskedConvolution;
  (* [nn.Module.training] *)
  training : bool
}.

Definition __init__ (num_input_features : Z) (args : Args A) : M World t :=
  let bn_size := bn_size args in
  let growth_rate := growth_rate args in
  let inter_features := (bn_size * growth_rate)%Z in
  let kernel_size := kernel_size args in
  conv1 <- nn_Conv2d.__init__ num_input_features inter_features ;;
  let dilsrc := source_dilation args in
  let diltrg := target_dilation args in
  let padding_trg := (diltrg * (kernel_size - 1) / 2)%Z in
  let padding_src := (dilsrc * (kernel_size - 1) / 2)%Z in
  let padding := (padding_trg, padding_src) in
  mconv2 <- MaskedConvolution_init inter_features growth_rate
                                   kernel_size args padding ;;
  ret {| memory_efficient := args_memory_efficient args;
         drop_rate := convolution_dropout args;
         conv1 := conv1;
         mconv2 := mconv2;
         training := true |}.

Definition bottleneck_function (self : t) (inputs : list (Tensor A))
  : result (Tensor A) :=
  c <-! torch_cat inputs ;;
  let x := F_relu c in
  x <-! nn_Conv2d.forward (conv1 self) x ;;
  Ok x.

(** Memory efficient forward pass with checkpointing.  [prev_features] is a
    list of features in [B, C, Tt, Ts]; the result is the new features alone. *)
Definition forward (self : t) (prev_features : list (Tensor A))
  (encoder_mask decoder_mask : option (Tensor2 bool))
  (incremental_state : IncrementalState) : M World (Tensor A) :=
  x <- (if memory_efficient self
           && existsb (@requires_grad A) prev_features
        then cp_checkpoint (fun inputs => lift (bottleneck_function self inputs))
                           prev_features
        else lift (bottleneck_function self prev_features)) ;;
  let x := F_relu x in
  x <- (if training self then
          x <- match encoder_mask with
               | Some encoder_mask =>
                   lift (masked_fill x (unsqueeze_1_1 encoder_mask) szero)
               | None => ret x
               end ;;
          match decoder_mask with
          | Some decoder_mask =>
              lift (masked_fill x (unsqueeze_1_m1 decoder_mask) szero)
          | None => ret x
          end
        else ret x) ;;
  x <- MaskedConvolution_forward (mconv2 self) x incremental_state ;;
  if struthy (drop_rate self)
  then F_dropout x (drop_rate self) (training self)
  else ret x.

End Defs.
Arguments t A {_}.
End _DenseLayer.

(** ** [DenseNetNoNorm] *)

Module DenseNetNoNorm.
Section Defs.
Context {A : Type} `{Scalar A} `{Torch A}.

(** Single block DenseNet with checkpointing. *)
Record t : Type := mk {
  reduce_channels : option (nn_Linear.t A);
  dense_layers : list (_DenseLayer.t A);
  output_channels : Z
}.

(** The constructor's loop: [n] more layers are appended to [layers], each
    built for the current [num_features], which then grows by
    [growth_rate]. *)
Fixpoint init_loop (n : nat) (args : Args A) (layers : list (_DenseLayer.t A))
  (num_features : Z) : M World (list (_DenseLayer.t A) * Z) :=
  match n with
  | O => ret (layers, num_features)
  | S n' =>
      layer <- _DenseLayer.__init__ num_features args ;;
      init_loop n' args (layers ++ [layer]) (num_features + growth_rate args)%Z
  end.

Definition __init__ (num_init_features : Z) (args : Args A) : M World t :=
  let num_layers := num_layers args in
  let num_features := num_init_features in
  reduce_channels <-
    (if (divide_channels args >? 1)%Z then
       out <- lift (floordiv num_features (divide_channels args)) ;;
       m <- Linear num_features out true ;;
       ret (Some m)
     else ret None) ;;
  num_features <- lift (floordiv num_features (divide_channels args)) ;;
  r <- init_loop (Z.to_nat num_layers) args [] num_features ;;
  ret {| reduce_channels := reduce_channels;
         dense_layers := fst r;
         output_channels := snd r |}.

(** The loop of [forward]: every layer is called on the list of features
    gathered so far, and its result is appended to that list.  The layer is
    handed the list object that is appended to afterwards; it reads it during
    the call only, so the list it works on is the list at the time of the
    call. *)
Fixpoint forward_loop (layers : list (_DenseLayer.t A))
  (features : list (Tensor A))
  (encoder_mask decoder_mask : option (Tensor2 bool))
  (incremental_state : IncrementalState) : M World (list (Tensor A)) :=
  match layers with
  | [] => ret features
  | layer :: layers' =>
      x <- _DenseLayer.forward layer features encoder_mask decoder_mask
                               incremental_state ;;
      forward_loop layers' (features ++ [x]) encoder_mask decoder_mask
                   incremental_state
  end.

(** Input: [B, Tt, Ts, C].  Output: [B, Tt, Ts, C]. *)
Definition forward (self : t) (x : Tensor A)
  (encoder_mask decoder_mask : option (Tensor2 bool))
  (incremental_state : IncrementalState) : M World (Tensor A) :=
  x <- match reduce_channels self with
       | Some reduce_channels => lift (nn_Linear.forward reduce_channels x)
       | None => ret x
       end ;;
  (* B,Tt,Ts,C  >>  B,C,Tt,Ts *)
  let x := permute x 0 3 1 2 in
  features <- forward_loop (dense_layers self) [x] encoder_mask decoder_mask
                           incremental_state ;;
  x <- lift (torch_cat features) ;;
  (* Back to the original shape B,Tt,Ts,C *)
  let x := permute x 0 2 3 1 in
  ret x.

End Defs.
Arguments t A {_}.
End DenseNetNoNorm.

(** ** [PervasiveLayerNorm] *)

Module PervasiveLayerNorm.
Section Defs.
Context {A : Type} `{Scalar A}.

Record t : Type := mk {
  eps : A;
  gamma : Tensor A;
  beta : Tensor A
}.

(** [eps] is passed explicitly (the Python default is [1e-5]). *)
Definition __init__ (num_features : Z) (eps : A) : result t :=
  if (num_features <? 0)%Z then Raise RuntimeError
  else Ok {| eps := eps;
             gamma := full 1 (Z.to_nat num_features) 1 1 sone true;
             beta := full 1 (Z.to_nat num_features) 1 1 szero true |}.

(** [x] in [B, C, Tt, Ts]. *)
Definition forward (self : t) (x : Tensor A) : result (Tensor A) :=
  let mean := tmean (tmean x 1) (-1) in  (* B,1,Tt,1 *)
  let std := tstd (tstd x 1) (-1) in
  centred <-! tmap2 ssub x mean ;;
  scaled <-! tmap2 smul (gamma self) centred ;;
  quotient <-! tmap2 sdiv scaled (tmap (fun v => sadd v (eps self)) std) ;;
  tmap2 sadd quotient (beta self).

End Defs.
Arguments t A : clear implicits.
End PervasiveLayerNorm.

(** ** [PervasiveBatchNorm] *)

(** In-place addition on a 64-bit integer tensor wraps around. *)
Definition wrap_int64 (n : Z) : Z :=
  ((n + 2 ^ 63) mod 2 ^ 64 - 2 ^ 63)%Z.

Module PervasiveBatchNorm.
Section Defs.
Context {A : Type} `{Scalar A}.

(** The buffers exist only when they were registered: a missing attribute is
    [None].  The module itself is the state that [forward] acts on.  What
    [forward] prints is left out, and so is the value given to [maf] before
    the branch, which is never read. *)
Record t : Type := mk {
  eps : A;
  momentum : option A;
  gamma : Tensor A;
  beta : Tensor A;
  track_running_stats : bool;
  training : bool;
  running_mean : option (Tensor A);
  running_std : option (Tensor A);
  num_batches_tracked : option Z
}.

Definition __init__ (num_features : Z) (track_running_stats : bool)
  (eps : A) (momentum : option A) : result t :=
  if (num_features <? 0)%Z then Raise RuntimeError
  else
    let c := Z.to_nat num_features in
    Ok {| eps := eps;
          momentum := momentum;
          gamma := full 1 c 1 1 sone true;
          beta := full 1 c 1 1 szero true;
          track_running_stats := track_running_stats;
          training := true;
          running_mean :=
            if track_running_stats then Some (full 1 c 1 1 szero false)
            else None;
          running_std :=
            if track_running_stats then Some (full 1 c 1 1 sone false)
            else None;
          num_batches_tracked :=
            if track_running_stats then Some 0%Z else None |}.

(** Reading an attribute of [self]. *)
Definition getattr {X : Type} (field : t -> option X) : M t X :=
  fun self =>
    match field self with
    | Some v => (Ok v, self)
    | None => (Raise AttributeError, self)
    end.

Definition set_running_mean (v : Tensor A) : M t unit :=
  fun self =>
    (Ok tt,
     {| eps := eps self; momentum := momentum self; gamma := gamma self;
        beta := beta self; track_running_stats := track_running_stats self;
        training := training self;
        running_mean := Some v;
        running_std := running_std self;
        num_batches_tracked := num_batches_tracked self |}).

Definition set_running_std (v : Tensor A) : M t unit :=
  fun self =>
    (Ok tt,
     {| eps := eps self; momentum := momentum self; gamma := gamma self;
        beta := beta self; track_running_stats := track_running_stats self;
        training := training self;
        running_mean := running_mean self;
        running_std := Some v;
        num_batches_tracked := num_batches_tracked self |}).

Definition set_num_batches_tracked (v : Z) : M t unit :=
  fun self =>
    (Ok tt,
     {| eps := eps self; momentum := momentum self; gamma := gamma self;
        beta := beta self; track_running_stats := track_running_stats self;
        training := training self;
        running_mean := running_mean self;
        running_std := running_std self;
        num_batches_tracked := Some v |}).

(** [nn.Module.train(mode)]; [eval()] is [train(False)]. *)
Definition train (mode : bool) (self : t) : t :=
  {| eps := eps self; momentum := momentum self; gamma := gamma self;
     beta := beta self; track_running_stats := track_running_stats self;
     training := mode;
     running_mean := running_mean self;
     running_std := running_std self;
     num_batches_tracked := num_batches_tracked self |}.

Definition reset_running_stats : M t unit :=
  fun self =>
    if track_running_stats self then
      (rm <- getattr running_mean ;;
       _ <- set_running_mean (tmap (fun _ => szero) rm) ;;
       rs <- getattr running_std ;;
       _ <- set_running_std (tmap (fun _ => sone) rs) ;;
       _ <- getattr num_batches_tracked ;;
       set_num_batches_tracked 0%Z) self
    else (Ok tt, self).

(** [scalar * tensor] *)
Definition scale (a : A) (x : Tensor A) : Tensor A := tmap (smul a) x.

(** [use_std[0,:,0,0]], as printed: the indices must exist. *)
Definition index_0_all_0_0 (x : Tensor A) : result (list A) :=
  if (size0 x =? 0) || (size2 x =? 0) || (size3 x =? 0)
  then Raise IndexError
  else Ok (map (fun c => item x 0 c 0 0) (seq 0 (size1 x))).

Definition forward (x : Tensor A) : M t (Tensor A) :=
  fun self =>
    (stats <-
       (if training self && track_running_stats self then
          n <- getattr num_batches_tracked ;;
          _ <- set_num_batches_tracked (wrap_int64 (n + 1)) ;;
          (* Current mean and std *)
          let mean := tmean (tmean x 0) (-1) in  (* 1,C,T,1 *)
          let std := tstd (tstd x 0) (-1) in
          (* moving average factor *)
          maf <- match momentum self with
                 | None =>
                     n <- getattr num_batches_tracked ;;
                     if (n =? 0)%Z then raise ZeroDivisionError
                     else ret (sdiv sone (sfloat n))
                 | Some m => ret m
                 end ;;
          rm <- getattr running_mean ;;
          use_mean <- lift (tmap2 sadd (scale (ssub sone maf) rm)
                                       (scale maf mean)) ;;
          rs <- getattr running_std ;;
          use_std <- lift (tmap2 sadd (scale (ssub sone maf) rs)
                                      (scale maf std)) ;;
          (* Average across steps then update the moving stats *)
          rm <- getattr running_mean ;;
          new_mean <- lift (tmap2 sadd (scale (ssub sone maf) rm)
                                       (scale maf (tmean mean 2))) ;;
          _ <- set_running_mean new_mean ;;
          rs <- getattr running_std ;;
          new_std <- lift (tmap2 sadd (scale (ssub sone maf) rs)
                                      (scale maf (tmean std 2))) ;;
          _ <- set_running_std new_std ;;
          ret (use_mean, use_std)
        else
          use_mean <- getattr running_mean ;;
          use_std <- getattr running_std ;;
          ret (use_mean, use_std)) ;;
     let use_mean := fst stats in
     let use_std := snd stats in
     _ <- lift (index_0_all_0_0 use_std) ;;
     centred <- lift (tmap2 ssub x use_mean) ;;
     scaled <- lift (tmap2 smul (gamma self) centred) ;;
     quotient <- lift (tmap2 sdiv scaled
                             (tmap (fun v => sadd v (eps self)) use_std)) ;;
     lift (tmap2 sadd quotient (beta self))) self.

End Defs.
Arguments t A : clear implicits.
End PervasiveBatchNorm.

(** What [DenseNetNoNorm] expects of the masked convolution of a layer: the
    feature map it returns has [growth] channels. *)
Definition mconv2_returns_channels {A : Type} `{Torch A}
  (growth : nat) (layer : _DenseLayer.t A) : Prop :=
  forall x incremental_state w y w',
    MaskedConvolution_forward (_DenseLayer.mconv2 layer) x incremental_state w
    = (Ok y, w') ->
    size1 y = growth.

(** The masked convolution of a layer returns, under [incremental_state],
    on every feature map of the size it was built for (no dimension empty,
    and the channels that [conv1] gives it), with [growth] channels and the
    other sizes of its input. *)
Definition mconv2_keeps_sizes {A : Type} `{Torch A}
  (growth : nat) (incremental_state : IncrementalState)
  (layer : _DenseLayer.t A) : Prop :=
  forall x w,
    size1 x = nn_Conv2d.out_channels (_DenseLayer.conv1 layer) ->
    1 <= size0 x -> 1 <= size1 x -> 1 <= size2 x -> 1 <= size3 x ->
    exists y w',
      MaskedConvolution_forward (_DenseLayer.mconv2 layer) x
        incremental_state w = (Ok y, w')
      /\ size0 y = size0 x /\ size1 y = growth
      /\ size2 y = size2 x /\ size3 y = size3 x.

(** Dropout at the rate and in the mode of a layer returns and keeps the
    sizes. *)
Definition dropout_keeps_sizes {A : Type} `{Torch A}
  (layer : _DenseLayer.t A) : Prop :=
  forall x w,
    exists y w',
      F_dropout x (_DenseLayer.drop_rate layer) (_DenseLayer.training layer) w
      = (Ok y, w')
      /\ size0 y = size0 x /\ size1 y = size1 x
      /\ size2 y = size2 x /\ size3 y = size3 x.

(** A padding mask, when given, has [r] rows and [c] columns. *)
Definition mask_fits (r c : nat) (mask : option (Tensor2 bool)) : Prop :=
  match mask with
  | None => True
  | Some m => rows m = r /\ cols m = c
  end.

(** Position [(b, t, s)] is padding: source position [s] under the encoder
    mask or target position [t] under the decoder mask. *)
Definition padded (encoder_mask decoder_mask : option (Tensor2 bool))
  (b t s : nat) : bool :=
  match encoder_mask with Some m => item2 m b s | None => false end
  || match decoder_mask with Some m => item2 m b t | None => false end.

(** A computation on a [PervasiveBatchNorm] that leaves
    [num_batches_tracked] as it is. *)
Definition keeps_counter {A X : Type}
  (m : M (PervasiveBatchNorm.t A) X) : Prop :=
  forall self,
    PervasiveBatchNorm.num_batches_tracked (snd (m self))
    = PervasiveBatchNorm.num_batches_tracked self.

(** ** The calls made by [DenseNetNoNorm.forward]

    The same loop and the same [forward], which in addition record every
    call to a dense layer: the list it was given and what came back.  The
    record is kept up to and including a call that raises. *)

Section Calls.
Context {A : Type} `{Scalar A} `{Torch A}.

(** One call: the layer called, the list it was given, what came back. *)
Record call : Type := mkCall {
  callee : _DenseLayer.t A;
  given : list (Tensor A);
  came_back : result (Tensor A)
}.

Fixpoint forward_loop_calls (layers : list (_DenseLayer.t A))
  (features : list (Tensor A))
  (encoder_mask decoder_mask : option (Tensor2 bool))
  (incremental_state : IncrementalState) (w : World)
  : list call * (result (list (Tensor A)) * World) :=
  match layers with
  | [] => ([], (Ok features, w))
  | layer :: layers' =>
      match _DenseLayer.forward layer features encoder_mask decoder_mask
                                incremental_state w with
      | (Ok x, w') =>
          let rest := forward_loop_calls layers' (features ++ [x])
                        encoder_mask decoder_mask incremental_state w' in
          (mkCall layer features (Ok x) :: fst rest, snd rest)
      | (Raise e, w') => ([mkCall layer features (Raise e)], (Raise e, w'))
      end
  end.

Definition forward_calls (self : DenseNetNoNorm.t A) (x : Tensor A)
  (encoder_mask decoder_mask : option (Tensor2 bool))
  (incremental_state : IncrementalState) (w : World)
  : list call * (result (Tensor A) * World) :=
  match (match DenseNetNoNorm.reduce_channels self with
         | Some reduce_channels => lift (nn_Linear.forward reduce_channels x)
         | None => ret x
         end) w with
  | (Ok x, w) =>
      let x := permute x 0 3 1 2 in
      match forward_loop_calls (DenseNetNoNorm.dense_layers self) [x]
              encoder_mask decoder_mask incremental_state w with
      | (calls, (Ok features, w)) =>
          (calls,
           (x <- lift (torch_cat features) ;; ret (permute x 0 2 3 1)) w)
      | (calls, (Raise e, w)) => (calls, (Raise e, w))
      end
  | (Raise e, w) => ([], (Raise e, w))
  end.

(** The feature maps returned by the recorded calls, in order. *)
Fixpoint returned (calls : list call) : list (Tensor A) :=
  match calls with
  | [] => []
  | c :: calls' =>
      match came_back c with
      | Ok y => y :: returned calls'
      | Raise _ => returned calls'
      end
  end.

End Calls.

(** ** The computations as the specification words them *)

Section Worded.
Context {A : Type} `{Scalar A} `{Torch A}.

(** *** [DenseNetNoNorm.forward] in five steps *)

(** (1) the channel reduction, if present *)
Definition step_reduce (self : DenseNetNoNorm.t A) (x : Tensor A)
  : M World (Tensor A) :=
  match DenseNetNoNorm.reduce_channels self with
  | None => ret x
  | Some linear => lift (nn_Linear.forward linear x)
  end.

(** (2) [B, Tt, Ts, C] to channel-first [B, C, Tt, Ts] *)
Definition step_channel_first (x : Tensor A) : M World (Tensor A) :=
  ret {| size0 := size0 x; size1 := size3 x; size2 := size1 x; size3 := size2 x;
         item := fun b c tt ts => item x b tt ts c;
         requires_grad := requires_grad x |}.

(** (3) the dense layers, one after the other, each adding its feature map
    to the list *)
Definition step_dense_layers (self : DenseNetNoNorm.t A)
  (encoder_mask decoder_mask : option (Tensor2 bool))
  (incremental_state : IncrementalState) (x : Tensor A)
  : M World (list (Tensor A)) :=
  fold_left
    (fun so_far layer =>
       features <- so_far ;;
       y <- _DenseLayer.forward layer features encoder_mask decoder_mask
                                incremental_state ;;
       ret (features ++ [y]))
    (DenseNetNoNorm.dense_layers self)
    (ret [x]).

(** (4) concatenation of all feature maps along the channels *)
Definition step_concat (features : list (Tensor A)) : M World (Tensor A) :=
  lift (torch_cat features).

(** (5) back to [B, Tt, Ts, C] *)
Definition step_channel_last (x : Tensor A) : M World (Tensor A) :=
  ret {| size0 := size0 x; size1 := size2 x; size2 := size3 x; size3 := size1 x;
         item := fun b tt ts c => item x b c tt ts;
         requires_grad := requires_grad x |}.

Definition forward_in_steps (self : DenseNetNoNorm.t A)
  (encoder_mask decoder_mask : option (Tensor2 bool))
  (incremental_state : IncrementalState) : Tensor A -> M World (Tensor A) :=
  step_reduce self
  >=> step_channel_first
  >=> step_dense_layers self encoder_mask decoder_mask incremental_state
  >=> step_concat
  >=> step_channel_last.

(** Steps (2) to (5) alone: what the input goes through when there is no
    channel reduction. *)
Definition forward_from_permute (self : DenseNetNoNorm.t A)
  (encoder_mask decoder_mask : option (Tensor2 bool))
  (incremental_state : IncrementalState) : Tensor A -> M World (Tensor A) :=
  step_channel_first
  >=> step_dense_layers self encoder_mask decoder_mask incremental_state
  >=> step_concat
  >=> step_channel_last.

(** *** The bottleneck of [_DenseLayer] as a composition *)

Definition bottleneck_composed (self : _DenseLayer.t A)
  (inputs : list (Tensor A)) : result (Tensor A) :=
  result_bind (result_bind (torch_cat inputs) (fun c => Ok (F_relu c)))
              (nn_Conv2d.forward (_DenseLayer.conv1 self)).

(** *** The rest of [_DenseLayer.forward] *)

Definition stage_relu (x : Tensor A) : M World (Tensor A) := ret (F_relu x).

(** Zeroing under a mask, when the mask is given. *)
Definition stage_mask (unsqueeze : Tensor2 bool -> Tensor bool)
  (mask : option (Tensor2 bool)) (x : Tensor A) : M World (Tensor A) :=
  match mask with
  | None => ret x
  | Some m => lift (masked_fill x (unsqueeze m) szero)
  end.

Definition stage_mconv2 (self : _DenseLayer.t A)
  (incremental_state : IncrementalState) (x : Tensor A) : M World (Tensor A) :=
  MaskedConvolution_forward (_DenseLayer.mconv2 self) x incremental_state.

Definition stage_dropout (self : _DenseLayer.t A) (x : Tensor A)
  : M World (Tensor A) :=
  if struthy (_DenseLayer.drop_rate self)
  then F_dropout x (_DenseLayer.drop_rate self) (_DenseLayer.training self)
  else ret x.

(** The rest with the masks applied whenever they are given. *)
Definition rest_masking_always (self : _DenseLayer.t A)
  (encoder_mask decoder_mask : option (Tensor2 bool))
  (incremental_state : IncrementalState) : Tensor A -> M World (Tensor A) :=
  stage_relu
  >=> stage_mask unsqueeze_1_1 encoder_mask
  >=> stage_mask unsqueeze_1_m1 decoder_mask
  >=> stage_mconv2 self incremental_state
  >=> stage_dropout self.

(** The rest with the masks applied in training mode only. *)
Definition rest_masking_in_training (self : _DenseLayer.t A)
  (encoder_mask decoder_mask : option (Tensor2 bool))
  (incremental_state : IncrementalState) : Tensor A -> M World (Tensor A) :=
  stage_relu
  >=> (if _DenseLayer.training self
       then stage_mask unsqueeze_1_1 encoder_mask
            >=> stage_mask unsqueeze_1_m1 decoder_mask
       else ret)
  >=> stage_mconv2 self incremental_state
  >=> stage_dropout self.

(** The first part of [_DenseLayer.forward]: the bottleneck, through
    [checkpoint] or directly. *)
Definition bottleneck_checkpointed (self : _DenseLayer.t A)
  (prev_features : list (Tensor A)) : M World (Tensor A) :=
  cp_checkpoint (fun inputs => lift (_DenseLayer.bottleneck_function self inputs))
                prev_features.

Definition bottleneck_direct (self : _DenseLayer.t A)
  (prev_features : list (Tensor A)) : M World (Tensor A) :=
  lift (_DenseLayer.bottleneck_function self prev_features).

(** [_DenseLayer.forward] without the checkpointing branch. *)
Definition forward_direct (self : _DenseLayer.t A)
  (prev_features : list (Tensor A))
  (encoder_mask decoder_mask : option (Tensor2 bool))
  (incremental_state : IncrementalState) : M World (Tensor A) :=
  (bottleneck_direct self
   >=> rest_masking_in_training self encoder_mask decoder_mask
         incremental_state) prev_features.

(** [_DenseLayer.forward] with the masks applied whenever they are given. *)
Definition forward_masking_always (self : _DenseLayer.t A)
  (prev_features : list (Tensor A))
  (encoder_mask decoder_mask : option (Tensor2 bool))
  (incremental_state : IncrementalState) : M World (Tensor A) :=
  bind (if _DenseLayer.memory_efficient self
           && existsb (@requires_grad A) prev_features
        then bottleneck_checkpointed self prev_features
        else bottleneck_direct self prev_features)
       (rest_masking_always self encoder_mask decoder_mask incremental_state).

End Worded.

(** *** The statistics of the pervasive norms *)

Section WordedNorm.
Context {A : Type} `{Scalar A}.

(** The elements of [x] over one dimension, the other indices fixed. *)
Definition over_channels (x : Tensor A) (b t s : nat) : list A :=
  map (fun c => item x b c t s) (seq 0 (size1 x)).

Definition over_batch (x : Tensor A) (c t s : nat) : list A :=
  map (fun b => item x b c t s) (seq 0 (size0 x)).

(** Layer norm: at batch element [b] and target position [t], the mean over
    the source positions of the means over the channels; and the standard
    deviation over the source positions of the standard deviations over the
    channels. *)
Definition position_mean (x : Tensor A) (b t : nat) : A :=
  mean_list (map (fun s => mean_list (over_channels x b t s))
                 (seq 0 (size3 x))).

Definition position_std (x : Tensor A) (b t : nat) : A :=
  std_list (map (fun s => std_list (over_channels x b t s))
                (seq 0 (size3 x))).

(** The normalisation of one element. *)
Definition normalised (gamma beta eps x mean std : A) : A :=
  sadd (sdiv (smul gamma (ssub x mean)) (sadd std eps)) beta.

(** Batch norm: at channel [c] and target position [t], the mean over the
    source positions of the means over the batch, and the same with standard
    deviations. *)
Definition channel_mean (x : Tensor A) (c t : nat) : A :=
  mean_list (map (fun s => mean_list (over_batch x c t s))
                 (seq 0 (size3 x))).

Definition channel_std (x : Tensor A) (c t : nat) : A :=
  std_list (map (fun s => std_list (over_batch x c t s))
                (seq 0 (size3 x))).

(** The moving average: [(1 - maf) * old + maf * new]. *)
Definition blend (maf old new : A) : A :=
  sadd (smul (ssub sone maf) old) (smul maf new).

(** The moving average factor after [batches] batches: the momentum when
    there is one, otherwise [1 / batches]. *)
Definition moving_average_factor (momentum : option A) (batches : Z) : A :=
  match momentum with
  | Some m => m
  | None => sdiv sone (sfloat batches)
  end.

End WordedNorm.

(** ** A small instance to run the definitions on

    Integer scalars, and collaborators that are easy to follow by hand: the
    world is a counter of random draws, drawn weights are all ones, the
    masked convolution sums its input channels into each output channel, and
    dropout in training mode zeroes the odd channels. *)

Definition Z_Scalar : Scalar Z :=
  {| szero := 0%Z;
     sone := 1%Z;
     sadd := Z.add;
     ssub := Z.sub;
     smul := Z.mul;
     sdiv := Z.div;
     ssqrt := Z.sqrt;
     smax := Z.max;
     sfloat := fun n => n;
     struthy := fun p => negb (p =? 0)%Z |}.

Definition toy_mconv_forward (out_channels : nat) (x : Tensor Z)
  : Tensor Z :=
  {| size0 := size0 x; size1 := out_channels; size2 := size2 x;
     size3 := size3 x;
     item := fun b _ h w =>
       fold_left (fun acc c => (acc + item x b c h w)%Z) (seq 0 (size1 x)) 0%Z;
     requires_grad := true |}.

Definition toy_dropout (x : Tensor Z) : Tensor Z :=
  {| size0 := size0 x; size1 := size1 x; size2 := size2 x; size3 := size3 x;
     item := fun b c h w => if Nat.odd c then 0%Z else item x b c h w;
     requires_grad := requires_grad x |}.

Definition toy_Torch : Torch Z :=
  {| World := nat;
     IncrementalState := unit;
     MaskedConvolution := nat;
     MaskedConvolution_init := fun _ out_channels _ _ _ =>
       if (out_channels <? 0)%Z then raise RuntimeError
       else ret (Z.to_nat out_channels);
     MaskedConvolution_forward := fun out_channels x _ =>
       ret (toy_mconv_forward out_channels x);
     random_weight := fun _ _ draws => (Ok (fun _ _ => 1%Z), S draws);
     random_bias := fun _ draws => (Ok (fun _ => 0%Z), S draws);
     F_dropout := fun x _ training draws =>
       if training then (Ok (toy_dropout x), S draws) else (Ok x, draws) |}.

(** A tensor given by its nested lists of elements; missing elements read
    as 0. *)
Definition of_lists (n0 n1 n2 n3 : nat) (rg : bool)
  (elems : list (list (list (list Z)))) : Tensor Z :=
  {| size0 := n0; size1 := n1; size2 := n2; size3 := n3;
     item := fun i j k l =>
       nth l (nth k (nth j (nth i elems []) []) []) 0%Z;
     requires_grad := rg |}.

Definition mask_of_lists (n0 n1 : nat) (elems : list (list bool))
  : Tensor2 bool :=
  {| rows := n0; cols := n1;
     item2 := fun i j => nth j (nth i elems []) false |}.

(** [Namespace(divide_channels=2, num_layers=2, growth_rate=1,
    memory_efficient=True, convolution_dropout=0, bn_size=2, kernel_size=3,
    source_dilation=1, target_dilation=1)] *)
Definition toy_args : Args Z :=
  {| divide_channels := 2;
     num_layers := 2;
     growth_rate := 1;
     args_memory_efficient := true;
     convolution_dropout := 0%Z;
     bn_size := 2;
     kernel_size := 3;
     source_dilation := 1;
     target_dilation := 1 |}.

(** One batch element, one target and two source positions, four channels:
    [B, Tt, Ts, C] = [1, 1, 2, 4]. *)
Definition toy_input : Tensor Z :=
  of_lists 1 1 2 4 true [[[[1; -2; 3; 4]; [0; 5; -6; 7]]]]%Z.


Section Fixtures.
#[local] Existing Instance Z_Scalar.
#[local] Existing Instance toy_Torch.

(** The block built from [toy_args] for four input channels, in a world
    where nothing was drawn yet; and the world after building it. *)
Definition toy_net : DenseNetNoNorm.t Z :=
  match DenseNetNoNorm.__init__ 4 toy_args 0 with
  | (Ok net, _) => net
  | (Raise _, _) =>
      {| DenseNetNoNorm.reduce_channels := None;
         DenseNetNoNorm.dense_layers := [];
         DenseNetNoNorm.output_channels := 0 |}
  end.

Definition toy_world : World := snd (DenseNetNoNorm.__init__ 4 toy_args 0).

(** [toy_input] after the channel reduction of [toy_net]. *)
Definition toy_reduced : Tensor Z :=
  match step_reduce toy_net toy_input toy_world with
  | (Ok x, _) => x
  | (Raise _, _) => toy_input
  end.

(** A dense layer for two input channels, as its constructor leaves it (in
    training mode), and the same layer after [eval()]. *)
Definition toy_layer : _DenseLayer.t Z :=
  match _DenseLayer.__init__ 2 toy_args 0 with
  | (Ok layer, _) => layer
  | (Raise _, _) =>
      {| _DenseLayer.memory_efficient := false;
         _DenseLayer.drop_rate := 0%Z;
         _DenseLayer.conv1 :=
           {| nn_Conv2d.in_channels := 0; nn_Conv2d.out_channels := 0;
              nn_Conv2d.weight := fun _ _ => 0%Z;
              nn_Conv2d.weight_requires_grad := false |};
         _DenseLayer.mconv2 := 0;
         _DenseLayer.training := false |}
  end.

Definition toy_layer_eval : _DenseLayer.t Z :=
  {| _DenseLayer.memory_efficient := _DenseLayer.memory_efficient toy_layer;
     _DenseLayer.drop_rate := _DenseLayer.drop_rate toy_layer;
     _DenseLayer.conv1 := _DenseLayer.conv1 toy_layer;
     _DenseLayer.mconv2 := _DenseLayer.mconv2 toy_layer;
     _DenseLayer.training := false |}.

(** A dense layer for a single input channel. *)
Definition narrow_layer : _DenseLayer.t Z :=
  match _DenseLayer.__init__ 1 toy_args 0 with
  | (Ok layer, _) => layer
  | (Raise _, _) => toy_layer
  end.

(** Features in [B, C, Tt, Ts] = [1, 2, 1, 2], and one channel of them. *)
Definition toy_features : Tensor Z :=
  of_lists 1 2 1 2 true [[[[1; 2]]; [[3; 4]]]]%Z.

Definition one_channel : Tensor Z :=
  of_lists 1 1 1 2 true [[[[1; 2]]]]%Z.

(** An encoder mask in [B, Ts] = [1, 2] that pads the second source
    position. *)
Definition toy_mask : Tensor2 bool :=
  mask_of_lists 1 2 [[false; true]].

(** A batch norm over two channels with [eps = 1] and no momentum, as its
    constructor leaves it with tracking, and the same after [eval()]. *)
Definition toy_batch_norm : PervasiveBatchNorm.t Z :=
  {| PervasiveBatchNorm.eps := 1%Z;
     PervasiveBatchNorm.momentum := None;
     PervasiveBatchNorm.gamma := full 1 2 1 1 1%Z true;
     PervasiveBatchNorm.beta := full 1 2 1 1 0%Z true;
     PervasiveBatchNorm.track_running_stats := true;
     PervasiveBatchNorm.training := true;
     PervasiveBatchNorm.running_mean := Some (full 1 2 1 1 0%Z false);
     PervasiveBatchNorm.running_std := Some (full 1 2 1 1 1%Z false);
     PervasiveBatchNorm.num_batches_tracked := Some 0%Z |}.

Definition toy_batch_norm_eval : PervasiveBatchNorm.t Z :=
  PervasiveBatchNorm.train false toy_batch_norm.

(** A layer norm over two channels with [eps = 1]. *)
Definition toy_layer_norm : PervasiveLayerNorm.t Z :=
  {| PervasiveLayerNorm.eps := 1%Z;
     PervasiveLayerNorm.gamma := full 1 2 1 1 1%Z true;
     PervasiveLayerNorm.beta := full 1 2 1 1 0%Z true |}.

(** [Namespace(divide_channels=1, num_layers=0, ...)]: no reduction and no
    layers; and the block built from it. *)
Definition empty_args : Args Z :=
  {| divide_channels := 1;
     num_layers := 0;
     growth_rate := 1;
     args_memory_efficient := true;
     convolution_dropout := 0%Z;
     bn_size := 2;
     kernel_size := 3;
     source_dilation := 1;
     target_dilation := 1 |}.

Definition empty_net : DenseNetNoNorm.t Z :=
  match DenseNetNoNorm.__init__ 4 empty_args 0 with
  | (Ok net, _) => net
  | (Raise _, _) => toy_net
  end.

(** What [toy_net] returns on [toy_input]. *)
Definition toy_output : Tensor Z :=
  match DenseNetNoNorm.forward toy_net toy_input None None tt toy_world with
  | (Ok y, _) => y
  | (Raise _, _) => toy_input
  end.

(** What the bottleneck of [toy_layer] returns on [toy_features]. *)
Definition toy_bottleneck : Tensor Z :=
  match _DenseLayer.bottleneck_function toy_layer [toy_features] with
  | Ok x => x
  | Raise _ => toy_features
  end.

(** A decoder mask in [B, Tt] = [1, 1] that pads nothing, and features
    with three channels. *)
Definition toy_decoder_mask : Tensor2 bool :=
  mask_of_lists 1 1 [[false]].

Definition three_channels : Tensor Z :=
  of_lists 1 3 1 2 false [[[[1; 2]]; [[3; 4]]; [[5; 6]]]]%Z.

End Fixtures.

(** * Properties *)

(** ** The monad *)

Section MonadFacts.
Context {W X Y Z' : Type}.

Lemma bind_ret_l (x : X) (f : X -> M W Y) (w : W) :
  bind (ret x) f w = f x w.
Proof. reflexivity. Qed.

Lemma bind_ret_r (m : M W X) (w : W) :
  bind m ret w = m w.
Proof.
  unfold bind, ret. destruct (m w) as [[x | e] w']; reflexivity.
Qed.

Lemma bind_assoc (m : M W X) (f : X -> M W Y) (g : Y -> M W Z') (w : W) :
  bind (bind m f) g w = bind m (fun x => bind (f x) g) w.
Proof.
  unfold bind. destruct (m w) as [[x | e] w']; reflexivity.
Qed.

Lemma bind_ext (m : M W X) (f g : X -> M W Y) (w : W) :
  (forall x w', f x w' = g x w') -> bind m f w = bind m g w.
Proof.
  intros E. unfold bind. destruct (m w) as [[x | e] w']; auto.
Qed.

Lemma bind_raise (m : M W X) (f : X -> M W Y) (w w' : W) (e : exn) :
  m w = (Raise e, w') -> bind m f w = (Raise e, w').
Proof. intros E. unfold bind. now rewrite E. Qed.

Lemma bind_ok (m : M W X) (f : X -> M W Y) (w w' : W) (x : X) :
  m w = (Ok x, w') -> bind m f w = f x w'.
Proof. intros E. unfold bind. now rewrite E. Qed.

Lemma bind_inv (m : M W X) (f : X -> M W Y) (w w' : W) (y : Y) :
  bind m f w = (Ok y, w') ->
  exists x w1, m w = (Ok x, w1) /\ f x w1 = (Ok y, w').
Proof.
  unfold bind. destruct (m w) as [[x | e] w1]; [eauto | discriminate].
Qed.

End MonadFacts.

(** ** Dense connectivity *)

Section DenseConnectivity.
Context {A : Type} `{Scalar A} `{Torch A}.

Lemma forward_loop_calls_erase (layers : list (_DenseLayer.t A)) :
  forall features encoder_mask decoder_mask incremental_state w,
    snd (forward_loop_calls layers features encoder_mask decoder_mask
           incremental_state w)
    = DenseNetNoNorm.forward_loop layers features encoder_mask decoder_mask
        incremental_state w.
Proof.
  induction layers as [| layer layers IH]; intros; simpl.
  - reflexivity.
  - unfold bind.
    destruct (_DenseLayer.forward layer features encoder_mask decoder_mask
                incremental_state w) as [[x | e] w'];
      simpl; [apply IH | reflexivity].
Qed.

Lemma forward_calls_erase (self : DenseNetNoNorm.t A) x encoder_mask
  decoder_mask incremental_state w :
  snd (forward_calls self x encoder_mask decoder_mask incremental_state w)
  = DenseNetNoNorm.forward self x encoder_mask decoder_mask
      incremental_state w.
Proof.
  unfold forward_calls, DenseNetNoNorm.forward.
  set (red := match DenseNetNoNorm.reduce_channels self with
              | Some l => lift (nn_Linear.forward l x)
              | None => ret x
              end).
  unfold bind. 
  destruct (red w) as [[x1 | e] w1]; [| reflexivity].
  rewrite <- forward_loop_calls_erase.
  destruct (forward_loop_calls _ _ _ _ _ _) as [calls [[fs | e] w2]];
    reflexivity.
Qed.

(** Along the loop: call number [i] goes to layer number [i], all calls
    before it returned, and it is given the features the loop started with
    followed by what those calls returned.  When the loop ends normally every
    layer was called, every call returned, and the features are the initial
    ones followed by all that was returned. *)
Lemma forward_loop_calls_inv (layers : list (_DenseLayer.t A)) :
  forall features encoder_mask decoder_mask incremental_state w,
    let run := forward_loop_calls layers features encoder_mask decoder_mask
                 incremental_state w in
    (forall i c,
        nth_error (fst run) i = Some c ->
        nth_error layers i = Some (callee c)
        /\ map came_back (firstn i (fst run))
           = map (@Ok _) (returned (firstn i (fst run)))
        /\ length (returned (firstn i (fst run))) = i
        /\ given c = features ++ returned (firstn i (fst run)))
    /\ (forall fs,
          fst (snd run) = Ok fs ->
          length (fst run) = length layers
          /\ map came_back (fst run) = map (@Ok _) (returned (fst run))
          /\ length (returned (fst run)) = length layers
          /\ fs = features ++ returned (fst run)).
Proof.
  induction layers as [| layer layers IH]; intros; subst run; simpl.
  - split.
    + intros [| i] c E; discriminate.
    + intros fs E. injection E as <-. now rewrite app_nil_r.
  - destruct (_DenseLayer.forward layer features encoder_mask decoder_mask
                incremental_state w) as [[x | e] w'] eqn:F; simpl.
    + destruct (IH (features ++ [x]) encoder_mask decoder_mask
                  incremental_state w') as [IHcalls IHend].
      split.
      * intros [| i] c E; simpl in E |- *.
        -- injection E as <-. simpl. now rewrite app_nil_r.
        -- destruct (IHcalls i c E) as (L & R & N & G).
           rewrite L, R, N, G, <- app_assoc. auto.
      * intros fs E. destruct (IHend fs E) as (L & R & N & ->).
        rewrite L, R, N, <- app_assoc. auto.
    + split.
      * intros [| [| i]] c E; simpl in E; try discriminate.
        injection E as <-. simpl. now rewrite app_nil_r.
      * intros fs E. discriminate.
Qed.

(** C1. In every forward pass of [DenseNetNoNorm], the [i]-th call goes to
    the [i]-th dense layer and is given exactly the initial feature map (the
    input after the channel reduction, permuted to channel-first) followed by
    the outputs of the layers before it; and when the pass returns, its result
    is the concatenation along the channels, permuted back, of the initial map
    and the output of every layer: [num_layers + 1] feature maps. *)
Theorem dense_layers_receive_all_previous_features
  (self : DenseNetNoNorm.t A) (x : Tensor A)
  (encoder_mask decoder_mask : option (Tensor2 bool))
  (incremental_state : IncrementalState) (w w1 : World) (x1 : Tensor A) :
  step_reduce self x w = (Ok x1, w1) ->
  let x0 := permute x1 0 3 1 2 in
  let run := forward_calls self x encoder_mask decoder_mask
               incremental_state w in
  snd run = DenseNetNoNorm.forward self x encoder_mask decoder_mask
              incremental_state w
  /\ (forall i c,
        nth_error (fst run) i = Some c ->
        nth_error (DenseNetNoNorm.dense_layers self) i = Some (callee c)
        /\ map came_back (firstn i (fst run))
           = map (@Ok _) (returned (firstn i (fst run)))
        /\ length (returned (firstn i (fst run))) = i
        /\ given c = x0 :: returned (firstn i (fst run)))
  /\ (forall y,
        fst (snd run) = Ok y ->
        length (fst run) = length (DenseNetNoNorm.dense_layers self)
        /\ map came_back (fst run) = map (@Ok _) (returned (fst run))
        /\ length (x0 :: returned (fst run))
           = length (DenseNetNoNorm.dense_layers self) + 1
        /\ exists c,
             torch_cat (x0 :: returned (fst run)) = Ok c
             /\ y = permute c 0 2 3 1).
Proof.
  intros R x0 run. split; [apply forward_calls_erase |].
  subst run. unfold forward_calls.
  unfold step_reduce in R.
  replace (match DenseNetNoNorm.reduce_channels self with
           | Some reduce_channels => lift (nn_Linear.forward reduce_channels x)
           | None => ret x
           end w) with (Ok x1, w1)
    by (rewrite <- R; destruct (DenseNetNoNorm.reduce_channels self);
        reflexivity).
  fold x0.
  pose proof (forward_loop_calls_inv (DenseNetNoNorm.dense_layers self) [x0]
                encoder_mask decoder_mask incremental_state w1) as [Icalls Iend].
  destruct (forward_loop_calls (DenseNetNoNorm.dense_layers self) [x0]
              encoder_mask decoder_mask incremental_state w1)
    as [calls [[fs | e] w2]] eqn:L; simpl in *.
  - split; [exact Icalls |].
    destruct (Iend fs eq_refl) as (L1 & L2 & L3 & ->).
    intros y E. unfold bind, lift, ret in E.
    destruct (torch_cat (x0 :: returned calls)) as [c | e] eqn:C;
      simpl in E; [| discriminate].
    injection E as <-.
    repeat split; auto.
    + rewrite L3. lia.
    + now exists c.
  - split; [exact Icalls | intros y E; discriminate].
Qed.

End DenseConnectivity.

(** ** The order of the steps of [DenseNetNoNorm.forward] *)

Section ForwardSteps.
Context {A : Type} `{Scalar A} `{Torch A}.

Lemma permute_channel_first (x : Tensor A) (w : World) :
  step_channel_first x w = (Ok (permute x 0 3 1 2), w).
Proof. reflexivity. Qed.

Lemma permute_channel_last (x : Tensor A) (w : World) :
  step_channel_last x w = (Ok (permute x 0 2 3 1), w).
Proof. reflexivity. Qed.

(** Folding the layers over a computation of the feature list is the loop of
    [forward] run on the features this computation returns. *)
Lemma fold_layers_is_loop (layers : list (_DenseLayer.t A))
  encoder_mask decoder_mask incremental_state :
  forall (so_far : M World (list (Tensor A))) (w : World),
    fold_left
      (fun so_far layer =>
         features <- so_far ;;
         y <- _DenseLayer.forward layer features encoder_mask decoder_mask
                                  incremental_state ;;
         ret (features ++ [y]))
      layers so_far w
    = bind so_far
        (fun features =>
           DenseNetNoNorm.forward_loop layers features encoder_mask
             decoder_mask incremental_state) w.
Proof.
  induction layers as [| layer layers IH]; intros so_far w; simpl.
  - symmetry. apply bind_ret_r.
  - rewrite IH. rewrite bind_assoc. apply bind_ext. intros features w'.
    rewrite bind_assoc. apply bind_ext. intros y w''. reflexivity.
Qed.

Lemma step_dense_layers_is_loop (self : DenseNetNoNorm.t A)
  encoder_mask decoder_mask incremental_state (x : Tensor A) (w : World) :
  step_dense_layers self encoder_mask decoder_mask incremental_state x w
  = DenseNetNoNorm.forward_loop (DenseNetNoNorm.dense_layers self) [x]
      encoder_mask decoder_mask incremental_state w.
Proof.
  unfold step_dense_layers. now rewrite fold_layers_is_loop.
Qed.

Lemma forward_from_permute_unfold (self : DenseNetNoNorm.t A)
  encoder_mask decoder_mask incremental_state (x : Tensor A) (w : World) :
  forward_from_permute self encoder_mask decoder_mask incremental_state x w
  = (features <- DenseNetNoNorm.forward_loop (DenseNetNoNorm.dense_layers self)
                   [permute x 0 3 1 2] encoder_mask decoder_mask
                   incremental_state ;;
     c <- lift (torch_cat features) ;;
     ret (permute c 0 2 3 1)) w.
Proof.
  unfold forward_from_permute, kcomp.
  rewrite !bind_assoc. unfold step_channel_first. rewrite bind_ret_l.
  unfold bind at 1 3.
  rewrite step_dense_layers_is_loop.
  destruct (DenseNetNoNorm.forward_loop _ _ _ _ _ _) as [[fs | e] w'];
    reflexivity.
Qed.

(** [forward] is its reduction step followed by steps (2) to (5). *)
Lemma forward_reduce_then_rest (self : DenseNetNoNorm.t A)
  encoder_mask decoder_mask incremental_state (x : Tensor A) (w : World) :
  DenseNetNoNorm.forward self x encoder_mask decoder_mask incremental_state w
  = bind (step_reduce self x)
         (forward_from_permute self encoder_mask decoder_mask
            incremental_state) w.
Proof.
  unfold DenseNetNoNorm.forward, step_reduce.
  destruct (DenseNetNoNorm.reduce_channels self) as [linear |];
    apply bind_ext; intros x1 w1; now rewrite forward_from_permute_unfold.
Qed.

(** C2. For every input, [DenseNetNoNorm.forward] is the sequence of its five
    steps in this order: the channel reduction if present, the permutation
    from [B, Tt, Ts, C] to channel-first [B, C, Tt, Ts], the dense layers run
    one after the other while the list of feature maps grows, the
    concatenation of that list along the channels, and the permutation back
    to [B, Tt, Ts, C]. *)
Theorem forward_is_its_five_steps_in_order
  (self : DenseNetNoNorm.t A) (x : Tensor A)
  (encoder_mask decoder_mask : option (Tensor2 bool))
  (incremental_state : IncrementalState) (w : World) :
  DenseNetNoNorm.forward self x encoder_mask decoder_mask incremental_state w
  = forward_in_steps self encoder_mask decoder_mask incremental_state x w.
Proof.
  rewrite forward_reduce_then_rest.
  unfold forward_in_steps, forward_from_permute, kcomp.
  rewrite !bind_assoc. apply bind_ext. intros x1 w1.
  now rewrite !bind_assoc.
Qed.

End ForwardSteps.

(** ** Concatenation along the channels *)

Section Concatenation.
Context {E : Type}.

Lemma forallb_pointwise {X : Type} (f g : X -> bool) (xs : list X) :
  (forall x, f x = g x) -> forallb f xs = forallb g xs.
Proof.
  intros P. induction xs as [| x xs IH]; simpl; [reflexivity |].
  now rewrite P, IH.
Qed.

Lemma cat2_ok (a b c : Tensor E) :
  cat2 a b = Ok c ->
  same_sizes_but_channels a b = true
  /\ size0 c = size0 a /\ size1 c = size1 a + size1 b
  /\ size2 c = size2 a /\ size3 c = size3 a
  /\ requires_grad c = requires_grad a || requires_grad b
  /\ forall i j k l,
       item c i j k l
       = if j <? size1 a then item a i j k l else item b i (j - size1 a) k l.
Proof.
  unfold cat2, same_sizes_but_channels.
  destruct (_ && _); [| discriminate].
  intros E'. injection E' as <-. simpl. auto 10.
Qed.

Lemma cat2_raise (a b : Tensor E) (e : exn) :
  cat2 a b = Raise e -> same_sizes_but_channels a b = false.
Proof.
  unfold cat2, same_sizes_but_channels.
  destruct (_ && _); [discriminate | reflexivity].
Qed.

Lemma same_sizes_trans_l (a b c : Tensor E) :
  size0 b = size0 a -> size2 b = size2 a -> size3 b = size3 a ->
  same_sizes_but_channels b c = same_sizes_but_channels a c.
Proof.
  unfold same_sizes_but_channels. now intros -> -> ->.
Qed.

(** What [cat_onto] returns: the sizes of the accumulator with the channels
    of all tensors added, and the elements side by side. *)
Lemma cat_onto_ok (ts : list (Tensor E)) :
  forall (acc c : Tensor E),
    cat_onto acc ts = Ok c ->
    forallb (same_sizes_but_channels acc) ts = true
    /\ size0 c = size0 acc
    /\ size1 c = size1 acc + total_channels ts
    /\ size2 c = size2 acc /\ size3 c = size3 acc
    /\ requires_grad c
       = requires_grad acc || existsb (@requires_grad E) ts
    /\ forall d i j k l,
         j < size1 c ->
         item c i j k l = item_along_channels d (acc :: ts) i j k l.
Proof.
  induction ts as [| t ts IH]; intros acc c; simpl.
  - intros E'. injection E' as <-.
    rewrite Nat.add_0_r, orb_false_r. repeat split; auto.
    intros d i j k l Hj. apply Nat.ltb_lt in Hj. now rewrite Hj.
  - destruct (cat2 acc t) as [acc' |] eqn:C; simpl; [| discriminate].
    intros E'.
    destruct (cat2_ok _ _ C) as (S & C0 & C1 & C2 & C3 & Cg & Ci).
    destruct (IH _ _ E') as (F & I0 & I1 & I2 & I3 & Ig & Ii).
    rewrite S. unfold total_channels in *. simpl.
    repeat split; try congruence.
    + rewrite <- F. apply forallb_pointwise. intros u.
      symmetry. now apply same_sizes_trans_l.
    + rewrite I1, C1. lia.
    + rewrite Ig, Cg. now rewrite orb_assoc.
    + intros d i j k l Hj. rewrite (Ii d i j k l Hj). simpl.
      rewrite C1, Ci.
      destruct (j <? size1 acc) eqn:J1.
      * apply Nat.ltb_lt in J1.
        assert (J2 : (j <? size1 acc + size1 t) = true)
          by (apply Nat.ltb_lt; lia).
        now rewrite J2.
      * apply Nat.ltb_ge in J1.
        destruct (j - size1 acc <? size1 t) eqn:J3.
        -- apply Nat.ltb_lt in J3.
           assert (J2 : (j <? size1 acc + size1 t) = true)
             by (apply Nat.ltb_lt; lia).
           now rewrite J2.
        -- apply Nat.ltb_ge in J3.
           assert (J2 : (j <? size1 acc + size1 t) = false)
             by (apply Nat.ltb_ge; lia).
           rewrite J2. f_equal. lia.
Qed.

(** [cat_onto] returns exactly when every tensor agrees with the accumulator
    in the sizes other than the channels. *)
Lemma cat_onto_total (ts : list (Tensor E)) :
  forall acc : Tensor E,
    forallb (same_sizes_but_channels acc) ts = true ->
    exists c, cat_onto acc ts = Ok c.
Proof.
  induction ts as [| t ts IH]; intros acc; simpl.
  - intros _. now exists acc.
  - intros F. apply andb_prop in F as [S F].
    destruct (cat2 acc t) as [acc' | e] eqn:C.
    + simpl. apply IH.
      destruct (cat2_ok _ _ C) as (_ & C0 & _ & C2 & C3 & _).
      rewrite <- F. apply forallb_pointwise. intros u.
      now apply same_sizes_trans_l.
    + apply cat2_raise in C. congruence.
Qed.

(** [torch.cat] returns exactly on the lists that [can_cat] accepts. *)
Lemma torch_cat_returns_iff (ts : list (Tensor E)) :
  (exists c, torch_cat ts = Ok c) <-> can_cat ts = true.
Proof.
  destruct ts as [| t ts]; simpl.
  - split; [intros [c E']; discriminate | discriminate].
  - split.
    + intros [c C]. now destruct (cat_onto_ok _ _ C).
    + apply cat_onto_total.
Qed.

(** The result of [torch.cat]: all channels, side by side. *)
Lemma torch_cat_ok (ts : list (Tensor E)) (c : Tensor E) :
  torch_cat ts = Ok c ->
  size1 c = total_channels ts
  /\ requires_grad c = existsb (@requires_grad E) ts
  /\ (forall t, hd_error ts = Some t ->
        size0 c = size0 t /\ size2 c = size2 t /\ size3 c = size3 t)
  /\ forall d i j k l,
       j < size1 c -> item c i j k l = item_along_channels d ts i j k l.
Proof.
  destruct ts as [| t ts]; simpl; [discriminate |].
  intros C. destruct (cat_onto_ok _ _ C) as (_ & C0 & C1 & C2 & C3 & Cg & Ci).
  split; [exact C1 |]. split; [exact Cg |]. split; [| exact Ci].
  intros t' E'. injection E' as <-. auto.
Qed.

End Concatenation.

(** ** [_DenseLayer] *)

Section DenseLayerFacts.
Context {A : Type} `{Scalar A} `{Torch A}.

Lemma sum_upto_ext (n : nat) (f g : nat -> A) :
  (forall c, c < n -> f c = g c) -> sum_upto n f = sum_upto n g.
Proof.
  unfold sum_upto. intros P.
  assert (G : forall (cs : list nat) (a : A),
             (forall c, In c cs -> f c = g c) ->
             fold_left (fun acc c => sadd acc (f c)) cs a
             = fold_left (fun acc c => sadd acc (g c)) cs a).
  { induction cs as [| c cs IH]; intros a Q; simpl; [reflexivity |].
    rewrite (Q c (or_introl eq_refl)). apply IH.
    intros c' I. apply Q. now right. }
  apply G. intros c I. apply P. apply in_seq in I. lia.
Qed.

Lemma conv2d_forward_ok (conv : nn_Conv2d.t A) (x y : Tensor A) :
  nn_Conv2d.forward conv x = Ok y ->
  size1 x = nn_Conv2d.in_channels conv
  /\ size0 y = size0 x
  /\ size1 y = nn_Conv2d.out_channels conv
  /\ size2 y = size2 x /\ size3 y = size3 x
  /\ requires_grad y
     = requires_grad x || nn_Conv2d.weight_requires_grad conv
  /\ forall b o h w,
       item y b o h w
       = sum_upto (nn_Conv2d.in_channels conv)
           (fun c => smul (nn_Conv2d.weight conv o c) (item x b c h w)).
Proof.
  unfold nn_Conv2d.forward.
  destruct (size1 x =? nn_Conv2d.in_channels conv) eqn:S;
    destruct (nn_Conv2d.out_channels conv =? 0);
    destruct (size2 x =? 0); destruct (size3 x =? 0);
    simpl; try discriminate.
  apply Nat.eqb_eq in S. intros E. injection E as <-. simpl. auto 10.
Qed.

Lemma conv2d_forward_returns_iff (conv : nn_Conv2d.t A) (x : Tensor A) :
  (exists y, nn_Conv2d.forward conv x = Ok y)
  <-> size1 x = nn_Conv2d.in_channels conv
      /\ nn_Conv2d.out_channels conv <> 0
      /\ size2 x <> 0 /\ size3 x <> 0.
Proof.
  unfold nn_Conv2d.forward.
  destruct (Nat.eqb_spec (size1 x) (nn_Conv2d.in_channels conv));
    destruct (Nat.eqb_spec (nn_Conv2d.out_channels conv) 0);
    destruct (Nat.eqb_spec (size2 x) 0);
    destruct (Nat.eqb_spec (size3 x) 0); simpl;
    (split; [intros [y E]; try discriminate; auto
            | intros (? & ? & ? & ?); try contradiction; eauto]).
Qed.

Lemma conv2d_forward_raises_runtime (conv : nn_Conv2d.t A) (x : Tensor A)
  (e : exn) :
  nn_Conv2d.forward conv x = Raise e -> e = RuntimeError.
Proof.
  unfold nn_Conv2d.forward. destruct (_ && _); congruence.
Qed.

Lemma bottleneck_function_composed (self : _DenseLayer.t A)
  (inputs : list (Tensor A)) :
  _DenseLayer.bottleneck_function self inputs = bottleneck_composed self inputs.
Proof.
  unfold _DenseLayer.bottleneck_function, bottleneck_composed.
  destruct (torch_cat inputs) as [c | e]; simpl; [| reflexivity].
  now destruct (nn_Conv2d.forward (_DenseLayer.conv1 self) (F_relu c)).
Qed.

Lemma bottleneck_function_ok (self : _DenseLayer.t A)
  (inputs : list (Tensor A)) (y : Tensor A) :
  _DenseLayer.bottleneck_function self inputs = Ok y ->
  can_cat inputs = true
  /\ total_channels inputs = nn_Conv2d.in_channels (_DenseLayer.conv1 self)
  /\ size1 y = nn_Conv2d.out_channels (_DenseLayer.conv1 self)
  /\ (forall t, hd_error inputs = Some t ->
        size0 y = size0 t /\ size2 y = size2 t /\ size3 y = size3 t)
  /\ requires_grad y
     = existsb (@requires_grad A) inputs
       || nn_Conv2d.weight_requires_grad (_DenseLayer.conv1 self)
  /\ forall b o h w,
       item y b o h w
       = sum_upto (total_channels inputs)
           (fun c =>
              smul (nn_Conv2d.weight (_DenseLayer.conv1 self) o c)
                   (smax szero (item_along_channels szero inputs b c h w))).
Proof.
  unfold _DenseLayer.bottleneck_function.
  destruct (torch_cat inputs) as [c | e] eqn:C; simpl; [| discriminate].
  destruct (nn_Conv2d.forward (_DenseLayer.conv1 self) (F_relu c))
    as [y' | e] eqn:V; simpl; [| discriminate].
  intros E. injection E as <-.
  destruct (torch_cat_ok _ C) as (C1 & Cg & Cs & Ci).
  destruct (conv2d_forward_ok _ _ V) as (V1 & V0 & Vo & V2 & V3 & Vg & Vi).
  simpl in *.
  split; [apply torch_cat_returns_iff; eauto |].
  split; [congruence |]. split; [exact Vo |].
  split; [intros t E; destruct (Cs t E) as (? & ? & ?); repeat split;
          congruence |].
  split; [now rewrite Vg, Cg |].
  intros b o h w. rewrite Vi, <- V1, C1.
  apply sum_upto_ext. intros ch Hch. f_equal. f_equal.
  apply Ci. now rewrite C1.
Qed.

Lemma bottleneck_function_returns_iff (self : _DenseLayer.t A)
  (inputs : list (Tensor A)) :
  (exists y, _DenseLayer.bottleneck_function self inputs = Ok y)
  <-> can_cat inputs = true
      /\ total_channels inputs
         = nn_Conv2d.in_channels (_DenseLayer.conv1 self)
      /\ nn_Conv2d.out_channels (_DenseLayer.conv1 self) <> 0
      /\ forall t, hd_error inputs = Some t ->
                   size2 t <> 0 /\ size3 t <> 0.
Proof.
  split.
  - intros [y E].
    destruct (bottleneck_function_ok _ _ E) as (Cc & T & _).
    split; [exact Cc |]. split; [exact T |].
    unfold _DenseLayer.bottleneck_function in E.
    destruct (torch_cat inputs) as [c | e] eqn:C; simpl in E;
      [| discriminate].
    destruct (nn_Conv2d.forward (_DenseLayer.conv1 self) (F_relu c))
      as [y' | e] eqn:V; simpl in E; [| discriminate].
    assert (P : exists y, nn_Conv2d.forward (_DenseLayer.conv1 self)
                            (F_relu c) = Ok y) by eauto.
    apply conv2d_forward_returns_iff in P as (_ & O & N2 & N3).
    simpl in N2, N3. split; [exact O |].
    intros t Hd. destruct (torch_cat_ok _ C) as (_ & _ & Cs & _).
    destruct (Cs t Hd) as (_ & S2 & S3). rewrite <- S2, <- S3. auto.
  - intros (C & T & O & N). apply torch_cat_returns_iff in C as [c C].
    unfold _DenseLayer.bottleneck_function. rewrite C. simpl.
    destruct (torch_cat_ok _ C) as (C1 & _ & Cs & _).
    assert (V : exists y, nn_Conv2d.forward (_DenseLayer.conv1 self)
                            (F_relu c) = Ok y).
    { apply conv2d_forward_returns_iff. simpl.
      split; [congruence |]. split; [exact O |].
      destruct inputs as [| t ts]; [discriminate |].
      destruct (Cs t eq_refl) as (_ & S2 & S3).
      destruct (N t eq_refl) as (N2 & N3). rewrite S2, S3. auto. }
    destruct V as [y V]. rewrite V. simpl. eauto.
Qed.

(** A layer as its constructor leaves it. *)
Lemma dense_layer_init_ok (num_input_features : Z) (args : Args A)
  (w w' : World) (self : _DenseLayer.t A) :
  _DenseLayer.__init__ num_input_features args w = (Ok self, w') ->
  (0 <= num_input_features)%Z
  /\ (0 <= bn_size args * growth_rate args)%Z
  /\ nn_Conv2d.in_channels (_DenseLayer.conv1 self)
     = Z.to_nat num_input_features
  /\ nn_Conv2d.out_channels (_DenseLayer.conv1 self)
     = Z.to_nat (bn_size args * growth_rate args)
  /\ _DenseLayer.memory_efficient self = args_memory_efficient args
  /\ _DenseLayer.drop_rate self = convolution_dropout args
  /\ _DenseLayer.training self = true.
Proof.
  unfold _DenseLayer.__init__, nn_Conv2d.__init__.
  destruct ((num_input_features <? 0)%Z
            || (bn_size args * growth_rate args <? 0)%Z) eqn:N.
  - unfold bind, raise. discriminate.
  - apply orb_false_elim in N as [N1 N2].
    apply Z.ltb_ge in N1, N2.
    unfold bind, ret.
    destruct (random_weight _ _ w) as [[wt | e] w1]; [| discriminate].
    destruct (MaskedConvolution_init _ _ _ _ _ w1) as [[mc | e] w2];
      [| discriminate].
    intros E. injection E as <- <-. simpl. auto 10.
Qed.

End DenseLayerFacts.

Section DenseLayerForward.
Context {A : Type} `{Scalar A} `{Torch A}.

(** The part of [forward] after the bottleneck. *)
Lemma rest_masking_in_training_unfold (self : _DenseLayer.t A)
  encoder_mask decoder_mask incremental_state (x : Tensor A) (w : World) :
  rest_masking_in_training self encoder_mask decoder_mask incremental_state x w
  = (let x := F_relu x in
     x <- (if _DenseLayer.training self then
             x <- match encoder_mask with
                  | Some encoder_mask =>
                      lift (masked_fill x (unsqueeze_1_1 encoder_mask) szero)
                  | None => ret x
                  end ;;
             match decoder_mask with
             | Some decoder_mask =>
                 lift (masked_fill x (unsqueeze_1_m1 decoder_mask) szero)
             | None => ret x
             end
           else ret x) ;;
     x <- MaskedConvolution_forward (_DenseLayer.mconv2 self) x
            incremental_state ;;
     if struthy (_DenseLayer.drop_rate self)
     then F_dropout x (_DenseLayer.drop_rate self) (_DenseLayer.training self)
     else ret x) w.
Proof.
  unfold rest_masking_in_training, kcomp, stage_relu, stage_mconv2,
    stage_dropout, stage_mask.
  cbv zeta. rewrite !bind_assoc, bind_ret_l.
  destruct (_DenseLayer.training self).
  - rewrite !bind_assoc. destruct encoder_mask, decoder_mask; reflexivity.
  - reflexivity.
Qed.

(** [forward] is the bottleneck, through [checkpoint] or directly, followed
    by the rest. *)
Lemma dense_layer_forward_unfold (self : _DenseLayer.t A) prev_features
  encoder_mask decoder_mask incremental_state (w : World) :
  _DenseLayer.forward self prev_features encoder_mask decoder_mask
    incremental_state w
  = bind (if _DenseLayer.memory_efficient self
             && existsb (@requires_grad A) prev_features
          then bottleneck_checkpointed self prev_features
          else bottleneck_direct self prev_features)
         (rest_masking_in_training self encoder_mask decoder_mask
            incremental_state) w.
Proof.
  unfold _DenseLayer.forward, bottleneck_checkpointed, bottleneck_direct.
  apply bind_ext. intros x w'.
  now rewrite rest_masking_in_training_unfold.
Qed.

(** With an argument that requires a gradient, the checkpointed bottleneck
    is the bottleneck called directly. *)
Lemma checkpointed_is_direct (self : _DenseLayer.t A)
  (prev_features : list (Tensor A)) (w : World) :
  existsb (@requires_grad A) prev_features = true ->
  bottleneck_checkpointed self prev_features w
  = bottleneck_direct self prev_features w.
Proof.
  intros G. unfold bottleneck_checkpointed, bottleneck_direct, cp_checkpoint,
    bind, lift, ret.
  destruct (_DenseLayer.bottleneck_function self prev_features)
    as [y | e] eqn:B; [| reflexivity].
  destruct (bottleneck_function_ok _ _ B) as (_ & _ & _ & _ & Bg & _).
  rewrite G in *. simpl in Bg.
  destruct y as [n0 n1 n2 n3 it rg]. simpl in *. now subst rg.
Qed.

(** [forward] does not depend on whether the checkpointing branch is taken. *)
Lemma dense_layer_forward_is_direct (self : _DenseLayer.t A) prev_features
  encoder_mask decoder_mask incremental_state (w : World) :
  _DenseLayer.forward self prev_features encoder_mask decoder_mask
    incremental_state w
  = forward_direct self prev_features encoder_mask decoder_mask
      incremental_state w.
Proof.
  rewrite dense_layer_forward_unfold. unfold forward_direct, kcomp.
  destruct (_DenseLayer.memory_efficient self); simpl; [| reflexivity].
  destruct (existsb (@requires_grad A) prev_features) eqn:G; [| reflexivity].
  unfold bind. now rewrite checkpointed_is_direct.
Qed.

(** C3. When [memory_efficient] is set and some previous feature requires a
    gradient, [_DenseLayer.forward] evaluates the bottleneck through
    [checkpoint]; this evaluation returns the same forward value (and leaves
    the same world) as the direct call of [bottleneck_function] on the same
    list, so that the whole forward pass equals the one without
    checkpointing. *)
Theorem checkpointed_bottleneck_same_forward_value
  (self : _DenseLayer.t A) (prev_features : list (Tensor A))
  (encoder_mask decoder_mask : option (Tensor2 bool))
  (incremental_state : IncrementalState) (w : World) :
  _DenseLayer.memory_efficient self = true ->
  existsb (@requires_grad A) prev_features = true ->
  _DenseLayer.forward self prev_features encoder_mask decoder_mask
    incremental_state w
  = bind (bottleneck_checkpointed self prev_features)
         (rest_masking_in_training self encoder_mask decoder_mask
            incremental_state) w
  /\ bottleneck_checkpointed self prev_features w
     = lift (_DenseLayer.bottleneck_function self prev_features) w
  /\ _DenseLayer.forward self prev_features encoder_mask decoder_mask
       incremental_state w
     = forward_direct self prev_features encoder_mask decoder_mask
         incremental_state w.
Proof.
  intros ME G. split; [| split].
  - rewrite dense_layer_forward_unfold, ME, G. reflexivity.
  - now apply checkpointed_is_direct.
  - apply dense_layer_forward_is_direct.
Qed.


(** C5, as the code has it. For every call of [_DenseLayer.forward], after
    the bottleneck the rest applies in this order: the ReLU; in training mode
    only, the zeroing under the encoder mask and then under the decoder mask,
    each when given; the masked convolution [mconv2]; and dropout at rate
    [drop_rate] when [drop_rate] is not zero.  What the last of these returns
    is the result of the layer: the new feature map alone. *)
Theorem forward_is_bottleneck_then_rest
  (self : _DenseLayer.t A) (prev_features : list (Tensor A))
  (encoder_mask decoder_mask : option (Tensor2 bool))
  (incremental_state : IncrementalState) (w : World) :
  _DenseLayer.forward self prev_features encoder_mask decoder_mask
    incremental_state w
  = bind (if _DenseLayer.memory_efficient self
             && existsb (@requires_grad A) prev_features
          then bottleneck_checkpointed self prev_features
          else bottleneck_direct self prev_features)
         (stage_relu
          >=> (if _DenseLayer.training self
               then stage_mask unsqueeze_1_1 encoder_mask
                    >=> stage_mask unsqueeze_1_m1 decoder_mask
               else ret)
          >=> stage_mconv2 self incremental_state
          >=> stage_dropout self) w
  /\ (_DenseLayer.training self = true ->
      _DenseLayer.forward self prev_features encoder_mask decoder_mask
        incremental_state w
      = forward_masking_always self prev_features encoder_mask decoder_mask
          incremental_state w).
Proof.
  split.
  - rewrite dense_layer_forward_unfold. reflexivity.
  - intros T. rewrite dense_layer_forward_unfold.
    unfold forward_masking_always, rest_masking_in_training,
      rest_masking_always.
    now rewrite T.
Qed.

(** C8. In [_DenseLayer.forward] the masks are used in training mode only:
    when [training] is false the result (and the world left behind) is the
    same whatever the encoder and decoder masks are, given or not. *)
Theorem masks_ignored_outside_training
  (self : _DenseLayer.t A) (prev_features : list (Tensor A))
  (encoder_mask decoder_mask encoder_mask' decoder_mask'
     : option (Tensor2 bool))
  (incremental_state : IncrementalState) (w : World) :
  _DenseLayer.training self = false ->
  _DenseLayer.forward self prev_features encoder_mask decoder_mask
    incremental_state w
  = _DenseLayer.forward self prev_features encoder_mask' decoder_mask'
      incremental_state w.
Proof.
  intros T. rewrite !dense_layer_forward_unfold.
  apply bind_ext. intros x w'.
  unfold rest_masking_in_training. now rewrite T.
Qed.

End DenseLayerForward.

(** ** The constructor of [DenseNetNoNorm] *)

Section DenseNetInit.
Context {A : Type} `{Scalar A} `{Torch A}.

Lemma floordiv_ok (a b q : Z) :
  floordiv a b = Ok q -> b <> 0%Z /\ q = (a / b)%Z.
Proof.
  unfold floordiv. destruct (b =? 0)%Z eqn:B; [discriminate |].
  apply Z.eqb_neq in B. intros E. injection E as <-. auto.
Qed.

Lemma nn_Linear_init_ok (in_f out_f : Z) (with_bias : bool) (w w' : World)
  (m : nn_Linear.t A) :
  nn_Linear.__init__ in_f out_f with_bias w = (Ok m, w') ->
  (0 <= in_f)%Z /\ (0 <= out_f)%Z
  /\ nn_Linear.in_features m = Z.to_nat in_f
  /\ nn_Linear.out_features m = Z.to_nat out_f.
Proof.
  unfold nn_Linear.__init__.
  destruct ((in_f <? 0)%Z || (out_f <? 0)%Z) eqn:N; [discriminate |].
  apply orb_false_elim in N as [N1 N2]. apply Z.ltb_ge in N1, N2.
  unfold bind, ret.
  destruct (random_weight _ _ w) as [[wt | e] w1]; [| discriminate].
  destruct with_bias.
  - destruct (random_bias _ w1) as [[b | e] w2]; [| discriminate].
    intros E. injection E as <- <-. auto.
  - intros E. injection E as <- <-. auto.
Qed.

Lemma Linear_ok (in_f out_f : Z) (with_bias : bool) (w w' : World)
  (m : nn_Linear.t A) :
  Linear in_f out_f with_bias w = (Ok m, w') ->
  (0 <= in_f)%Z /\ (0 <= out_f)%Z
  /\ nn_Linear.in_features m = Z.to_nat in_f
  /\ nn_Linear.out_features m = Z.to_nat out_f.
Proof.
  unfold Linear. unfold bind at 1.
  destruct (nn_Linear.__init__ in_f out_f with_bias w) as [[m0 | e] w0] eqn:I;
    [| discriminate].
  destruct (nn_Linear_init_ok _ _ _ _ I) as (P1 & P2 & P3 & P4).
  unfold bind, ret.
  destruct (nn_init_xavier_uniform_ _ _ w0) as [[wt | e] w1];
    [| discriminate].
  intros E. injection E as <- <-. destruct with_bias; simpl; auto.
Qed.

(** [Linear] with neither input nor output features raises
    [ZeroDivisionError], after [nn.Linear] made the module. *)
Lemma Linear_of_no_features_raises (with_bias : bool) (w w1 : World)
  (m : nn_Linear.t A) :
  nn_Linear.__init__ 0 0 with_bias w = (Ok m, w1) ->
  Linear 0 0 with_bias w = (Raise ZeroDivisionError, w1).
Proof.
  intros I. destruct (nn_Linear_init_ok _ _ _ _ I) as (_ & _ & P3 & P4).
  unfold Linear. unfold bind at 1. rewrite I.
  unfold bind, nn_init_xavier_uniform_. rewrite P3, P4. reflexivity.
Qed.

(** The constructor's loop: [n] layers are appended, layer [i] is built for
    [num_features + i * growth_rate] input channels. *)
Lemma init_loop_ok (n : nat) (args : Args A) :
  forall (layers layers' : list (_DenseLayer.t A)) (num_features nf' : Z)
         (w w' : World),
    DenseNetNoNorm.init_loop n args layers num_features w
    = (Ok (layers', nf'), w') ->
    nf' = (num_features + Z.of_nat n * growth_rate args)%Z
    /\ exists added,
         layers' = layers ++ added
         /\ length added = n
         /\ forall i layer,
              nth_error added i = Some layer ->
              nn_Conv2d.in_channels (_DenseLayer.conv1 layer)
              = Z.to_nat (num_features + Z.of_nat i * growth_rate args)
              /\ (0 <= num_features + Z.of_nat i * growth_rate args)%Z
              /\ nn_Conv2d.out_channels (_DenseLayer.conv1 layer)
                 = Z.to_nat (bn_size args * growth_rate args).
Proof.
  induction n as [| n IH]; intros layers layers' nf nf' w w';
    cbn [DenseNetNoNorm.init_loop].
  - unfold ret. intros E. injection E as <- <- <-.
    split; [lia |]. exists []. rewrite app_nil_r.
    split; [reflexivity |]. split; [reflexivity |].
    intros [| i] layer E; discriminate.
  - unfold bind at 1.
    destruct (_DenseLayer.__init__ nf args w) as [[l | e] w1] eqn:L;
      [| discriminate].
    intros E. destruct (IH _ _ _ _ _ _ E) as (-> & added & -> & Len & P).
    destruct (dense_layer_init_ok _ _ _ L) as (N0 & _ & I & O & _).
    split; [lia |].
    exists (l :: added). rewrite <- app_assoc. simpl.
    split; [reflexivity |]. split; [now rewrite Len |].
    intros [| i] layer E'; simpl in E'.
    + injection E' as <-. rewrite Z.add_0_r. auto.
    + destruct (P i layer E') as (P1 & P2 & P3).
      replace (nf + Z.of_nat (S i) * growth_rate args)%Z
        with (nf + growth_rate args + Z.of_nat i * growth_rate args)%Z
        by lia.
      auto.
Qed.

(** A block as its constructor leaves it. *)
Lemma dense_net_init_ok (num_init_features : Z) (args : Args A)
  (w w' : World) (self : DenseNetNoNorm.t A) :
  DenseNetNoNorm.__init__ num_init_features args w = (Ok self, w') ->
  divide_channels args <> 0%Z
  /\ DenseNetNoNorm.output_channels self
     = (num_init_features / divide_channels args
        + Z.of_nat (Z.to_nat (num_layers args)) * growth_rate args)%Z
  /\ length (DenseNetNoNorm.dense_layers self) = Z.to_nat (num_layers args)
  /\ (forall i layer,
        nth_error (DenseNetNoNorm.dense_layers self) i = Some layer ->
        nn_Conv2d.in_channels (_DenseLayer.conv1 layer)
        = Z.to_nat (num_init_features / divide_channels args
                    + Z.of_nat i * growth_rate args)
        /\ (0 <= num_init_features / divide_channels args
                 + Z.of_nat i * growth_rate args)%Z
        /\ nn_Conv2d.out_channels (_DenseLayer.conv1 layer)
           = Z.to_nat (bn_size args * growth_rate args))
  /\ (if (divide_channels args >? 1)%Z
      then exists linear,
             DenseNetNoNorm.reduce_channels self = Some linear
             /\ (0 <= num_init_features)%Z
             /\ (0 <= num_init_features / divide_channels args)%Z
             /\ nn_Linear.in_features linear = Z.to_nat num_init_features
             /\ nn_Linear.out_features linear
                = Z.to_nat (num_init_features / divide_channels args)
      else DenseNetNoNorm.reduce_channels self = None).
Proof.
  unfold DenseNetNoNorm.__init__. cbv zeta.
  set (red := if (divide_channels args >? 1)%Z then _ else _).
  unfold bind at 1.
  destruct (red w) as [[rc | e] w1] eqn:R; [| discriminate].
  unfold bind at 1. unfold lift at 1.
  destruct (floordiv num_init_features (divide_channels args))
    as [nf | e] eqn:D; [| discriminate].
  destruct (floordiv_ok _ _ D) as [D0 ->].
  unfold bind, ret.
  destruct (DenseNetNoNorm.init_loop _ _ _ _ w1) as [[[ls nf'] | e] w2] eqn:L;
    [| discriminate].
  intros E. injection E as <- <-. simpl.
  destruct (init_loop_ok _ _ _ _ _ L) as (-> & added & -> & Len & P).
  simpl. split; [exact D0 |]. split; [reflexivity |].
  split; [exact Len |]. split; [exact P |].
  subst red. destruct (divide_channels args >? 1)%Z.
  - unfold bind, lift in R.
    destruct (Linear _ _ _ w) as [[m | e] w0] eqn:Lin; [| discriminate].
    unfold ret in R. injection R as <- <-.
    destruct (Linear_ok _ _ _ _ Lin) as (P1 & P2 & P3 & P4).
    exists m. auto 10.
  - unfold ret in R. now injection R as <- <-.
Qed.

(** C6. After the constructor, the channel reduction is present exactly when
    [divide_channels > 1]; it is then a linear map from [num_init_features] to
    [num_init_features // divide_channels] channels, and [forward] applies it
    before anything else.  Otherwise [reduce_channels] is [None] and the input
    goes unchanged to the permutation step. *)
Theorem channel_reduction_iff_divide_channels_gt_1
  (num_init_features : Z) (args : Args A) (w w' : World)
  (self : DenseNetNoNorm.t A) :
  DenseNetNoNorm.__init__ num_init_features args w = (Ok self, w') ->
  ((divide_channels args > 1)%Z
   <-> exists linear, DenseNetNoNorm.reduce_channels self = Some linear)
  /\ (forall linear,
        DenseNetNoNorm.reduce_channels self = Some linear ->
        nn_Linear.in_features linear = Z.to_nat num_init_features
        /\ nn_Linear.out_features linear
           = Z.to_nat (num_init_features / divide_channels args)
        /\ (0 <= num_init_features)%Z
        /\ (0 <= num_init_features / divide_channels args)%Z
        /\ forall x encoder_mask decoder_mask incremental_state w0,
             DenseNetNoNorm.forward self x encoder_mask decoder_mask
               incremental_state w0
             = bind (lift (nn_Linear.forward linear x))
                    (forward_from_permute self encoder_mask decoder_mask
                       incremental_state) w0)
  /\ ((divide_channels args <= 1)%Z ->
      DenseNetNoNorm.reduce_channels self = None
      /\ forall x encoder_mask decoder_mask incremental_state w0,
           DenseNetNoNorm.forward self x encoder_mask decoder_mask
             incremental_state w0
           = forward_from_permute self encoder_mask decoder_mask
               incremental_state x w0).
Proof.
  intros I. destruct (dense_net_init_ok _ _ _ I) as (_ & _ & _ & _ & R).
  destruct (divide_channels args >? 1)%Z eqn:D.
  - apply Z.gtb_lt in D.
    destruct R as (linear & R & P1 & P2 & P3 & P4).
    split; [split; [eauto | lia] |]. split.
    + intros linear' E. rewrite R in E. injection E as <-.
      repeat split; auto.
      intros. rewrite forward_reduce_then_rest. unfold step_reduce.
      now rewrite R.
    + lia.
  - assert (D' : (divide_channels args <= 1)%Z).
    { destruct (Z.gtb_spec (divide_channels args) 1); [discriminate | lia]. }
    split; [split; [lia | intros [l E]; congruence] |]. split.
    + intros linear E. congruence.
    + intros _. split; [exact R |].
      intros. rewrite forward_reduce_then_rest. unfold step_reduce.
      now rewrite R.
Qed.

(** C10 at [divide_channels = 0]: no reduction is built, and the constructor
    then raises [ZeroDivisionError] in the division that sets [num_features];
    at [divide_channels = -1] with no layers it returns a block without
    reduction whose [output_channels] is [- num_init_features]. *)
Theorem init_divides_by_divide_channels_unguarded
  (num_init_features : Z) (layers growth : Z) (efficient : bool) (dropout : A)
  (bn kernel dilsrc diltrg : Z) (w : World) :
  DenseNetNoNorm.__init__ num_init_features
    (mkArgs 0 layers growth efficient dropout bn kernel dilsrc diltrg) w
  = (Raise ZeroDivisionError, w)
  /\ DenseNetNoNorm.__init__ num_init_features
       (mkArgs (-1) 0 growth efficient dropout bn kernel dilsrc diltrg) w
     = (Ok {| DenseNetNoNorm.reduce_channels := None;
              DenseNetNoNorm.dense_layers := [];
              DenseNetNoNorm.output_channels := (- num_init_features)%Z |},
        w).
Proof.
  split.
  - reflexivity.
  - unfold DenseNetNoNorm.__init__, bind, ret, lift, floordiv. simpl.
    do 3 f_equal.
    replace num_init_features with (- num_init_features * -1)%Z at 1 by lia.
    apply Z.div_mul. lia.
Qed.

End DenseNetInit.

(** ** Broadcasting *)

Section Broadcasting.

Lemma bdim_same (a : nat) : bdim a a = Ok a.
Proof. unfold bdim. now rewrite Nat.eqb_refl. Qed.

Lemma bdim_1_r (a : nat) : bdim a 1 = Ok a.
Proof.
  unfold bdim. destruct (a =? 1) eqn:E.
  - apply Nat.eqb_eq in E. now subst.
  - reflexivity.
Qed.

Lemma bdim_1_l (a : nat) : bdim 1 a = Ok a.
Proof.
  unfold bdim. destruct (1 =? a) eqn:E.
  - apply Nat.eqb_eq in E. now subst.
  - reflexivity.
Qed.

Lemma bidx_lt (d i : nat) : i < d -> bidx d i = i.
Proof.
  unfold bidx. destruct (d =? 1) eqn:E; [| reflexivity].
  apply Nat.eqb_eq in E. lia.
Qed.

Lemma bidx_1 (i : nat) : bidx 1 i = 0.
Proof. reflexivity. Qed.

End Broadcasting.

(** ** [PervasiveLayerNorm] *)

Section LayerNorm.
Context {A : Type} `{Scalar A}.

(** C7. For every 4-D tensor [x] in [B, C, Tt, Ts], with parameters [gamma]
    and [beta] of shape [1, C, 1, 1], [PervasiveLayerNorm.forward] returns a
    tensor of the shape of [x] whose elements are
    [gamma * (x - mean) / (std + eps) + beta], where at batch element [b] and
    target position [t] the mean is the mean over the source positions of the
    means over the channels, and the std is the standard deviation over the
    source positions of the standard deviations over the channels; and the
    constructor sets [gamma] to ones and [beta] to zeros, per channel, both
    learned. *)
Theorem layer_norm_forward_formula :
  (forall (num_features : Z) (eps0 : A) (self : PervasiveLayerNorm.t A),
      PervasiveLayerNorm.__init__ num_features eps0 = Ok self ->
      PervasiveLayerNorm.eps self = eps0
      /\ shape (PervasiveLayerNorm.gamma self)
         = (1, Z.to_nat num_features, 1, 1)
      /\ shape (PervasiveLayerNorm.beta self)
         = (1, Z.to_nat num_features, 1, 1)
      /\ requires_grad (PervasiveLayerNorm.gamma self) = true
      /\ requires_grad (PervasiveLayerNorm.beta self) = true
      /\ forall i c k l,
           item (PervasiveLayerNorm.gamma self) i c k l = sone
           /\ item (PervasiveLayerNorm.beta self) i c k l = szero)
  /\ (forall (self : PervasiveLayerNorm.t A) (x : Tensor A),
        shape (PervasiveLayerNorm.gamma self) = (1, size1 x, 1, 1) ->
        shape (PervasiveLayerNorm.beta self) = (1, size1 x, 1, 1) ->
        exists y,
          PervasiveLayerNorm.forward self x = Ok y
          /\ shape y = shape x
          /\ forall b c t s,
               b < size0 x -> c < size1 x -> t < size2 x -> s < size3 x ->
               item y b c t s
               = normalised
                   (item (PervasiveLayerNorm.gamma self) 0 c 0 0)
                   (item (PervasiveLayerNorm.beta self) 0 c 0 0)
                   (PervasiveLayerNorm.eps self)
                   (item x b c t s)
                   (position_mean x b t)
                   (position_std x b t)).
Proof.
  split.
  - intros n eps0 self. unfold PervasiveLayerNorm.__init__.
    destruct (n <? 0)%Z; [discriminate |].
    intros E. injection E as <-. simpl. auto 10.
  - intros [eps [g0 g1 g2 g3 gi gr] [b0 b1 b2 b3 bi br]] x. unfold shape.
    simpl. intros G B. injection G as -> -> -> ->. injection B as -> -> -> ->.
    unfold PervasiveLayerNorm.forward, tmap2. simpl.
    rewrite !bdim_same, !bdim_1_r. simpl.
    rewrite !bdim_same, !bdim_1_l. simpl.
    rewrite !bdim_same, !bdim_1_r. simpl.
    rewrite !bdim_same, !bdim_1_r. simpl.
    eexists. split; [reflexivity |]. split; [reflexivity |].
    intros b c t s Hb Hc Ht Hs. simpl.
    rewrite !(bidx_lt Hb), !(bidx_lt Hc), !(bidx_lt Ht), !(bidx_lt Hs).
    reflexivity.
Qed.

End LayerNorm.

(** ** [PervasiveBatchNorm] *)

Section BatchNorm.
Context {A : Type} `{Scalar A}.

(** Outside training, or without tracking, [forward] leaves the module as it
    is. *)
Lemma batch_norm_forward_frame (self : PervasiveBatchNorm.t A) (x : Tensor A) :
  PervasiveBatchNorm.training self
  && PervasiveBatchNorm.track_running_stats self = false ->
  snd (PervasiveBatchNorm.forward x self) = self.
Proof.
  intros T. unfold PervasiveBatchNorm.forward. rewrite T.
  unfold bind, PervasiveBatchNorm.getattr, ret, lift.
  destruct (PervasiveBatchNorm.running_mean self); [| reflexivity].
  destruct (PervasiveBatchNorm.running_std self); [| reflexivity].
  simpl.
  destruct (PervasiveBatchNorm.index_0_all_0_0 _); [| reflexivity].
  destruct (tmap2 ssub x _); [| reflexivity]. simpl.
  destruct (tmap2 smul _ _); [| reflexivity]. simpl.
  destruct (tmap2 sdiv _ _); reflexivity.
Qed.

(** Outside training, or without tracking, with both buffers present, the
    value of [forward] is the normalisation of [x] by the stored
    [running_mean] and [running_std]. *)
Lemma batch_norm_forward_uses_stored (self : PervasiveBatchNorm.t A)
  (x rm rs : Tensor A) :
  PervasiveBatchNorm.training self
  && PervasiveBatchNorm.track_running_stats self = false ->
  PervasiveBatchNorm.running_mean self = Some rm ->
  PervasiveBatchNorm.running_std self = Some rs ->
  fst (PervasiveBatchNorm.forward x self)
  = (_ <-! PervasiveBatchNorm.index_0_all_0_0 rs ;;
     centred <-! tmap2 ssub x rm ;;
     scaled <-! tmap2 smul (PervasiveBatchNorm.gamma self) centred ;;
     quotient <-! tmap2 sdiv scaled
                    (tmap (fun v => sadd v (PervasiveBatchNorm.eps self)) rs) ;;
     tmap2 sadd quotient (PervasiveBatchNorm.beta self)).
Proof.
  intros T M S. unfold PervasiveBatchNorm.forward. rewrite T.
  unfold bind, PervasiveBatchNorm.getattr, ret, lift. rewrite M, S. simpl.
  destruct (PervasiveBatchNorm.index_0_all_0_0 rs); [| reflexivity]. simpl.
  destruct (tmap2 ssub x rm); [| reflexivity]. simpl.
  destruct (tmap2 smul _ _); [| reflexivity]. simpl.
  destruct (tmap2 sdiv _ _); reflexivity.
Qed.

Lemma keeps_counter_bind {X Y : Type}
  (m : M (PervasiveBatchNorm.t A) X) (f : X -> M (PervasiveBatchNorm.t A) Y) :
  keeps_counter m -> (forall x, keeps_counter (f x)) ->
  keeps_counter (bind m f).
Proof.
  intros Km Kf self. unfold bind. specialize (Km self).
  destruct (m self) as [[x | e] self1]; simpl in *.
  - now rewrite Kf.
  - exact Km.
Qed.

Lemma keeps_counter_lift {X : Type} (r : result X) :
  keeps_counter (A := A) (lift r).
Proof. intros self. reflexivity. Qed.

Lemma keeps_counter_ret {X : Type} (x : X) : keeps_counter (A := A) (ret x).
Proof. intros self. reflexivity. Qed.

Lemma keeps_counter_raise {X : Type} (e : exn) :
  keeps_counter (A := A) (X := X) (raise e).
Proof. intros self. reflexivity. Qed.

Lemma keeps_counter_getattr {X : Type}
  (field : PervasiveBatchNorm.t A -> option X) :
  keeps_counter (PervasiveBatchNorm.getattr field).
Proof.
  intros self. unfold PervasiveBatchNorm.getattr.
  now destruct (field self).
Qed.

Lemma keeps_counter_set_running_mean (v : Tensor A) :
  keeps_counter (PervasiveBatchNorm.set_running_mean v).
Proof. intros self. reflexivity. Qed.

Lemma keeps_counter_set_running_std (v : Tensor A) :
  keeps_counter (PervasiveBatchNorm.set_running_std v).
Proof. intros self. reflexivity. Qed.

Lemma counter_after_increment {X Y : Type}
  (k : M (PervasiveBatchNorm.t A) X) (r : X -> M (PervasiveBatchNorm.t A) Y)
  (self : PervasiveBatchNorm.t A) (n : Z) :
  keeps_counter k -> (forall x, keeps_counter (r x)) ->
  PervasiveBatchNorm.num_batches_tracked self = Some n ->
  PervasiveBatchNorm.num_batches_tracked
    (snd (bind
            (n <- PervasiveBatchNorm.getattr
                    PervasiveBatchNorm.num_batches_tracked ;;
             _ <- PervasiveBatchNorm.set_num_batches_tracked
                    (wrap_int64 (n + 1)) ;;
             k)
            r self))
  = Some (wrap_int64 (n + 1)).
Proof.
  intros Kk Kr N.
  unfold bind, PervasiveBatchNorm.getattr,
    PervasiveBatchNorm.set_num_batches_tracked.
  rewrite N.
  match goal with
  | |- context [k ?s] =>
      specialize (Kk s); destruct (k s) as [[v | e] self1]; simpl in *
  end.
  - now rewrite Kr.
  - exact Kk.
Qed.

(** In training with tracking, on a module whose counter exists, the counter
    has gone up by one after [forward], whether it returned or raised. *)
Lemma batch_norm_forward_counts (self : PervasiveBatchNorm.t A) (x : Tensor A)
  (n : Z) :
  PervasiveBatchNorm.training self
  && PervasiveBatchNorm.track_running_stats self = true ->
  PervasiveBatchNorm.num_batches_tracked self = Some n ->
  PervasiveBatchNorm.num_batches_tracked
    (snd (PervasiveBatchNorm.forward x self))
  = Some (wrap_int64 (n + 1)).
Proof.
  intros T N. unfold PervasiveBatchNorm.forward. rewrite T.
  apply counter_after_increment; [| | exact N]; [| intro];
    repeat
      first
        [ apply keeps_counter_lift
        | apply keeps_counter_ret
        | apply keeps_counter_raise
        | apply keeps_counter_getattr
        | apply keeps_counter_set_running_mean
        | apply keeps_counter_set_running_std
        | apply keeps_counter_bind; [| intro]
        | match goal with
          | |- keeps_counter (match ?o with _ => _ end) => destruct o
          | |- keeps_counter (if ?c then _ else _) => destruct c
          end ].
Qed.

(** C9 at [track_running_stats=False]: the constructor registers no buffers,
    and every call of [forward], in training mode or not, raises
    [AttributeError] where it reads [running_mean], leaving the module as it
    is. *)
Theorem batch_norm_untracked_forward_raises
  (num_features : nat) (eps0 : A) (momentum0 : option A) (mode : bool)
  (x : Tensor A) :
  exists self,
    PervasiveBatchNorm.__init__ (Z.of_nat num_features) false eps0 momentum0
    = Ok self
    /\ PervasiveBatchNorm.running_mean self = None
    /\ PervasiveBatchNorm.running_std self = None
    /\ PervasiveBatchNorm.num_batches_tracked self = None
    /\ PervasiveBatchNorm.forward x (PervasiveBatchNorm.train mode self)
       = (Raise AttributeError, PervasiveBatchNorm.train mode self).
Proof.
  unfold PervasiveBatchNorm.__init__.
  assert (N : (Z.of_nat num_features <? 0)%Z = false)
    by (apply Z.ltb_ge; lia).
  rewrite N. eexists. split; [reflexivity |]. simpl.
  repeat split. unfold PervasiveBatchNorm.forward. simpl.
  now rewrite andb_false_r.
Qed.

End BatchNorm.

(** ** The number of output channels

    Here the collaborators are taken to keep their contract on channels: a
    masked convolution built for [growth_rate] output channels returns
    feature maps with that many channels, and dropout keeps the number of
    channels. *)

Section OutputChannels.
Context {A : Type} `{Scalar A} `{Torch A}.

Hypothesis MaskedConvolution_channels :
  forall inter growth kernel args padding w mc w',
    MaskedConvolution_init inter growth kernel args padding w = (Ok mc, w') ->
    (0 <= growth)%Z
    /\ forall x incremental_state w1 y w2,
         MaskedConvolution_forward mc x incremental_state w1 = (Ok y, w2) ->
         size1 y = Z.to_nat growth.

Hypothesis F_dropout_channels :
  forall x p training w y w',
    F_dropout x p training w = (Ok y, w') -> size1 y = size1 x.

Lemma tmap2_channels {E F G : Type} (f : E -> F -> G)
  (a : Tensor E) (b : Tensor F) (y : Tensor G) :
  tmap2 f a b = Ok y -> bdim (size1 a) (size1 b) = Ok (size1 y).
Proof.
  unfold tmap2.
  destruct (bdim (size0 a) (size0 b)); [| discriminate]; simpl.
  destruct (bdim (size1 a) (size1 b)); [| discriminate]; simpl.
  destruct (bdim (size2 a) (size2 b)); [| discriminate]; simpl.
  destruct (bdim (size3 a) (size3 b)); [| discriminate]; simpl.
  intros E'. now injection E' as <-.
Qed.

Lemma dense_layer_built_returns_growth (num_input_features : Z)
  (args : Args A) (w w' : World) (layer : _DenseLayer.t A) :
  _DenseLayer.__init__ num_input_features args w = (Ok layer, w') ->
  (0 <= growth_rate args)%Z
  /\ mconv2_returns_channels (Z.to_nat (growth_rate args)) layer.
Proof.
  unfold _DenseLayer.__init__. cbv zeta. unfold bind at 1.
  destruct (nn_Conv2d.__init__ _ _ w) as [[conv | e] w1]; [| discriminate].
  unfold bind, ret.
  destruct (MaskedConvolution_init _ _ _ _ _ w1) as [[mc | e] w2] eqn:I;
    [| discriminate].
  intros E. injection E as <- <-.
  destruct (MaskedConvolution_channels _ _ _ _ _ _ I) as [G C].
  split; [exact G |]. intros x inc w3 y w4. simpl. apply C.
Qed.

(** The feature map a layer returns has the channels its masked
    convolution returns. *)
Lemma dense_layer_forward_channels (growth : nat) (layer : _DenseLayer.t A)
  prev_features encoder_mask decoder_mask incremental_state
  (w w' : World) (y : Tensor A) :
  mconv2_returns_channels growth layer ->
  _DenseLayer.forward layer prev_features encoder_mask decoder_mask
    incremental_state w = (Ok y, w') ->
  size1 y = growth.
Proof.
  intros C F. unfold _DenseLayer.forward in F.
  apply bind_inv in F as (x0 & w0 & _ & F). cbv zeta in F.
  apply bind_inv in F as (x1 & w1 & _ & F).
  apply bind_inv in F as (x2 & w2 & V & F).
  apply C in V.
  destruct (struthy (_DenseLayer.drop_rate layer)).
  - apply F_dropout_channels in F. congruence.
  - unfold ret in F. now injection F as <- <-.
Qed.

Lemma total_channels_app {E : Type} (ts us : list (Tensor E)) :
  total_channels (ts ++ us) = total_channels ts + total_channels us.
Proof.
  unfold total_channels. now rewrite map_app, list_sum_app.
Qed.

(** Every layer of the loop adds [growth] channels to the features. *)
Lemma forward_loop_channels (growth : nat) (layers : list (_DenseLayer.t A)) :
  forall features encoder_mask decoder_mask incremental_state
         (w w' : World) features',
    Forall (mconv2_returns_channels growth) layers ->
    DenseNetNoNorm.forward_loop layers features encoder_mask decoder_mask
      incremental_state w = (Ok features', w') ->
    total_channels features'
    = total_channels features + length layers * growth.
Proof.
  induction layers as [| layer layers IH];
    intros features em dm inc w w' features' C; simpl.
  - unfold ret. intros E. injection E as <- <-. lia.
  - inversion C as [| ? ? C1 C2]; subst.
    unfold bind at 1.
    destruct (_DenseLayer.forward layer features em dm inc w)
      as [[x | e] w1] eqn:F; [| discriminate].
    intros L. apply (IH _ _ _ _ _ _ _ C2) in L.
    rewrite L, total_channels_app.
    apply (dense_layer_forward_channels _ _ _ _ _ C1) in F.
    unfold total_channels at 2. simpl. lia.
Qed.

(** The layers the constructor's loop appends are built by the layer
    constructor. *)
Lemma init_loop_layers (P : _DenseLayer.t A -> Prop) (args : Args A) :
  (forall nf w layer w',
      _DenseLayer.__init__ nf args w = (Ok layer, w') -> P layer) ->
  forall (n : nat) (layers layers' : list (_DenseLayer.t A))
         (num_features nf' : Z) (w w' : World),
    Forall P layers ->
    DenseNetNoNorm.init_loop n args layers num_features w
    = (Ok (layers', nf'), w') ->
    Forall P layers'.
Proof.
  intros B. induction n as [| n IH];
    intros layers layers' nf nf' w w' F; cbn [DenseNetNoNorm.init_loop].
  - unfold ret. intros E. now injection E as <- <- <-.
  - unfold bind at 1.
    destruct (_DenseLayer.__init__ nf args w) as [[l | e] w1] eqn:L;
      [| discriminate].
    apply IH. apply Forall_app. split; [exact F |].
    constructor; [| constructor]. exact (B _ _ _ _ L).
Qed.

(** For a block built with [divide_channels >= 1] and [num_layers >= 0] for
    [num_init_features >= 0] input channels, [output_channels] is
    [num_init_features // divide_channels + num_layers * growth_rate], and
    whatever [forward] returns on an input with [num_init_features] channels
    has [output_channels] channels in its last dimension. *)
Lemma forward_returns_output_channels
  (num_init_features : Z) (args : Args A) (w w' : World)
  (self : DenseNetNoNorm.t A) :
  DenseNetNoNorm.__init__ num_init_features args w = (Ok self, w') ->
  (1 <= divide_channels args)%Z ->
  (0 <= num_layers args)%Z ->
  (0 <= num_init_features)%Z ->
  DenseNetNoNorm.output_channels self
  = (num_init_features / divide_channels args
     + num_layers args * growth_rate args)%Z
  /\ forall x encoder_mask decoder_mask incremental_state w1 y w2,
       size3 x = Z.to_nat num_init_features ->
       DenseNetNoNorm.forward self x encoder_mask decoder_mask
         incremental_state w1 = (Ok y, w2) ->
       Z.of_nat (size3 y) = DenseNetNoNorm.output_channels self.
Proof.
  intros I D L N.
  destruct (dense_net_init_ok _ _ _ I) as (_ & O & Len & _ & R).
  assert (Lay : Forall (mconv2_returns_channels (Z.to_nat (growth_rate args)))
                  (DenseNetNoNorm.dense_layers self)
                /\ (DenseNetNoNorm.dense_layers self = []
                    \/ (0 <= growth_rate args)%Z)).
  { assert (F : Forall (fun layer =>
                          (0 <= growth_rate args)%Z
                          /\ mconv2_returns_channels
                               (Z.to_nat (growth_rate args)) layer)
                  (DenseNetNoNorm.dense_layers self)).
    { pose proof I as I'. unfold DenseNetNoNorm.__init__ in I'.
      cbv zeta in I'.
      apply bind_inv in I' as (rc & w0 & _ & I').
      apply bind_inv in I' as (nf & w3 & _ & I').
      apply bind_inv in I' as ([ls nf'] & w4 & Loop & I').
      unfold ret in I'. injection I' as <- <-. simpl.
      eapply init_loop_layers with (layers := []);
        [| constructor | exact Loop].
      intros nf0 w5 layer w6. apply dense_layer_built_returns_growth. }
    split.
    - eapply Forall_impl; [| exact F]. simpl. tauto.
    - destruct (DenseNetNoNorm.dense_layers self) as [| l ls]; [now left |].
      right. now inversion F as [| ? ? [G _] _]. }
  destruct Lay as [Lay G].
  rewrite Z2Nat.id in O by exact L.
  split; [exact O |].
  intros x em dm inc w1 y w2 Sx F.
  rewrite forward_reduce_then_rest in F.
  unfold bind in F.
  destruct (step_reduce self x w1) as [[x1 | e] w3] eqn:Red; [| discriminate].
  assert (S1 : Z.of_nat (size3 x1)
               = (num_init_features / divide_channels args)%Z).
  { unfold step_reduce in Red.
    destruct (divide_channels args >? 1)%Z eqn:Dgt.
    - destruct R as (linear & R & _ & Q & _ & Out). rewrite R in Red.
      unfold lift, nn_Linear.forward in Red.
      destruct (size3 x =? nn_Linear.in_features linear); [| discriminate].
      injection Red as <- <-. simpl. rewrite Out. now apply Z2Nat.id.
    - rewrite R in Red. unfold ret in Red. injection Red as <- <-.
      assert (divide_channels args = 1)%Z as ->.
      { destruct (Z.gtb_spec (divide_channels args) 1);
          [discriminate | lia]. }
      rewrite Z.div_1_r, Sx. now apply Z2Nat.id. }
  rewrite forward_from_permute_unfold in F. unfold bind in F.
  destruct (DenseNetNoNorm.forward_loop _ _ _ _ _ w3)
    as [[fs | e] w4] eqn:Loop; [| discriminate].
  unfold lift in F.
  destruct (torch_cat fs) as [c | e] eqn:C; [| discriminate].
  unfold ret in F. injection F as <- <-. simpl.
  destruct (torch_cat_ok _ C) as (C1 & _).
  rewrite C1, (forward_loop_channels _ _ _ _ _ Lay Loop), O, Len.
  unfold total_channels. simpl. rewrite Nat.add_0_r.
  rewrite Nat2Z.inj_add, Nat2Z.inj_mul, S1, Z2Nat.id by exact L.
  destruct G as [G | G].
  - rewrite G in Len. simpl in Len.
    assert (num_layers args = 0)%Z as -> by lia. lia.
  - now rewrite Z2Nat.id by exact G.
Qed.

End OutputChannels.

(** ** The properties on the small instance *)

Section OnTheSmallInstance.
#[local] Existing Instance Z_Scalar.
#[local] Existing Instance toy_Torch.

(** The two-layer block on [toy_input]: the reduction returns
    [toy_reduced], and the calls are as C1 says. *)
Lemma dense_layers_receive_all_previous_features_witness :
  step_reduce toy_net toy_input toy_world = (Ok toy_reduced, toy_world)
  /\ (let x0 := permute toy_reduced 0 3 1 2 in
      let run := forward_calls toy_net toy_input None None tt toy_world in
      snd run = DenseNetNoNorm.forward toy_net toy_input None None tt toy_world
      /\ (forall i c,
            nth_error (fst run) i = Some c ->
            nth_error (DenseNetNoNorm.dense_layers toy_net) i
            = Some (callee c)
            /\ map came_back (firstn i (fst run))
               = map (@Ok _) (returned (firstn i (fst run)))
            /\ length (returned (firstn i (fst run))) = i
            /\ given c = x0 :: returned (firstn i (fst run)))
      /\ (forall y,
            fst (snd run) = Ok y ->
            length (fst run) = length (DenseNetNoNorm.dense_layers toy_net)
            /\ map came_back (fst run) = map (@Ok _) (returned (fst run))
            /\ length (x0 :: returned (fst run))
               = length (DenseNetNoNorm.dense_layers toy_net) + 1
            /\ exists c,
                 torch_cat (x0 :: returned (fst run)) = Ok c
                 /\ y = permute c 0 2 3 1)).
Proof.
  split.
  - reflexivity.
  - exact (dense_layers_receive_all_previous_features toy_net toy_input
             None None tt toy_world eq_refl).
Defined.

(** [toy_layer] is memory efficient and [toy_features] requires a gradient:
    the checkpointing branch is taken. *)
Lemma checkpointed_bottleneck_same_forward_value_witness :
  _DenseLayer.memory_efficient toy_layer = true
  /\ existsb (@requires_grad Z) [toy_features] = true
  /\ _DenseLayer.forward toy_layer [toy_features] (Some toy_mask) None tt 0
     = bind (bottleneck_checkpointed toy_layer [toy_features])
            (rest_masking_in_training toy_layer (Some toy_mask) None tt) 0
  /\ bottleneck_checkpointed toy_layer [toy_features] 0
     = lift (_DenseLayer.bottleneck_function toy_layer [toy_features]) 0
  /\ _DenseLayer.forward toy_layer [toy_features] (Some toy_mask) None tt 0
     = forward_direct toy_layer [toy_features] (Some toy_mask) None tt 0.
Proof.
  split; [reflexivity |]. split; [reflexivity |].
  exact (checkpointed_bottleneck_same_forward_value toy_layer [toy_features]
           (Some toy_mask) None tt 0 eq_refl eq_refl).
Defined.



(** C5 as stated fails on [toy_layer_eval]: with an encoder mask that pads
    the second source position, [forward] returns the unmasked value, which is
    not what the rest with the masking always applied returns. *)
Lemma eval_forward_does_not_mask :
  _DenseLayer.training toy_layer_eval = false
  /\ exists y y',
       _DenseLayer.forward toy_layer_eval [toy_features] (Some toy_mask)
         None tt 0 = (Ok y, 0)
       /\ forward_masking_always toy_layer_eval [toy_features]
            (Some toy_mask) None tt 0
          = (Ok y', 0)
       /\ tolist y = [[[[8; 12]]]]%Z
       /\ tolist y' = [[[[8; 0]]]]%Z
       /\ y <> y'.
Proof.
  split; [reflexivity |].
  eexists. eexists. split; [reflexivity |]. split; [reflexivity |].
  split; [reflexivity |]. split; [reflexivity |].
  intros E. apply (f_equal (fun t => item t 0 0 0 1)) in E.
  vm_compute in E. discriminate.
Qed.

(** The amended C5 on [toy_layer], which is in training mode: there the
    masks are applied. *)
Lemma forward_is_bottleneck_then_rest_witness :
  _DenseLayer.training toy_layer = true
  /\ _DenseLayer.forward toy_layer [toy_features] (Some toy_mask) None tt 0
     = forward_masking_always toy_layer [toy_features] (Some toy_mask)
         None tt 0.
Proof.
  split; [reflexivity |].
  exact (proj2 (forward_is_bottleneck_then_rest toy_layer [toy_features]
                  (Some toy_mask) None tt 0) eq_refl).
Defined.

(** In evaluation mode the encoder mask makes no difference. *)
Lemma masks_ignored_outside_training_witness :
  _DenseLayer.training toy_layer_eval = false
  /\ _DenseLayer.forward toy_layer_eval [toy_features] (Some toy_mask)
       None tt 0
     = _DenseLayer.forward toy_layer_eval [toy_features] None None tt 0.
Proof.
  split; [reflexivity |].
  exact (masks_ignored_outside_training toy_layer_eval [toy_features]
           (Some toy_mask) None None None tt 0 eq_refl).
Defined.

(** [toy_net] comes from the constructor with [divide_channels = 2] and
    four input channels: its reduction goes from four to two channels. *)
Lemma channel_reduction_iff_divide_channels_gt_1_witness :
  DenseNetNoNorm.__init__ 4 toy_args 0 = (Ok toy_net, toy_world)
  /\ ((divide_channels toy_args > 1)%Z
      <-> exists linear,
            DenseNetNoNorm.reduce_channels toy_net = Some linear)
  /\ (forall linear,
        DenseNetNoNorm.reduce_channels toy_net = Some linear ->
        nn_Linear.in_features linear = Z.to_nat 4
        /\ nn_Linear.out_features linear
           = Z.to_nat (4 / divide_channels toy_args)).
Proof.
  pose proof (channel_reduction_iff_divide_channels_gt_1 4 toy_args 0
                eq_refl) as (P & Q & _).
  split; [reflexivity |]. split; [exact P |].
  intros linear E. destruct (Q linear E) as (Q1 & Q2 & _). auto.
Defined.

(** The layer norm over two channels on [toy_features]: the mean at the one
    position is 2 and the std is 0, so with [eps = 1] the result is [x - 2]. *)
Lemma layer_norm_forward_formula_witness :
  (exists y,
      PervasiveLayerNorm.forward toy_layer_norm toy_features = Ok y
      /\ shape y = shape toy_features
      /\ forall b c t s,
           b < 1 -> c < 2 -> t < 1 -> s < 2 ->
           item y b c t s
           = normalised 1%Z 0%Z 1%Z (item toy_features b c t s)
               (position_mean toy_features b t)
               (position_std toy_features b t))
  /\ PervasiveLayerNorm.__init__ 2 1%Z = Ok toy_layer_norm.
Proof.
  split.
  - exact (proj2 layer_norm_forward_formula toy_layer_norm toy_features
             eq_refl eq_refl).
  - reflexivity.
Defined.

(** The collaborators of the small instance keep the contract on
    channels, and the two-layer block returns [output_channels = 4]
    channels. *)
Example toy_forward_returns_output_channels :
  DenseNetNoNorm.output_channels toy_net = 4%Z
  /\ forall y w,
       DenseNetNoNorm.forward toy_net toy_input None None tt toy_world
       = (Ok y, w) ->
       Z.of_nat (size3 y) = DenseNetNoNorm.output_channels toy_net.
Proof.
  assert (Cm : forall inter growth kernel args padding w mc w',
             MaskedConvolution_init inter growth kernel args padding w
             = (Ok mc, w') ->
             (0 <= growth)%Z
             /\ forall x incremental_state w1 y w2,
                  MaskedConvolution_forward mc x incremental_state w1
                  = (Ok y, w2) ->
                  size1 y = Z.to_nat growth).
  { intros inter growth kernel args padding w mc w'. simpl.
    destruct (growth <? 0)%Z eqn:G; [discriminate |].
    apply Z.ltb_ge in G. unfold ret. intros E. injection E as <- <-.
    split; [exact G |]. intros x inc w1 y w2 E. now injection E as <- <-. }
  assert (Cd : forall x p training w y w',
             F_dropout x p training w = (Ok y, w') -> size1 y = size1 x).
  { intros x p training w y w'. simpl.
    destruct training; intros E; now injection E as <- <-. }
  destruct (@forward_returns_output_channels _ _ _ Cm Cd 4%Z toy_args 0
              toy_world toy_net eq_refl)
    as (O & F); try (simpl; lia).
  split; [reflexivity |].
  intros y w E. exact (F toy_input None None tt toy_world y w eq_refl E).
Qed.

(** The batch norm in evaluation mode normalises with the stored statistics
    (mean 0, std 1, so that with [eps = 1] the result is [x / 2]) and stays as
    it is; in training mode its counter goes from 0 to 1. *)
Example toy_batch_norm_runs :
  (exists y,
      PervasiveBatchNorm.forward toy_features toy_batch_norm_eval
      = (Ok y, toy_batch_norm_eval)
      /\ tolist y = [[[[0; 1]]; [[1; 2]]]]%Z)
  /\ PervasiveBatchNorm.__init__ 2 true 1%Z None = Ok toy_batch_norm
  /\ PervasiveBatchNorm.num_batches_tracked
       (snd (PervasiveBatchNorm.forward toy_features toy_batch_norm))
     = Some 1%Z.
Proof.
  split.
  - eexists. split; reflexivity.
  - split; [reflexivity |].
    exact (batch_norm_forward_counts toy_batch_norm toy_features
             eq_refl eq_refl).
Qed.

End OnTheSmallInstance.

(** * Further properties of the code *)

(** ** [DenseNetNoNorm]: what the constructor builds, and what [forward]
    accepts and returns *)

Section DenseNetFurther.
Context {A : Type} `{Scalar A} `{Torch A}.

Lemma built_layers (P : _DenseLayer.t A -> Prop) (num_init_features : Z)
  (args : Args A) (w w' : World) (self : DenseNetNoNorm.t A) :
  (forall nf w1 layer w2,
      _DenseLayer.__init__ nf args w1 = (Ok layer, w2) -> P layer) ->
  DenseNetNoNorm.__init__ num_init_features args w = (Ok self, w') ->
  Forall P (DenseNetNoNorm.dense_layers self).
Proof.
  intros B I. unfold DenseNetNoNorm.__init__ in I. cbv zeta in I.
  apply bind_inv in I as (rc & w0 & _ & I).
  apply bind_inv in I as (nf & w3 & _ & I).
  apply bind_inv in I as ([ls nf'] & w4 & Loop & I).
  unfold ret in I. injection I as <- <-. simpl.
  eapply init_loop_layers with (layers := []); [exact B | constructor |].
  exact Loop.
Qed.

(** The constructor builds [num_layers] layers (none when [num_layers] is
    negative); layer [i] takes [num_init_features // divide_channels
    + i * growth_rate] channels, the channels of the initial map and of the
    [i] maps before it, and gives [bn_size * growth_rate] channels to its
    masked convolution; every layer has the flags of [args] and is in
    training mode. *)
Theorem constructor_builds_layers_for_growing_channels
  (num_init_features : Z) (args : Args A) (w w' : World)
  (self : DenseNetNoNorm.t A) :
  DenseNetNoNorm.__init__ num_init_features args w = (Ok self, w') ->
  length (DenseNetNoNorm.dense_layers self) = Z.to_nat (num_layers args)
  /\ forall i layer,
       nth_error (DenseNetNoNorm.dense_layers self) i = Some layer ->
       (0 <= num_init_features / divide_channels args
             + Z.of_nat i * growth_rate args)%Z
       /\ nn_Conv2d.in_channels (_DenseLayer.conv1 layer)
          = Z.to_nat (num_init_features / divide_channels args
                      + Z.of_nat i * growth_rate args)
       /\ nn_Conv2d.out_channels (_DenseLayer.conv1 layer)
          = Z.to_nat (bn_size args * growth_rate args)
       /\ _DenseLayer.memory_efficient layer = args_memory_efficient args
       /\ _DenseLayer.drop_rate layer = convolution_dropout args
       /\ _DenseLayer.training layer = true.
Proof.
  intros I.
  destruct (dense_net_init_ok _ _ _ I) as (_ & _ & Len & Ch & _).
  split; [exact Len |].
  intros i layer E. destruct (Ch i layer E) as (C1 & C2 & C3).
  assert (F : Forall (fun l =>
                        _DenseLayer.memory_efficient l
                        = args_memory_efficient args
                        /\ _DenseLayer.drop_rate l = convolution_dropout args
                        /\ _DenseLayer.training l = true)
                (DenseNetNoNorm.dense_layers self)).
  { eapply built_layers; [| exact I].
    intros nf w1 l w2 L.
    destruct (dense_layer_init_ok _ _ _ L) as (_ & _ & _ & _ & Q). exact Q. }
  rewrite Forall_forall in F.
  destruct (F layer (nth_error_In _ _ E)) as (F1 & F2 & F3).
  auto 10.
Qed.

Lemma permute_there_and_back {E : Type} (x : Tensor E) :
  permute (permute x 0 3 1 2) 0 2 3 1 = x.
Proof. destruct x. reflexivity. Qed.

(** A block without reduction and without layers returns its input as it
    is: the two permutations undo each other, and nothing checks the number
    of channels. *)
Theorem forward_of_empty_block_is_identity
  (self : DenseNetNoNorm.t A) (x : Tensor A)
  (encoder_mask decoder_mask : option (Tensor2 bool))
  (incremental_state : IncrementalState) (w : World) :
  DenseNetNoNorm.reduce_channels self = None ->
  DenseNetNoNorm.dense_layers self = [] ->
  DenseNetNoNorm.forward self x encoder_mask decoder_mask incremental_state w
  = (Ok x, w).
Proof.
  intros R L. unfold DenseNetNoNorm.forward. rewrite R, L. simpl.
  unfold bind, ret, lift. simpl. now rewrite permute_there_and_back.
Qed.

Lemma forward_loop_extends (layers : list (_DenseLayer.t A)) :
  forall features encoder_mask decoder_mask incremental_state
         (w w' : World) features',
    DenseNetNoNorm.forward_loop layers features encoder_mask decoder_mask
      incremental_state w = (Ok features', w') ->
    exists added,
      features' = features ++ added /\ length added = length layers.
Proof.
  induction layers as [| layer layers IH];
    intros features em dm inc w w' features'; simpl.
  - unfold ret. intros E. injection E as <- <-. exists [].
    now rewrite app_nil_r.
  - intros E. apply bind_inv in E as (y & w1 & _ & E).
    apply IH in E as (added & -> & Len).
    exists (y :: added). rewrite <- app_assoc. simpl. auto.
Qed.

(** Whatever [forward] returns keeps the batch, target and source sizes of
    its input, and its first channels are the input itself (after the channel
    reduction, when there is one): the initial feature map comes first in the
    concatenation. *)
Theorem forward_keeps_layout_and_input
  (self : DenseNetNoNorm.t A) (x y : Tensor A)
  (encoder_mask decoder_mask : option (Tensor2 bool))
  (incremental_state : IncrementalState) (w w' : World) :
  DenseNetNoNorm.forward self x encoder_mask decoder_mask incremental_state w
  = (Ok y, w') ->
  size0 y = size0 x /\ size1 y = size1 x /\ size2 y = size2 x
  /\ exists x1 w1,
       step_reduce self x w = (Ok x1, w1)
       /\ size3 x1 <= size3 y
       /\ forall b t s c,
            c < size3 x1 -> item y b t s c = item x1 b t s c.
Proof.
  intros F. rewrite forward_reduce_then_rest in F.
  apply bind_inv in F as (x1 & w1 & R & F).
  rewrite forward_from_permute_unfold in F.
  apply bind_inv in F as (fs & w2 & L & F).
  apply bind_inv in F as (c & w3 & C & F).
  unfold ret in F. injection F as <- <-.
  unfold lift in C. injection C as C <-.
  apply forward_loop_extends in L as (added & -> & _).
  cbn [app] in C.
  destruct (torch_cat_ok _ C) as (C1 & _ & Cs & Ci).
  destruct (Cs _ eq_refl) as (S0 & S2 & S3). simpl in S0, S2, S3.
  assert (Sx : size0 x1 = size0 x /\ size1 x1 = size1 x
               /\ size2 x1 = size2 x).
  { unfold step_reduce in R.
    destruct (DenseNetNoNorm.reduce_channels self) as [linear |].
    - unfold lift, nn_Linear.forward in R.
      destruct (size3 x =? nn_Linear.in_features linear); [| discriminate].
      injection R as <- <-. simpl. auto.
    - unfold ret in R. injection R as <- <-. auto. }
  destruct Sx as (X0 & X1 & X2).
  simpl. repeat split; try congruence.
  exists x1, w1. split; [exact R |].
  assert (Le : size3 x1 <= size1 c).
  { rewrite C1. unfold total_channels. simpl. lia. }
  split; [exact Le |].
  intros b t s ch Hc.
  rewrite (Ci szero b ch t s) by lia. simpl.
  apply Nat.ltb_lt in Hc. now rewrite Hc.
Qed.

End DenseNetFurther.

(** ** [_DenseLayer]: failures and masks *)

Section DenseLayerFurther.
Context {A : Type} `{Scalar A} `{Torch A}.

Lemma torch_cat_raises_runtime {E : Type} (ts : list (Tensor E)) (e : exn) :
  torch_cat ts = Raise e -> e = RuntimeError.
Proof.
  destruct ts as [| t ts]; simpl; [congruence |].
  revert t. induction ts as [| u ts IH]; intros t; simpl; [discriminate |].
  unfold cat2 at 1. destruct (_ && _); simpl; [apply IH | congruence].
Qed.

Lemma bottleneck_raises_runtime (self : _DenseLayer.t A)
  (inputs : list (Tensor A)) (e : exn) :
  _DenseLayer.bottleneck_function self inputs = Raise e -> e = RuntimeError.
Proof.
  unfold _DenseLayer.bottleneck_function.
  destruct (torch_cat inputs) as [c | e'] eqn:C; simpl.
  - destruct (nn_Conv2d.forward (_DenseLayer.conv1 self) (F_relu c))
      as [y | e'] eqn:V; simpl; [discriminate |].
    intros E. injection E as <-. eapply conv2d_forward_raises_runtime, V.
  - intros E. injection E as <-. eapply torch_cat_raises_runtime, C.
Qed.

Lemma forward_raises_when_bottleneck_cannot_run
  (self : _DenseLayer.t A) (prev_features : list (Tensor A))
  (encoder_mask decoder_mask : option (Tensor2 bool))
  (incremental_state : IncrementalState) (w : World) :
  can_cat prev_features = false
  \/ total_channels prev_features
     <> nn_Conv2d.in_channels (_DenseLayer.conv1 self) ->
  _DenseLayer.forward self prev_features encoder_mask decoder_mask
    incremental_state w
  = (Raise RuntimeError, w).
Proof.
  intros N.
  destruct (_DenseLayer.bottleneck_function self prev_features)
    as [y | e] eqn:B.
  - assert (R : exists y, _DenseLayer.bottleneck_function self prev_features
                          = Ok y) by eauto.
    apply bottleneck_function_returns_iff in R as (R1 & R2 & _).
    destruct N; congruence.
  - pose proof (bottleneck_raises_runtime _ _ B) as ->.
    unfold _DenseLayer.forward, cp_checkpoint, bind, lift. rewrite B.
    now destruct (_ && _).
Qed.

(** When the previous features cannot be concatenated (none are given, or
    they disagree in batch, target or source size) or do not add up to the
    input channels of [conv1], [forward] raises [RuntimeError] and leaves the
    world as it is: the masked convolution and dropout are not reached, with
    or without checkpointing. *)
Theorem forward_fails_before_the_masked_convolution
  (self : _DenseLayer.t A) (prev_features : list (Tensor A))
  (encoder_mask decoder_mask : option (Tensor2 bool))
  (incremental_state : IncrementalState) (w : World) :
  can_cat prev_features = false
  \/ total_channels prev_features
     <> nn_Conv2d.in_channels (_DenseLayer.conv1 self) ->
  _DenseLayer.forward self prev_features encoder_mask decoder_mask
    incremental_state w
  = (Raise RuntimeError, w).
Proof. apply forward_raises_when_bottleneck_cannot_run. Qed.

End DenseLayerFurther.

Section DenseNetRejects.
Context {A : Type} `{Scalar A} `{Torch A}.

(** A block with a channel reduction or with at least one layer, built with
    [divide_channels >= 1], accepts only inputs with [num_init_features]
    channels: on any other input [forward] raises [RuntimeError] and leaves
    the world as it is. *)
Theorem forward_rejects_other_channel_counts
  (num_init_features : Z) (args : Args A) (w0 w0' : World)
  (self : DenseNetNoNorm.t A) (x : Tensor A)
  (encoder_mask decoder_mask : option (Tensor2 bool))
  (incremental_state : IncrementalState) (w : World) :
  DenseNetNoNorm.__init__ num_init_features args w0 = (Ok self, w0') ->
  (1 <= divide_channels args)%Z ->
  (divide_channels args > 1 \/ 1 <= num_layers args)%Z ->
  size3 x <> Z.to_nat num_init_features ->
  DenseNetNoNorm.forward self x encoder_mask decoder_mask incremental_state w
  = (Raise RuntimeError, w).
Proof.
  intros I D C N.
  destruct (dense_net_init_ok _ _ _ I) as (_ & _ & Len & Ch & R).
  destruct (divide_channels args >? 1)%Z eqn:G.
  - destruct R as (linear & R & _ & _ & In & _).
    unfold DenseNetNoNorm.forward. rewrite R.
    unfold bind, lift, nn_Linear.forward. rewrite In.
    apply Nat.eqb_neq in N. now rewrite N.
  - assert (D1 : divide_channels args = 1%Z).
    { destruct (Z.gtb_spec (divide_channels args) 1); [discriminate | lia]. }
    destruct C as [C | C]; [lia |].
    destruct (DenseNetNoNorm.dense_layers self) as [| l0 ls] eqn:L.
    + simpl in Len. lia.
    + destruct (Ch 0 l0) as (In & _ & _); [reflexivity |].
      rewrite D1, Z.div_1_r, Z.add_0_r in In.
      rewrite forward_reduce_then_rest. unfold step_reduce. rewrite R.
      rewrite bind_ret_l, forward_from_permute_unfold, L.
      apply bind_raise. cbn [DenseNetNoNorm.forward_loop]. apply bind_raise.
      apply forward_raises_when_bottleneck_cannot_run.
      right. unfold total_channels. simpl. rewrite In. lia.
Qed.

End DenseNetRejects.

(** ** Masks on well-shaped features *)

Section Masking.
Context {A : Type} `{Scalar A}.

(** Filling under an encoder mask in [B, Ts]: whole source positions. *)
Lemma masked_fill_encoder (x : Tensor A) (m : Tensor2 bool) (v : A) :
  rows m = size0 x -> cols m = size3 x ->
  exists y,
    masked_fill x (unsqueeze_1_1 m) v = Ok y
    /\ size0 y = size0 x /\ size1 y = size1 x
    /\ size2 y = size2 x /\ size3 y = size3 x
    /\ requires_grad y = requires_grad x
    /\ forall b c t s,
         b < size0 x -> c < size1 x -> t < size2 x -> s < size3 x ->
         item y b c t s = if item2 m b s then v else item x b c t s.
Proof.
  intros R C. unfold masked_fill, tmap2. simpl. rewrite R, C.
  rewrite !bdim_same, !bdim_1_r. simpl.
  eexists. split; [reflexivity |]. simpl.
  rewrite orb_false_r. repeat split.
  intros b c t s Hb Hc Ht Hs.
  now rewrite !(bidx_lt Hb), !(bidx_lt Hc), !(bidx_lt Ht), !(bidx_lt Hs).
Qed.

(** Filling under a decoder mask in [B, Tt]: whole target positions. *)
Lemma masked_fill_decoder (x : Tensor A) (m : Tensor2 bool) (v : A) :
  rows m = size0 x -> cols m = size2 x ->
  exists y,
    masked_fill x (unsqueeze_1_m1 m) v = Ok y
    /\ size0 y = size0 x /\ size1 y = size1 x
    /\ size2 y = size2 x /\ size3 y = size3 x
    /\ requires_grad y = requires_grad x
    /\ forall b c t s,
         b < size0 x -> c < size1 x -> t < size2 x -> s < size3 x ->
         item y b c t s = if item2 m b t then v else item x b c t s.
Proof.
  intros R C. unfold masked_fill, tmap2. simpl. rewrite R, C.
  rewrite !bdim_same, !bdim_1_r. simpl.
  eexists. split; [reflexivity |]. simpl.
  rewrite orb_false_r. repeat split.
  intros b c t s Hb Hc Ht Hs.
  now rewrite !(bidx_lt Hb), !(bidx_lt Hc), !(bidx_lt Ht), !(bidx_lt Hs).
Qed.

End Masking.

Section DenseLayerMasks.
Context {A : Type} `{Scalar A} `{Torch A}.

(** The two fillings in a row, on features in [B, C, Tt, Ts]. *)
Lemma masking_stages (x : Tensor A)
  (encoder_mask decoder_mask : option (Tensor2 bool)) (w : World) :
  mask_fits (size0 x) (size3 x) encoder_mask ->
  mask_fits (size0 x) (size2 x) decoder_mask ->
  exists y,
    (stage_mask unsqueeze_1_1 encoder_mask
     >=> stage_mask unsqueeze_1_m1 decoder_mask) x w = (Ok y, w)
    /\ size0 y = size0 x /\ size1 y = size1 x
    /\ size2 y = size2 x /\ size3 y = size3 x
    /\ forall b c t s,
         b < size0 x -> c < size1 x -> t < size2 x -> s < size3 x ->
         item y b c t s
         = if padded encoder_mask decoder_mask b t s then szero
           else item x b c t s.
Proof.
  intros Fe Fd. unfold kcomp, stage_mask, padded.
  assert (E1 : exists y1,
             match encoder_mask with
             | Some m => lift (masked_fill x (unsqueeze_1_1 m) szero)
             | None => ret x
             end w = (Ok y1, w)
             /\ size0 y1 = size0 x /\ size1 y1 = size1 x
             /\ size2 y1 = size2 x /\ size3 y1 = size3 x
             /\ forall b c t s,
                  b < size0 x -> c < size1 x -> t < size2 x -> s < size3 x ->
                  item y1 b c t s
                  = if match encoder_mask with
                       | Some m => item2 m b s
                       | None => false
                       end
                    then szero else item x b c t s).
  { destruct encoder_mask as [m |].
    - destruct Fe as [R C].
      destruct (masked_fill_encoder x m szero R C)
        as (y1 & M & S0 & S1 & S2 & S3 & _ & I).
      exists y1. unfold lift. rewrite M. auto 10.
    - exists x. unfold ret. auto 10. }
  destruct E1 as (y1 & M1 & S0 & S1 & S2 & S3 & I1).
  erewrite bind_ok by exact M1.
  destruct decoder_mask as [m |].
  - destruct Fd as [R C]. rewrite <- S0 in R. rewrite <- S2 in C.
    destruct (masked_fill_decoder y1 m szero R C)
      as (y2 & M2 & T0 & T1 & T2 & T3 & _ & I2).
    exists y2. unfold lift. rewrite M2.
    split; [reflexivity |]. repeat split; try congruence.
    intros b c t s Hb Hc Ht Hs.
    rewrite I2 by congruence. rewrite I1 by assumption.
    destruct (item2 m b t); [now rewrite orb_true_r |].
    now rewrite orb_false_r.
  - exists y1. unfold ret. split; [reflexivity |].
    repeat split; try assumption.
    intros b c t s Hb Hc Ht Hs. rewrite I1 by assumption.
    now rewrite orb_false_r.
Qed.

(** In training mode, with an encoder mask in [B, Ts] and a decoder mask in
    [B, Tt] (each when given), what [forward] hands to the masked
    convolution is the ReLU of the bottleneck result with zeros at every
    channel of every padded position: a source position under the encoder
    mask or a target position under the decoder mask. *)
Theorem training_forward_zeroes_padded_positions
  (self : _DenseLayer.t A) (prev_features : list (Tensor A))
  (encoder_mask decoder_mask : option (Tensor2 bool))
  (incremental_state : IncrementalState) (w : World) (x : Tensor A) :
  _DenseLayer.training self = true ->
  _DenseLayer.bottleneck_function self prev_features = Ok x ->
  mask_fits (size0 x) (size3 x) encoder_mask ->
  mask_fits (size0 x) (size2 x) decoder_mask ->
  exists y,
    _DenseLayer.forward self prev_features encoder_mask decoder_mask
      incremental_state w
    = (stage_mconv2 self incremental_state >=> stage_dropout self) y w
    /\ shape y = shape x
    /\ forall b c t s,
         b < size0 x -> c < size1 x -> t < size2 x -> s < size3 x ->
         item y b c t s
         = if padded encoder_mask decoder_mask b t s then szero
           else smax szero (item x b c t s).
Proof.
  intros T B Fe Fd.
  destruct (masking_stages (F_relu x) encoder_mask decoder_mask w Fe Fd)
    as (y & M & S0 & S1 & S2 & S3 & I).
  exists y. split; [| split].
  - rewrite dense_layer_forward_is_direct.
    unfold forward_direct, bottleneck_direct, kcomp at 1.
    unfold lift at 1. rewrite B.
    unfold bind at 1. unfold rest_masking_in_training. rewrite T.
    unfold kcomp at 1 2 3. unfold stage_relu at 1.
    rewrite !bind_assoc, bind_ret_l.
    erewrite bind_ok by exact M. reflexivity.
  - unfold shape. simpl in *. congruence.
  - exact I.
Qed.

End DenseLayerMasks.

(** ** When [forward] returns

    Here the collaborators of every layer of the block are taken to return
    where they are meant to be used: the masked convolution on non-empty
    feature maps with the channels it was built for, and dropout at the rate
    of the layer, both keeping the batch, target and source sizes. *)

Section ForwardReturns.
Context {A : Type} `{Scalar A} `{Torch A}.

Lemma rest_returns (growth : nat) (self : _DenseLayer.t A) (x : Tensor A)
  (encoder_mask decoder_mask : option (Tensor2 bool))
  (incremental_state : IncrementalState) (w : World) :
  mconv2_keeps_sizes growth incremental_state self ->
  dropout_keeps_sizes self ->
  size1 x = nn_Conv2d.out_channels (_DenseLayer.conv1 self) ->
  1 <= size0 x -> 1 <= size1 x -> 1 <= size2 x -> 1 <= size3 x ->
  mask_fits (size0 x) (size3 x) encoder_mask ->
  mask_fits (size0 x) (size2 x) decoder_mask ->
  exists y w',
    rest_masking_in_training self encoder_mask decoder_mask
      incremental_state x w = (Ok y, w')
    /\ size0 y = size0 x /\ size1 y = growth
    /\ size2 y = size2 x /\ size3 y = size3 x.
Proof.
  intros K Dr O N0 N1 N2 N3 Fe Fd.
  unfold rest_masking_in_training, kcomp, stage_relu.
  rewrite !bind_assoc, bind_ret_l.
  assert (Mid : exists y1,
             (if _DenseLayer.training self
              then stage_mask unsqueeze_1_1 encoder_mask
                   >=> stage_mask unsqueeze_1_m1 decoder_mask
              else ret) (F_relu x) w = (Ok y1, w)
             /\ size0 y1 = size0 x /\ size1 y1 = size1 x
             /\ size2 y1 = size2 x /\ size3 y1 = size3 x).
  { destruct (_DenseLayer.training self).
    - destruct (masking_stages (F_relu x) encoder_mask decoder_mask w Fe Fd)
        as (y1 & M & S0 & S1 & S2 & S3 & _).
      exists y1. auto.
    - exists (F_relu x). auto. }
  destruct Mid as (y1 & M & S0 & S1 & S2 & S3).
  erewrite bind_ok by exact M.
  destruct (K y1 w) as (y2 & w2 & V & T0 & T1 & T2 & T3); try lia.
  unfold stage_mconv2. erewrite bind_ok by exact V.
  unfold stage_dropout. destruct (struthy (_DenseLayer.drop_rate self)).
  - destruct (Dr y2 w2) as (y3 & w3 & D & U0 & U1 & U2 & U3).
    exists y3, w3. split; [exact D |]. repeat split; congruence.
  - exists y2, w2. split; [reflexivity |]. repeat split; congruence.
Qed.

(** A layer returns on non-empty features that can be concatenated and add
    up to its input channels, under masks that fit them. *)
Lemma dense_layer_forward_returns (growth : nat) (self : _DenseLayer.t A)
  (t : Tensor A) (ts : list (Tensor A))
  (encoder_mask decoder_mask : option (Tensor2 bool))
  (incremental_state : IncrementalState) (w : World) :
  mconv2_keeps_sizes growth incremental_state self ->
  dropout_keeps_sizes self ->
  can_cat (t :: ts) = true ->
  total_channels (t :: ts)
  = nn_Conv2d.in_channels (_DenseLayer.conv1 self) ->
  1 <= nn_Conv2d.out_channels (_DenseLayer.conv1 self) ->
  1 <= size0 t -> 1 <= size2 t -> 1 <= size3 t ->
  mask_fits (size0 t) (size3 t) encoder_mask ->
  mask_fits (size0 t) (size2 t) decoder_mask ->
  exists y w',
    _DenseLayer.forward self (t :: ts) encoder_mask decoder_mask
      incremental_state w = (Ok y, w')
    /\ size0 y = size0 t /\ size1 y = growth
    /\ size2 y = size2 t /\ size3 y = size3 t.
Proof.
  intros K Dr C T O N0 N2 N3 Fe Fd.
  assert (B : exists x, _DenseLayer.bottleneck_function self (t :: ts) = Ok x).
  { apply bottleneck_function_returns_iff.
    split; [exact C |]. split; [exact T |]. split; [lia |].
    intros t' E. injection E as <-. lia. }
  destruct B as [x B].
  destruct (bottleneck_function_ok _ _ B) as (_ & _ & S1 & S & _).
  destruct (S t eq_refl) as (S0 & S2 & S3).
  rewrite <- S0, <- S2, <- S3 in *.
  edestruct rest_returns with (w := w) (incremental_state := incremental_state)
    (x := x) as (y & w' & R & Y);
    [exact K | exact Dr | exact S1 | lia | lia | lia | lia
     | exact Fe | exact Fd |].
  exists y, w'. split; [| exact Y].
  rewrite dense_layer_forward_is_direct.
  unfold forward_direct, bottleneck_direct, kcomp, lift. unfold bind at 1.
  rewrite B. exact R.
Qed.

Lemma can_cat_snoc (t y : Tensor A) (ts : list (Tensor A)) :
  can_cat (t :: ts) = true ->
  size0 y = size0 t -> size2 y = size2 t -> size3 y = size3 t ->
  can_cat ((t :: ts) ++ [y]) = true.
Proof.
  simpl. intros C S0 S2 S3. rewrite forallb_app, C. simpl.
  unfold same_sizes_but_channels. rewrite S0, S2, S3, !Nat.eqb_refl.
  reflexivity.
Qed.

(** The loop returns when layer [i] takes the channels of the features
    plus [i] times [growth]. *)
Lemma forward_loop_returns (growth : nat)
  (incremental_state : IncrementalState)
  (layers : list (_DenseLayer.t A)) :
  forall (t : Tensor A) (ts : list (Tensor A))
         (encoder_mask decoder_mask : option (Tensor2 bool)) (w : World),
    (forall i layer,
        nth_error layers i = Some layer ->
        mconv2_keeps_sizes growth incremental_state layer
        /\ dropout_keeps_sizes layer
        /\ 1 <= nn_Conv2d.out_channels (_DenseLayer.conv1 layer)
        /\ nn_Conv2d.in_channels (_DenseLayer.conv1 layer)
           = total_channels (t :: ts) + i * growth) ->
    can_cat (t :: ts) = true ->
    1 <= size0 t -> 1 <= size2 t -> 1 <= size3 t ->
    mask_fits (size0 t) (size3 t) encoder_mask ->
    mask_fits (size0 t) (size2 t) decoder_mask ->
    exists features w',
      DenseNetNoNorm.forward_loop layers (t :: ts) encoder_mask decoder_mask
        incremental_state w = (Ok features, w')
      /\ can_cat features = true
      /\ total_channels features
         = total_channels (t :: ts) + length layers * growth.
Proof.
  induction layers as [| layer layers IH];
    intros t ts em dm w L C N0 N2 N3 Fe Fd.
  - exists (t :: ts), w. simpl. split; [reflexivity |].
    split; [exact C | lia].
  - destruct (L 0 layer eq_refl) as (K & Dr & O & In).
    rewrite Nat.add_0_r in In.
    edestruct dense_layer_forward_returns
      with (w := w) (incremental_state := incremental_state)
      as (y & w1 & F & S0 & S1 & S2 & S3);
      [exact K | exact Dr | exact C | exact (eq_sym In) | exact O
       | exact N0 | exact N2 | exact N3 | exact Fe | exact Fd |].
    destruct (IH t (ts ++ [y]) em dm w1) as (fs & w2 & Loop & C' & T').
    + intros i l E. destruct (L (S i) l E) as (K' & Dr' & O' & In').
      split; [exact K' |]. split; [exact Dr' |]. split; [exact O' |].
      rewrite In'.
      change (t :: ts ++ [y]) with ((t :: ts) ++ [y]).
      rewrite total_channels_app. unfold total_channels at 3. simpl. lia.
    + now apply can_cat_snoc.
    + exact N0.
    + exact N2.
    + exact N3.
    + exact Fe.
    + exact Fd.
    + exists fs, w2. cbn [DenseNetNoNorm.forward_loop].
      erewrite bind_ok by exact F.
      split; [exact Loop |]. split; [exact C' |].
      rewrite T'. change (t :: ts ++ [y]) with ((t :: ts) ++ [y]).
      rewrite total_channels_app. unfold total_channels at 2. simpl. lia.
Qed.

(** A block built with [1 <= divide_channels <= num_init_features],
    [bn_size >= 1] and [growth_rate >= 1] returns on every non-empty input
    in [B, Tt, Ts, num_init_features], under an encoder mask in [B, Ts] and
    a decoder mask in [B, Tt] (each when given), a tensor in
    [B, Tt, Ts, output_channels]: every layer was built for the channels it
    is handed.  It is enough that, in every layer of the block, the masked
    convolution returns under this [incremental_state] on non-empty feature
    maps with the channels it was built for, with [growth_rate] channels,
    and that dropout returns at the rate of the layer, both keeping the
    other sizes. *)
Theorem forward_returns_on_well_shaped_input
  (num_init_features : Z) (args : Args A) (w0 w0' : World)
  (self : DenseNetNoNorm.t A) (x : Tensor A)
  (encoder_mask decoder_mask : option (Tensor2 bool))
  (incremental_state : IncrementalState) (w : World) :
  DenseNetNoNorm.__init__ num_init_features args w0 = (Ok self, w0') ->
  (1 <= divide_channels args <= num_init_features)%Z ->
  (1 <= bn_size args)%Z ->
  (1 <= growth_rate args)%Z ->
  Forall (mconv2_keeps_sizes (Z.to_nat (growth_rate args)) incremental_state)
         (DenseNetNoNorm.dense_layers self) ->
  Forall dropout_keeps_sizes (DenseNetNoNorm.dense_layers self) ->
  1 <= size0 x -> 1 <= size1 x -> 1 <= size2 x ->
  size3 x = Z.to_nat num_init_features ->
  mask_fits (size0 x) (size2 x) encoder_mask ->
  mask_fits (size0 x) (size1 x) decoder_mask ->
  exists y w',
    DenseNetNoNorm.forward self x encoder_mask decoder_mask
      incremental_state w = (Ok y, w')
    /\ size0 y = size0 x /\ size1 y = size1 x /\ size2 y = size2 x
    /\ Z.of_nat (size3 y) = DenseNetNoNorm.output_channels self.
Proof.
  intros I D Bn G FK FD N0 N1 N2 Sx Fe Fd.
  destruct (dense_net_init_ok _ _ _ I) as (_ & O & Len & Ch & R).
  assert (Q : (0 <= num_init_features / divide_channels args)%Z)
    by (apply Z.div_pos; lia).
  rewrite Forall_forall in FK, FD.
  assert (Red : exists x1,
             step_reduce self x w = (Ok x1, w)
             /\ size0 x1 = size0 x /\ size1 x1 = size1 x
             /\ size2 x1 = size2 x
             /\ size3 x1
                = Z.to_nat (num_init_features / divide_channels args)).
  { unfold step_reduce. destruct (divide_channels args >? 1)%Z eqn:Gt.
    - destruct R as (linear & R & _ & _ & In & Out). rewrite R.
      unfold lift, nn_Linear.forward. rewrite In, Sx, Nat.eqb_refl.
      eexists. split; [reflexivity |]. simpl. auto.
    - rewrite R. exists x. split; [reflexivity |].
      assert (divide_channels args = 1)%Z as ->.
      { destruct (Z.gtb_spec (divide_channels args) 1);
          [discriminate | lia]. }
      rewrite Z.div_1_r. auto. }
  destruct Red as (x1 & Red & X0 & X1 & X2 & X3).
  set (x0 := permute x1 0 3 1 2).
  edestruct forward_loop_returns
    with (growth := Z.to_nat (growth_rate args))
         (layers := DenseNetNoNorm.dense_layers self)
         (t := x0) (ts := @nil (Tensor A)) (w := w)
         (encoder_mask := encoder_mask) (decoder_mask := decoder_mask)
         (incremental_state := incremental_state)
    as (fs & w2 & Loop & C & T).
  - intros i layer E.
    split; [exact (FK layer (nth_error_In _ _ E)) |].
    split; [exact (FD layer (nth_error_In _ _ E)) |].
    destruct (Ch i layer E) as (In & _ & Out).
    split; [rewrite Out; nia |].
    rewrite In.
    unfold total_channels. simpl. rewrite X3, Nat.add_0_r.
    rewrite Z2Nat.inj_add, Z2Nat.inj_mul, Nat2Z.id; lia.
  - reflexivity.
  - simpl. lia.
  - simpl. lia.
  - simpl. lia.
  - simpl. now rewrite X0, X2.
  - simpl. now rewrite X0, X1.
  - destruct (proj2 (torch_cat_returns_iff fs) C) as [c Cat].
    exists (permute c 0 2 3 1), w2. split.
    + rewrite forward_reduce_then_rest.
      erewrite bind_ok by exact Red.
      rewrite forward_from_permute_unfold.
      erewrite bind_ok by exact Loop.
      unfold bind, lift, ret. now rewrite Cat.
    + destruct (forward_loop_extends _ _ _ _ _ _ Loop) as (added & E & _).
      destruct (torch_cat_ok _ Cat) as (C1 & _ & Cs & _).
      destruct (Cs x0) as (S0 & S2 & S3); [now rewrite E |].
      simpl. rewrite S0, S2, S3. simpl.
      repeat split; try congruence.
      rewrite C1, T, O, Len. unfold total_channels. simpl.
      rewrite X3, Nat.add_0_r, Nat2Z.inj_add, Nat2Z.inj_mul.
      rewrite Z2Nat.id by exact Q.
      rewrite (Z2Nat.id (growth_rate args)) by lia.
      reflexivity.
Qed.

End ForwardReturns.

(** ** The number of channels of what [forward] returns *)

Section OutputChannelsOfForward.
Context {A : Type} `{Scalar A} `{Torch A}.

Hypothesis MaskedConvolution_channels :
  forall inter growth kernel args padding w mc w',
    MaskedConvolution_init inter growth kernel args padding w = (Ok mc, w') ->
    (0 <= growth)%Z
    /\ forall x incremental_state w1 y w2,
         MaskedConvolution_forward mc x incremental_state w1 = (Ok y, w2) ->
         size1 y = Z.to_nat growth.

Hypothesis F_dropout_channels :
  forall x p training w y w',
    F_dropout x p training w = (Ok y, w') -> size1 y = size1 x.

(** For a block built with [divide_channels >= 1] and [num_layers >= 0] for
    [num_init_features >= 0] channels, [output_channels] is
    [num_init_features // divide_channels + num_layers * growth_rate], and
    whatever [forward] returns on an input with [num_init_features] channels
    has [output_channels] channels, whatever the masks are: it is enough
    that the masked convolutions return [growth_rate] channels and that
    dropout keeps the channels. *)
Theorem forward_output_has_output_channels
  (num_init_features : Z) (args : Args A) (w w' : World)
  (self : DenseNetNoNorm.t A) :
  DenseNetNoNorm.__init__ num_init_features args w = (Ok self, w') ->
  (1 <= divide_channels args)%Z ->
  (0 <= num_layers args)%Z ->
  (0 <= num_init_features)%Z ->
  DenseNetNoNorm.output_channels self
  = (num_init_features / divide_channels args
     + num_layers args * growth_rate args)%Z
  /\ forall x encoder_mask decoder_mask incremental_state w1 y w2,
       size3 x = Z.to_nat num_init_features ->
       DenseNetNoNorm.forward self x encoder_mask decoder_mask
         incremental_state w1 = (Ok y, w2) ->
       Z.of_nat (size3 y) = DenseNetNoNorm.output_channels self.
Proof.
  apply forward_returns_output_channels.
  - exact MaskedConvolution_channels.
  - exact F_dropout_channels.
Qed.

End OutputChannelsOfForward.

(** ** [Linear] and the constructor of [_DenseLayer] *)

Section Constructors.
Context {A : Type} `{Scalar A} `{Torch A}.

(** [Linear] raises on a negative size without drawing anything.  The
    module it returns has the sizes asked for; its weight is the one drawn
    after [nn.Linear] made its own, in the world that left; its bias is all
    zeros when a bias is asked for, and absent otherwise. *)
Theorem Linear_redraws_weight_and_zeroes_bias
  (in_features out_features : Z) (bias : bool) (w : World) :
  ((in_features < 0 \/ out_features < 0)%Z ->
   Linear in_features out_features bias w = (Raise RuntimeError, w))
  /\ forall m w',
       Linear in_features out_features bias w = (Ok m, w') ->
       (0 <= in_features)%Z /\ (0 <= out_features)%Z
       /\ nn_Linear.in_features m = Z.to_nat in_features
       /\ nn_Linear.out_features m = Z.to_nat out_features
       /\ nn_Linear.bias m = (if bias then Some (fun _ => szero) else None)
       /\ exists m0 w1,
            nn_Linear.__init__ in_features out_features bias w = (Ok m0, w1)
            /\ random_weight (Z.to_nat out_features) (Z.to_nat in_features) w1
               = (Ok (nn_Linear.weight m), w').
Proof.
  split.
  - intros N. unfold Linear, nn_Linear.__init__.
    assert (((in_features <? 0)%Z || (out_features <? 0)%Z) = true) as ->.
    { apply orb_true_iff. destruct N; [left | right]; now apply Z.ltb_lt. }
    reflexivity.
  - intros m w' L. unfold Linear in L.
    apply bind_inv in L as (m0 & w1 & I & L).
    destruct (nn_Linear_init_ok _ _ _ _ I) as (P1 & P2 & P3 & P4).
    apply bind_inv in L as (wt & w2 & D & L).
    unfold ret in L. injection L as <- <-.
    unfold nn_init_xavier_uniform_ in D.
    destruct (_ =? 0); [discriminate |].
    rewrite P3, P4 in D.
    assert (B : nn_Linear.bias m0 = None \/ bias = true).
    { clear D. unfold nn_Linear.__init__ in I.
      destruct ((in_features <? 0)%Z || (out_features <? 0)%Z);
        [discriminate |].
      apply bind_inv in I as (wt0 & w3 & _ & I).
      destruct bias; [now right | left].
      unfold bind, ret in I. injection I as <- <-. reflexivity. }
    destruct bias; simpl.
    + repeat split; try assumption. exists m0, w1. auto.
    + destruct B as [B | B]; [| discriminate].
      repeat split; try assumption. exists m0, w1. auto.
Qed.

(** The constructor of a layer builds [conv1] from [num_input_features] to
    [bn_size * growth_rate] channels and then the masked convolution from
    these to [growth_rate] channels, with paddings [pt] and [ps] that are
    half the dilated kernel span rounded down: for an odd kernel size twice
    the padding is exactly [dilation * (kernel_size - 1)]. *)
Theorem dense_layer_padding_is_half_the_dilated_span
  (num_input_features : Z) (args : Args A) (w : World) :
  exists pt ps,
    _DenseLayer.__init__ num_input_features args w
    = (conv1 <- nn_Conv2d.__init__ num_input_features
                  (bn_size args * growth_rate args) ;;
       mconv2 <- MaskedConvolution_init (bn_size args * growth_rate args)
                   (growth_rate args) (kernel_size args) args (pt, ps) ;;
       ret {| _DenseLayer.memory_efficient := args_memory_efficient args;
              _DenseLayer.drop_rate := convolution_dropout args;
              _DenseLayer.conv1 := conv1;
              _DenseLayer.mconv2 := mconv2;
              _DenseLayer.training := true |}) w
    /\ (2 * pt
        = target_dilation args * (kernel_size args - 1)
          - (target_dilation args * (kernel_size args - 1)) mod 2)%Z
    /\ (2 * ps
        = source_dilation args * (kernel_size args - 1)
          - (source_dilation args * (kernel_size args - 1)) mod 2)%Z
    /\ (Z.odd (kernel_size args) = true ->
        (2 * pt = target_dilation args * (kernel_size args - 1)
         /\ 2 * ps = source_dilation args * (kernel_size args - 1))%Z).
Proof.
  exists (target_dilation args * (kernel_size args - 1) / 2)%Z,
         (source_dilation args * (kernel_size args - 1) / 2)%Z.
  split; [reflexivity |].
  assert (Half : forall a : Z, (2 * (a / 2) = a - a mod 2)%Z).
  { intros a. pose proof (Z.div_mod a 2). lia. }
  split; [apply Half |]. split; [apply Half |].
  intros O.
  assert (E : forall d : Z, ((d * (kernel_size args - 1)) mod 2 = 0)%Z).
  { intros d. apply Z.mod_divide; [lia |].
    apply Z.divide_mul_r.
    rewrite Zodd_bool_iff in O. apply Zodd_ex in O as [m ->].
    exists m. lia. }
  rewrite !Half, !E. lia.
Qed.

End Constructors.

(** ** [PervasiveLayerNorm]: the channels it accepts *)

Section LayerNormFurther.
Context {A : Type} `{Scalar A}.

Lemma bdim_ok_iff (a b : nat) :
  (exists d, bdim a b = Ok d) <-> a = b \/ a = 1 \/ b = 1.
Proof.
  unfold bdim.
  destruct (Nat.eqb_spec a b); [split; eauto |].
  destruct (Nat.eqb_spec a 1); [split; eauto |].
  destruct (Nat.eqb_spec b 1); [split; eauto |].
  split; [intros [d E]; discriminate | tauto].
Qed.

Lemma bdim_value (a b d : nat) :
  bdim a b = Ok d -> d = if a =? 1 then b else a.
Proof.
  unfold bdim.
  destruct (Nat.eqb_spec a b) as [-> | N].
  - intros E. injection E as <-. now destruct (b =? 1).
  - destruct (a =? 1); [congruence |].
    destruct (b =? 1); congruence.
Qed.

(** With parameters in [1, C, 1, 1], the layer norm returns exactly when
    the channels of [x] broadcast against [C]: they are [C], or one of the
    two counts is 1.  A one-channel input is not rejected but spread over
    the [C] channels of the parameters; any other count raises
    [RuntimeError]. *)
Theorem layer_norm_broadcasts_the_channels
  (self : PervasiveLayerNorm.t A) (x : Tensor A) (C : nat) :
  shape (PervasiveLayerNorm.gamma self) = (1, C, 1, 1) ->
  shape (PervasiveLayerNorm.beta self) = (1, C, 1, 1) ->
  (size1 x = C \/ size1 x = 1 \/ C = 1 ->
   exists y,
     PervasiveLayerNorm.forward self x = Ok y
     /\ shape y
        = (size0 x, (if size1 x =? 1 then C else size1 x), size2 x, size3 x))
  /\ (~ (size1 x = C \/ size1 x = 1 \/ C = 1) ->
      PervasiveLayerNorm.forward self x = Raise RuntimeError).
Proof.
  destruct self as [eps [g0 g1 g2 g3 gi gr] [b0 b1 b2 b3 bi br]].
  unfold shape. simpl. intros G B.
  injection G as G0 G1 G2 G3. injection B as B0 B1 B2 B3.
  subst g0 g1 g2 g3 b0 b1 b2 b3.
  unfold PervasiveLayerNorm.forward, tmap2. simpl.
  rewrite !bdim_same, !bdim_1_r. simpl.
  rewrite !bdim_1_l. simpl.
  destruct (bdim C (size1 x)) as [d | e] eqn:D; simpl.
  - pose proof (bdim_value _ _ D) as Dv.
    assert (Q : C = size1 x \/ C = 1 \/ size1 x = 1)
      by (apply bdim_ok_iff; eauto).
    rewrite !bdim_same, !bdim_1_r. simpl.
    assert (D2 : bdim d C = Ok d).
    { rewrite Dv. destruct (Nat.eqb_spec C 1) as [E1 | N1].
      - rewrite E1. apply bdim_1_r.
      - apply bdim_same. }
    rewrite D2. simpl. rewrite !bdim_1_r. simpl. split.
    + intros _. eexists. split; [reflexivity |]. simpl.
      do 3 f_equal. rewrite Dv.
      destruct (Nat.eqb_spec C 1) as [E1 | N1];
        destruct (Nat.eqb_spec (size1 x) 1) as [E2 | N2];
        try reflexivity; lia.
    + intros N. exfalso. apply N. destruct Q as [Q | [Q | Q]]; auto.
  - split.
    + intros Q. exfalso.
      assert (R : exists d, bdim C (size1 x) = Ok d).
      { apply bdim_ok_iff. destruct Q as [Q | [Q | Q]]; auto. }
      destruct R as [d R]. congruence.
    + intros _. f_equal. unfold bdim in D.
      destruct (C =? size1 x); [discriminate |].
      destruct (C =? 1); [discriminate |].
      destruct (size1 x =? 1); [discriminate |]. congruence.
Qed.

End LayerNormFurther.

(** ** [PervasiveBatchNorm]: what [forward] computes and what it keeps *)

Section BatchNormFurther.
Context {A : Type} `{Scalar A}.

(** Outside training, with buffers and parameters in [1, C, 1, 1] and [x]
    in [B, C, T, S], [forward] leaves the module as it is and returns a
    tensor of the shape of [x] whose elements are
    [gamma * (x - running_mean) / (running_std + eps) + beta], channel by
    channel. *)
Theorem batch_norm_eval_formula
  (self : PervasiveBatchNorm.t A) (x rm rs : Tensor A) :
  PervasiveBatchNorm.training self
  && PervasiveBatchNorm.track_running_stats self = false ->
  PervasiveBatchNorm.running_mean self = Some rm ->
  PervasiveBatchNorm.running_std self = Some rs ->
  shape rm = (1, size1 x, 1, 1) ->
  shape rs = (1, size1 x, 1, 1) ->
  shape (PervasiveBatchNorm.gamma self) = (1, size1 x, 1, 1) ->
  shape (PervasiveBatchNorm.beta self) = (1, size1 x, 1, 1) ->
  exists y,
    PervasiveBatchNorm.forward x self = (Ok y, self)
    /\ shape y = shape x
    /\ forall b c t s,
         b < size0 x -> c < size1 x -> t < size2 x -> s < size3 x ->
         item y b c t s
         = normalised
             (item (PervasiveBatchNorm.gamma self) 0 c 0 0)
             (item (PervasiveBatchNorm.beta self) 0 c 0 0)
             (PervasiveBatchNorm.eps self)
             (item x b c t s)
             (item rm 0 c 0 0)
             (item rs 0 c 0 0).
Proof.
  intros T M S Sm Ss Sg Sb.
  unfold PervasiveBatchNorm.forward. rewrite T.
  unfold bind, PervasiveBatchNorm.getattr, ret, lift. rewrite M, S. simpl.
  destruct rm as [m0 m1 m2 m3 mi mr], rs as [s0 s1 s2 s3 si sr].
  destruct (PervasiveBatchNorm.gamma self) as [g0 g1 g2 g3 gi gr].
  destruct (PervasiveBatchNorm.beta self) as [b0 b1 b2 b3 bi br].
  unfold shape in *. simpl in *.
  injection Sm as M0 M1 M2 M3. injection Ss as S0 S1 S2 S3.
  injection Sg as G0 G1 G2 G3. injection Sb as B0 B1 B2 B3.
  subst m0 m1 m2 m3 s0 s1 s2 s3 g0 g1 g2 g3 b0 b1 b2 b3.
  unfold PervasiveBatchNorm.index_0_all_0_0, tmap2. simpl.
  rewrite !bdim_same, !bdim_1_r. simpl.
  rewrite !bdim_same, !bdim_1_l. simpl.
  rewrite !bdim_same, !bdim_1_r. simpl.
  rewrite !bdim_same, !bdim_1_r. simpl.
  eexists. split; [reflexivity |]. split; [reflexivity |].
  intros b c t s Hb Hc Ht Hs. simpl.
  rewrite !(bidx_lt Hb), !(bidx_lt Hc), !(bidx_lt Ht), !(bidx_lt Hs).
  reflexivity.
Qed.

(** In training with tracking, with buffers and parameters in
    [1, C, 1, 1] and [x] in [B, C, T, S] with [T >= 1], [forward] counts the
    batch, takes the moving average factor [maf] (the momentum, or one over
    the new count), and returns a tensor of the shape of [x] normalised, at
    channel [c] and target position [t], by the moving averages of the
    stored statistics and the statistics of [x] there.  The stored statistics
    become their moving averages with the statistics of [x] averaged over the
    target positions; nothing else of the module changes. *)
Theorem batch_norm_training_formula
  (self : PervasiveBatchNorm.t A) (x rm rs : Tensor A) (n : Z) :
  PervasiveBatchNorm.training self = true ->
  PervasiveBatchNorm.track_running_stats self = true ->
  PervasiveBatchNorm.running_mean self = Some rm ->
  PervasiveBatchNorm.running_std self = Some rs ->
  PervasiveBatchNorm.num_batches_tracked self = Some n ->
  (PervasiveBatchNorm.momentum self = None -> wrap_int64 (n + 1) <> 0%Z) ->
  shape rm = (1, size1 x, 1, 1) ->
  shape rs = (1, size1 x, 1, 1) ->
  shape (PervasiveBatchNorm.gamma self) = (1, size1 x, 1, 1) ->
  shape (PervasiveBatchNorm.beta self) = (1, size1 x, 1, 1) ->
  0 < size2 x ->
  let maf := moving_average_factor (PervasiveBatchNorm.momentum self)
               (wrap_int64 (n + 1)) in
  exists y rm' rs',
    PervasiveBatchNorm.forward x self
    = (Ok y,
       {| PervasiveBatchNorm.eps := PervasiveBatchNorm.eps self;
          PervasiveBatchNorm.momentum := PervasiveBatchNorm.momentum self;
          PervasiveBatchNorm.gamma := PervasiveBatchNorm.gamma self;
          PervasiveBatchNorm.beta := PervasiveBatchNorm.beta self;
          PervasiveBatchNorm.track_running_stats := true;
          PervasiveBatchNorm.training := true;
          PervasiveBatchNorm.running_mean := Some rm';
          PervasiveBatchNorm.running_std := Some rs';
          PervasiveBatchNorm.num_batches_tracked :=
            Some (wrap_int64 (n + 1)) |})
    /\ shape y = shape x
    /\ (forall b c t s,
          b < size0 x -> c < size1 x -> t < size2 x -> s < size3 x ->
          item y b c t s
          = normalised
              (item (PervasiveBatchNorm.gamma self) 0 c 0 0)
              (item (PervasiveBatchNorm.beta self) 0 c 0 0)
              (PervasiveBatchNorm.eps self)
              (item x b c t s)
              (blend maf (item rm 0 c 0 0) (channel_mean x c t))
              (blend maf (item rs 0 c 0 0) (channel_std x c t)))
    /\ shape rm' = (1, size1 x, 1, 1)
    /\ shape rs' = (1, size1 x, 1, 1)
    /\ forall c,
         c < size1 x ->
         item rm' 0 c 0 0
         = blend maf (item rm 0 c 0 0)
             (mean_list (map (channel_mean x c) (seq 0 (size2 x))))
         /\ item rs' 0 c 0 0
            = blend maf (item rs 0 c 0 0)
                (mean_list (map (channel_std x c) (seq 0 (size2 x)))).
Proof.
  destruct self as [eps mom gamma beta track training rm0 rs0 nbt].
  cbn [PervasiveBatchNorm.training PervasiveBatchNorm.track_running_stats
       PervasiveBatchNorm.running_mean PervasiveBatchNorm.running_std
       PervasiveBatchNorm.num_batches_tracked PervasiveBatchNorm.momentum
       PervasiveBatchNorm.gamma PervasiveBatchNorm.beta
       PervasiveBatchNorm.eps].
  intros -> -> -> -> -> Z0 Sm Ss Sg Sb T.
  set (maf := moving_average_factor mom (wrap_int64 (n + 1))).
  assert (Maf : forall self0 : PervasiveBatchNorm.t A,
             PervasiveBatchNorm.num_batches_tracked self0
             = Some (wrap_int64 (n + 1)) ->
             match mom with
             | Some m => ret m
             | None =>
                 n0 <- PervasiveBatchNorm.getattr
                         PervasiveBatchNorm.num_batches_tracked ;;
                 (if (n0 =? 0)%Z then raise ZeroDivisionError
                  else ret (sdiv sone (sfloat n0)))
             end self0 = (Ok maf, self0)).
  { intros self0 N. subst maf. destruct mom as [m |]; [reflexivity |].
    unfold bind, PervasiveBatchNorm.getattr. rewrite N.
    specialize (Z0 eq_refl). apply Z.eqb_neq in Z0. now rewrite Z0. }
  destruct rm as [m0 m1 m2 m3 mi mr], rs as [s0 s1 s2 s3 si sr].
  destruct gamma as [g0 g1 g2 g3 gi gr], beta as [b0 b1 b2 b3 bi br].
  unfold shape in *. simpl in *.
  injection Sm as M0 M1 M2 M3. injection Ss as S0 S1 S2 S3.
  injection Sg as G0 G1 G2 G3. injection Sb as B0 B1 B2 B3.
  subst m0 m1 m2 m3 s0 s1 s2 s3 g0 g1 g2 g3 b0 b1 b2 b3.
  unfold PervasiveBatchNorm.forward. simpl.
  unfold bind at 1. unfold bind at 1.
  unfold PervasiveBatchNorm.getattr at 1. simpl.
  unfold bind at 1.
  unfold PervasiveBatchNorm.set_num_batches_tracked at 1. simpl.
  unfold bind at 1. rewrite Maf by reflexivity.
  unfold bind, PervasiveBatchNorm.getattr, lift, ret,
    PervasiveBatchNorm.set_running_mean, PervasiveBatchNorm.set_running_std,
    PervasiveBatchNorm.index_0_all_0_0, PervasiveBatchNorm.scale, tmap2.
  simpl.
  rewrite !bdim_same, !bdim_1_l, ?bdim_1_r. simpl.
  destruct (size2 x) as [| T'] eqn:ET; [lia |]. simpl.
  rewrite !bdim_same, ?bdim_1_l, ?bdim_1_r. simpl.
  rewrite !bdim_same, ?bdim_1_l, ?bdim_1_r. simpl.
  rewrite !bdim_same, ?bdim_1_l, ?bdim_1_r. simpl.
  rewrite ?bdim_same, ?bdim_1_l, ?bdim_1_r. simpl.
  eexists. eexists. eexists.
  split; [reflexivity |]. split; [reflexivity |].
  split; [| split; [reflexivity | split; [reflexivity |]]].
  - intros b c t s Hb Hc Ht Hs. simpl.
    rewrite !(bidx_lt Hb), !(bidx_lt Hc), !(bidx_lt Ht), !(bidx_lt Hs).
    unfold normalised, blend, channel_mean, channel_std, over_batch.
    reflexivity.
  - intros c Hc. simpl. rewrite !(bidx_lt Hc).
    unfold blend, channel_mean, channel_std, over_batch.
    split; reflexivity.
Qed.

Lemma wrap_int64_in_range (n : Z) :
  (- 2 ^ 63 <= n < 2 ^ 63)%Z -> wrap_int64 n = n.
Proof.
  intros R. unfold wrap_int64. rewrite Z.mod_small; lia.
Qed.

(** In training with tracking, every call of [forward] counts: the counter
    has gone up by one afterwards (wrapping around at 64 bits) also when the
    call raised further on, as it does on an input whose channels do not fit
    the buffers. *)
Theorem training_forward_counts_also_when_it_raises
  (self : PervasiveBatchNorm.t A) (x : Tensor A) (n : Z) :
  PervasiveBatchNorm.training self
  && PervasiveBatchNorm.track_running_stats self = true ->
  PervasiveBatchNorm.num_batches_tracked self = Some n ->
  PervasiveBatchNorm.num_batches_tracked
    (snd (PervasiveBatchNorm.forward x self))
  = Some (wrap_int64 (n + 1))
  /\ ((- 2 ^ 63 <= n < 2 ^ 63 - 1)%Z -> wrap_int64 (n + 1) = (n + 1)%Z)
  /\ (n = 2 ^ 63 - 1 -> wrap_int64 (n + 1) = - 2 ^ 63)%Z.
Proof.
  intros T N. split; [now apply batch_norm_forward_counts |]. split.
  - intros R. apply wrap_int64_in_range. lia.
  - intros ->. reflexivity.
Qed.

(** [reset_running_stats] does nothing on a module that does not track.  On
    one that tracks it puts zeros in [running_mean] and ones in [running_std],
    in the shapes they have, and sets the counter to 0, whatever they were,
    and changes nothing else; on a module that the constructor has just
    built it changes nothing at all. *)
Theorem reset_running_stats_gives_the_initial_statistics
  (self : PervasiveBatchNorm.t A) :
  (PervasiveBatchNorm.track_running_stats self = false ->
   PervasiveBatchNorm.reset_running_stats self = (Ok tt, self))
  /\ (forall rm rs n,
        PervasiveBatchNorm.track_running_stats self = true ->
        PervasiveBatchNorm.running_mean self = Some rm ->
        PervasiveBatchNorm.running_std self = Some rs ->
        PervasiveBatchNorm.num_batches_tracked self = Some n ->
        exists rm' rs',
          PervasiveBatchNorm.reset_running_stats self
          = (Ok tt,
             {| PervasiveBatchNorm.eps := PervasiveBatchNorm.eps self;
                PervasiveBatchNorm.momentum :=
                  PervasiveBatchNorm.momentum self;
                PervasiveBatchNorm.gamma := PervasiveBatchNorm.gamma self;
                PervasiveBatchNorm.beta := PervasiveBatchNorm.beta self;
                PervasiveBatchNorm.track_running_stats := true;
                PervasiveBatchNorm.training :=
                  PervasiveBatchNorm.training self;
                PervasiveBatchNorm.running_mean := Some rm';
                PervasiveBatchNorm.running_std := Some rs';
                PervasiveBatchNorm.num_batches_tracked := Some 0%Z |})
          /\ shape rm' = shape rm /\ shape rs' = shape rs
          /\ forall i j k l,
               item rm' i j k l = szero /\ item rs' i j k l = sone)
  /\ (forall num_features eps0 momentum0,
        PervasiveBatchNorm.__init__ num_features true eps0 momentum0 = Ok self ->
        PervasiveBatchNorm.reset_running_stats self = (Ok tt, self)).
Proof.
  split; [| split].
  - intros T. unfold PervasiveBatchNorm.reset_running_stats. now rewrite T.
  - intros rm rs n T M S N.
    destruct self as [eps mom gamma beta track training rm0 rs0 nbt].
    simpl in *. subst track rm0 rs0 nbt.
    unfold PervasiveBatchNorm.reset_running_stats. simpl.
    eexists. eexists. split; [reflexivity |].
    repeat split.
  - intros nf eps0 mom0. unfold PervasiveBatchNorm.__init__.
    destruct (nf <? 0)%Z; [discriminate |].
    intros E. injection E as <-. reflexivity.
Qed.

End BatchNormFurther.

(** ** The further properties on the small instance *)

Section FurtherOnTheSmallInstance.
#[local] Existing Instance Z_Scalar.
#[local] Existing Instance toy_Torch.

Lemma toy_mconv2_keeps_sizes (growth : Z) (layer : _DenseLayer.t Z) :
  _DenseLayer.mconv2 layer = Z.to_nat growth ->
  mconv2_keeps_sizes (Z.to_nat growth) tt layer.
Proof.
  intros E x w _ _ _ _ _. simpl. rewrite E.
  eexists. eexists. split; [reflexivity |]. simpl. auto.
Qed.

Lemma toy_dropout_keeps_sizes (layer : _DenseLayer.t Z) :
  dropout_keeps_sizes layer.
Proof.
  intros x w. simpl.
  destruct (_DenseLayer.training layer); eexists; eexists;
    (split; [reflexivity |]); simpl; auto.
Qed.

Lemma toy_MaskedConvolution_channels :
  forall inter growth kernel args padding w mc w',
    MaskedConvolution_init inter growth kernel args padding w = (Ok mc, w') ->
    (0 <= growth)%Z
    /\ forall x incremental_state w1 y w2,
         MaskedConvolution_forward mc x incremental_state w1 = (Ok y, w2) ->
         size1 y = Z.to_nat growth.
Proof.
  intros inter growth kernel args padding w mc w'. simpl.
  destruct (growth <? 0)%Z eqn:G; [discriminate |].
  apply Z.ltb_ge in G. unfold ret. intros E. injection E as <- <-.
  split; [exact G |]. intros x inc w1 y w2 E.
  injection E as <- <-. reflexivity.
Qed.

Lemma toy_F_dropout_channels :
  forall x p training w y w',
    F_dropout x p training w = (Ok y, w') -> size1 y = size1 x.
Proof.
  intros x p training w y w'. simpl.
  destruct training; intros E; injection E as <- <-; reflexivity.
Qed.

Lemma constructor_builds_layers_for_growing_channels_witness :
  DenseNetNoNorm.__init__ 4 toy_args 0 = (Ok toy_net, toy_world)
  /\ length (DenseNetNoNorm.dense_layers toy_net) = 2
  /\ map (fun layer => nn_Conv2d.in_channels (_DenseLayer.conv1 layer))
         (DenseNetNoNorm.dense_layers toy_net) = [2; 3].
Proof.
  split; [reflexivity |].
  pose proof (@constructor_builds_layers_for_growing_channels Z Z_Scalar
                toy_Torch 4%Z toy_args 0 toy_world toy_net eq_refl) as [L _].
  split; [exact L | reflexivity].
Defined.

Lemma forward_of_empty_block_is_identity_witness :
  DenseNetNoNorm.__init__ 4 empty_args 0 = (Ok empty_net, 0)
  /\ DenseNetNoNorm.forward empty_net three_channels None None tt 0
     = (Ok three_channels, 0).
Proof.
  split; [reflexivity |].
  exact (@forward_of_empty_block_is_identity Z Z_Scalar toy_Torch empty_net
           three_channels None None tt 0 eq_refl eq_refl).
Defined.

Lemma forward_keeps_layout_and_input_witness :
  DenseNetNoNorm.forward toy_net toy_input None None tt toy_world
  = (Ok toy_output, toy_world)
  /\ shape toy_output = (1, 1, 2, 4)
  /\ tolist toy_reduced = [[[[6; 6]; [6; 6]]]]%Z
  /\ tolist toy_output = [[[[6; 6; 24; 72]; [6; 6; 24; 72]]]]%Z
  /\ size0 toy_output = size0 toy_input
  /\ size1 toy_output = size1 toy_input
  /\ size2 toy_output = size2 toy_input.
Proof.
  split; [reflexivity |]. split; [reflexivity |].
  split; [reflexivity |]. split; [reflexivity |].
  pose proof (@forward_keeps_layout_and_input Z Z_Scalar toy_Torch toy_net
                toy_input toy_output None None tt toy_world toy_world eq_refl)
    as (S0 & S1 & S2 & _).
  auto.
Defined.

Lemma forward_fails_before_the_masked_convolution_witness :
  can_cat (@nil (Tensor Z)) = false
  /\ _DenseLayer.forward toy_layer [] None None tt 0
     = (Raise RuntimeError, 0)
  /\ total_channels [three_channels]
     <> nn_Conv2d.in_channels (_DenseLayer.conv1 toy_layer)
  /\ _DenseLayer.forward toy_layer [three_channels] None None tt 0
     = (Raise RuntimeError, 0).
Proof.
  split; [reflexivity |].
  split.
  - exact (@forward_fails_before_the_masked_convolution Z Z_Scalar toy_Torch
             toy_layer [] None None tt 0 (or_introl eq_refl)).
  - assert (N : total_channels [three_channels]
                <> nn_Conv2d.in_channels (_DenseLayer.conv1 toy_layer))
      by (vm_compute; lia).
    split; [exact N |].
    exact (@forward_fails_before_the_masked_convolution Z Z_Scalar toy_Torch
             toy_layer [three_channels] None None tt 0 (or_intror N)).
Defined.

Lemma forward_rejects_other_channel_counts_witness :
  DenseNetNoNorm.__init__ 4 toy_args 0 = (Ok toy_net, toy_world)
  /\ size3 one_channel = 2
  /\ DenseNetNoNorm.forward toy_net one_channel None None tt toy_world
     = (Raise RuntimeError, toy_world).
Proof.
  split; [reflexivity |]. split; [reflexivity |].
  assert (D : (1 <= divide_channels toy_args)%Z) by (simpl; lia).
  assert (G : (divide_channels toy_args > 1 \/ 1 <= num_layers toy_args)%Z)
    by (simpl; lia).
  assert (N : size3 one_channel <> Z.to_nat 4) by (vm_compute; lia).
  exact (@forward_rejects_other_channel_counts Z Z_Scalar toy_Torch 4%Z
           toy_args 0 toy_world toy_net one_channel None None tt toy_world
           eq_refl D G N).
Defined.

Lemma training_forward_zeroes_padded_positions_witness :
  _DenseLayer.training toy_layer = true
  /\ _DenseLayer.bottleneck_function toy_layer [toy_features]
     = Ok toy_bottleneck
  /\ tolist toy_bottleneck = [[[[4; 6]]; [[4; 6]]]]%Z
  /\ exists y,
       _DenseLayer.forward toy_layer [toy_features] (Some toy_mask)
         (Some toy_decoder_mask) tt 0
       = (stage_mconv2 toy_layer tt >=> stage_dropout toy_layer) y 0
       /\ shape y = shape toy_bottleneck
       /\ forall b c t s,
            b < 1 -> c < 2 -> t < 1 -> s < 2 ->
            item y b c t s
            = if padded (Some toy_mask) (Some toy_decoder_mask) b t s
              then 0%Z
              else Z.max 0 (item toy_bottleneck b c t s).
Proof.
  split; [reflexivity |]. split; [reflexivity |]. split; [reflexivity |].
  exact (@training_forward_zeroes_padded_positions Z Z_Scalar toy_Torch
           toy_layer [toy_features] (Some toy_mask) (Some toy_decoder_mask)
           tt 0 toy_bottleneck eq_refl eq_refl (conj eq_refl eq_refl)
           (conj eq_refl eq_refl)).
Defined.

Lemma forward_returns_on_well_shaped_input_witness :
  exists y w',
    DenseNetNoNorm.forward toy_net toy_input (Some toy_mask)
      (Some toy_decoder_mask) tt toy_world = (Ok y, w')
    /\ size0 y = size0 toy_input /\ size1 y = size1 toy_input
    /\ size2 y = size2 toy_input
    /\ Z.of_nat (size3 y) = DenseNetNoNorm.output_channels toy_net.
Proof.
  assert (D : (1 <= divide_channels toy_args <= 4)%Z) by (simpl; lia).
  assert (Bn : (1 <= bn_size toy_args)%Z) by (simpl; lia).
  assert (G : (1 <= growth_rate toy_args)%Z) by (simpl; lia).
  assert (K : Forall (mconv2_keeps_sizes (Z.to_nat (growth_rate toy_args)) tt)
                (DenseNetNoNorm.dense_layers toy_net)).
  { repeat constructor; apply toy_mconv2_keeps_sizes; reflexivity. }
  assert (Dr : Forall dropout_keeps_sizes
                 (DenseNetNoNorm.dense_layers toy_net)).
  { repeat constructor; apply toy_dropout_keeps_sizes. }
  assert (N0 : 1 <= size0 toy_input) by (simpl; lia).
  assert (N1 : 1 <= size1 toy_input) by (simpl; lia).
  assert (N2 : 1 <= size2 toy_input) by (simpl; lia).
  exact (@forward_returns_on_well_shaped_input Z Z_Scalar toy_Torch
           4%Z toy_args 0 toy_world toy_net toy_input (Some toy_mask)
           (Some toy_decoder_mask) tt toy_world eq_refl D Bn G K Dr
           N0 N1 N2 eq_refl
           (conj eq_refl eq_refl) (conj eq_refl eq_refl)).
Defined.

Lemma forward_output_has_output_channels_witness :
  DenseNetNoNorm.output_channels toy_net = (4 / 2 + 2 * 1)%Z
  /\ Z.of_nat (size3 toy_output) = DenseNetNoNorm.output_channels toy_net.
Proof.
  assert (D : (1 <= divide_channels toy_args)%Z) by (simpl; lia).
  assert (L : (0 <= num_layers toy_args)%Z) by (simpl; lia).
  assert (N : (0 <= 4)%Z) by lia.
  pose proof (@forward_output_has_output_channels Z Z_Scalar toy_Torch
                toy_MaskedConvolution_channels toy_F_dropout_channels
                4%Z toy_args 0 toy_world toy_net eq_refl D L N) as [O F].
  split; [exact O |].
  exact (F toy_input None None tt toy_world toy_output toy_world
           eq_refl eq_refl).
Defined.

Lemma Linear_redraws_weight_and_zeroes_bias_witness :
  Linear (-1) 2 true 0 = (Raise RuntimeError, 0)
  /\ exists m,
       Linear 4 2 true 0 = (Ok m, 3)
       /\ nn_Linear.in_features m = 4 /\ nn_Linear.out_features m = 2
       /\ nn_Linear.bias m = Some (fun _ => 0%Z).
Proof.
  pose proof (@Linear_redraws_weight_and_zeroes_bias Z _ _
                (-1)%Z 2%Z true 0) as [R _].
  pose proof (@Linear_redraws_weight_and_zeroes_bias Z _ _
                4%Z 2%Z true 0) as [_ P].
  split.
  - apply R. left. lia.
  - eexists. split; [reflexivity |].
    destruct (P _ _ eq_refl) as (_ & _ & I & O & B & _).
    split; [exact I |]. split; [exact O | exact B].
Defined.

Lemma dense_layer_padding_is_half_the_dilated_span_witness :
  Z.odd (kernel_size toy_args) = true
  /\ exists pt ps,
       (2 * pt = target_dilation toy_args * (kernel_size toy_args - 1)
        /\ 2 * ps = source_dilation toy_args * (kernel_size toy_args - 1))%Z.
Proof.
  split; [reflexivity |].
  destruct (@dense_layer_padding_is_half_the_dilated_span Z toy_Torch 2%Z
              toy_args 0) as (pt & ps & _ & _ & _ & O).
  exists pt, ps. exact (O eq_refl).
Defined.

Lemma layer_norm_broadcasts_the_channels_witness :
  shape (PervasiveLayerNorm.gamma toy_layer_norm) = (1, 2, 1, 1)
  /\ shape (PervasiveLayerNorm.beta toy_layer_norm) = (1, 2, 1, 1)
  /\ (exists y,
        PervasiveLayerNorm.forward toy_layer_norm one_channel = Ok y
        /\ shape y = (1, 2, 1, 2))
  /\ PervasiveLayerNorm.forward toy_layer_norm three_channels
     = Raise RuntimeError.
Proof.
  split; [reflexivity |]. split; [reflexivity |].
  pose proof (@layer_norm_broadcasts_the_channels Z _ toy_layer_norm
                one_channel 2 eq_refl eq_refl) as [P _].
  pose proof (@layer_norm_broadcasts_the_channels Z _ toy_layer_norm
                three_channels 2 eq_refl eq_refl) as [_ Q].
  split.
  - apply P. right. left. reflexivity.
  - apply Q. simpl. lia.
Defined.

Lemma batch_norm_eval_formula_witness :
  PervasiveBatchNorm.training toy_batch_norm_eval
  && PervasiveBatchNorm.track_running_stats toy_batch_norm_eval = false
  /\ exists y,
       PervasiveBatchNorm.forward toy_features toy_batch_norm_eval
       = (Ok y, toy_batch_norm_eval)
       /\ shape y = shape toy_features
       /\ forall b c t s,
            b < 1 -> c < 2 -> t < 1 -> s < 2 ->
            item y b c t s
            = normalised 1%Z 0%Z 1%Z (item toy_features b c t s) 0%Z 1%Z.
Proof.
  split; [reflexivity |].
  exact (@batch_norm_eval_formula Z _ toy_batch_norm_eval toy_features
           (full 1 2 1 1 0%Z false) (full 1 2 1 1 1%Z false)
           eq_refl eq_refl eq_refl eq_refl eq_refl eq_refl eq_refl).
Defined.

Lemma batch_norm_training_formula_witness :
  wrap_int64 (0 + 1) <> 0%Z
  /\ exists y rm' rs',
       PervasiveBatchNorm.forward toy_features toy_batch_norm
       = (Ok y,
          {| PervasiveBatchNorm.eps := 1%Z;
             PervasiveBatchNorm.momentum := None;
             PervasiveBatchNorm.gamma := full 1 2 1 1 1%Z true;
             PervasiveBatchNorm.beta := full 1 2 1 1 0%Z true;
             PervasiveBatchNorm.track_running_stats := true;
             PervasiveBatchNorm.training := true;
             PervasiveBatchNorm.running_mean := Some rm';
             PervasiveBatchNorm.running_std := Some rs';
             PervasiveBatchNorm.num_batches_tracked := Some 1%Z |})
       /\ shape y = (1, 2, 1, 2)
       /\ shape rm' = (1, 2, 1, 1) /\ shape rs' = (1, 2, 1, 1).
Proof.
  assert (W : wrap_int64 (0 + 1) <> 0%Z) by (vm_compute; discriminate).
  split; [exact W |].
  destruct (@batch_norm_training_formula Z _ toy_batch_norm
              toy_features (full 1 2 1 1 0%Z false) (full 1 2 1 1 1%Z false)
              0%Z eq_refl eq_refl eq_refl eq_refl eq_refl (fun _ => W)
              eq_refl eq_refl eq_refl eq_refl (Nat.lt_0_succ 0))
    as (y & rm' & rs' & F & Sy & _ & Sm & Ss & _).
  exists y, rm', rs'.
  split; [exact F |]. split; [exact Sy |]. split; [exact Sm | exact Ss].
Defined.

Lemma training_forward_counts_also_when_it_raises_witness :
  fst (PervasiveBatchNorm.forward three_channels toy_batch_norm)
  = Raise RuntimeError
  /\ PervasiveBatchNorm.num_batches_tracked
       (snd (PervasiveBatchNorm.forward three_channels toy_batch_norm))
     = Some 1%Z.
Proof.
  split; [reflexivity |].
  exact (proj1 (@training_forward_counts_also_when_it_raises Z _
                  toy_batch_norm three_channels 0%Z eq_refl eq_refl)).
Defined.

Lemma reset_running_stats_gives_the_initial_statistics_witness :
  PervasiveBatchNorm.__init__ 2 true 1%Z None = Ok toy_batch_norm
  /\ PervasiveBatchNorm.reset_running_stats toy_batch_norm
     = (Ok tt, toy_batch_norm).
Proof.
  split; [reflexivity |].
  destruct (@reset_running_stats_gives_the_initial_statistics Z _
              toy_batch_norm) as (_ & _ & I).
  exact (I 2%Z 1%Z None eq_refl).
Defined.

End FurtherOnTheSmallInstance.
